(** * openai-forward: configuration projection and process supervision

    A shallow embedding of [openai_forward/config/interface.py] and
    [openai_forward/__main__.py].

    Python values are modelled as follows.
    - [str] is a sequence of Unicode code points: [list N].  Literals of the
      source are written [py "..."]; the full-width comma of
      [ApiKey.convert_to_env] is the code point U+FF0C.
    - [int] is [Z] (unbounded, as in Python).
    - a [dict] is an association list in insertion order; assignment to an
      existing key keeps the key's position and replaces its value.
    - a raised exception is the [Raise] result of the [res] type. *)

From Stdlib Require Import List NArith ZArith Bool Lia String Ascii.
Import ListNotations.

Set Implicit Arguments.
Set Warnings "-register-all".

(** ** Python built-ins used by the source *)

Module Py.

Local Open Scope N_scope.

Definition str := list N.

(** A source literal: one code point per character of an ASCII literal. *)
Definition lit (s : string) : str :=
  map N_of_ascii (list_ascii_of_string s).

(** U+FF0C FULLWIDTH COMMA, the second delimiter of authorization levels. *)
Definition fullwidth_comma : N := 65292.

Fixpoint eqb (a b : str) : bool :=
  match a, b with
  | [], [] => true
  | x :: a', y :: b' => (x =? y) && eqb a' b'
  | _, _ => false
  end.

(** Truthiness of a string or a list: non-empty. *)
Definition truthy {A} (l : list A) : bool :=
  match l with [] => false | _ => true end.

(** [str.isspace] for one character: the code points Python treats as
    whitespace. *)
Definition isspace (c : N) : bool :=
  ((9 <=? c) && (c <=? 13)) || ((28 <=? c) && (c <=? 32))
  || (c =? 133) || (c =? 160) || (c =? 5760)
  || ((8192 <=? c) && (c <=? 8202))
  || (c =? 8232) || (c =? 8233) || (c =? 8239) || (c =? 8287) || (c =? 12288).

Fixpoint lstrip (s : str) : str :=
  match s with
  | c :: s' => if isspace c then lstrip s' else s
  | [] => []
  end.

Definition rstrip (s : str) : str := rev (lstrip (rev s)).

(** [s.strip()] *)
Definition strip (s : str) : str := rstrip (lstrip s).

(** [s.replace(old, new)] for one-character [old] and [new]. *)
Definition replace (old new : N) (s : str) : str :=
  map (fun c => if c =? old then new else c) s.

(** [s.split(sep)] for a one-character separator: never empty, and [''] for
    the empty string. *)
Fixpoint split (sep : N) (s : str) : list str :=
  match s with
  | [] => [[]]
  | c :: s' =>
      if c =? sep then [] :: split sep s'
      else match split sep s' with
           | w :: ws => (c :: w) :: ws
           | [] => [[c]]
           end
  end.

(** [sep.join(parts)] *)
Fixpoint join (sep : str) (parts : list str) : str :=
  match parts with
  | [] => []
  | [p] => p
  | p :: ps => p ++ sep ++ join sep ps
  end.

Definition digit_of (c : N) : option N :=
  if (48 <=? c) && (c <=? 57) then Some (c - 48) else None.

(** The digits of an [int] literal in base ten: at least one digit, single
    underscores allowed between digits only.  [seen] tells whether the
    previous character was a digit. *)
Fixpoint int_digits (acc : N) (seen : bool) (s : str) : option N :=
  match s with
  | [] => if seen then Some acc else None
  | c :: s' =>
      if c =? 95 then (if seen then int_digits acc false s' else None)
      else match digit_of c with
           | Some d => int_digits (10 * acc + d) true s'
           | None => None
           end
  end.

(** [int(s)] for a string: surrounding whitespace is ignored, then an
    optional sign and the digits.  [None] stands for [ValueError].  Decimal
    digits of other scripts, which [int] also accepts, are outside this
    model: only ASCII digits are read. *)
Definition int (s : str) : option Z :=
  match strip s with
  | [] => None
  | c :: ds =>
      if c =? 45
      then option_map (fun n => (- Z.of_N n)%Z) (int_digits 0 false ds)
      else if c =? 43 then option_map Z.of_N (int_digits 0 false ds)
      else option_map Z.of_N (int_digits 0 false (c :: ds))
  end.

(** The number a string of decimal digits stands for. *)
Definition digits_val (ds : str) : N :=
  fold_left (fun a c => 10 * a + (c - 48)) ds 0.

(** Decimal digits of a natural number, most significant first. *)
Fixpoint digits (fuel : nat) (n : N) : str :=
  match fuel with
  | O => []
  | S f => if n <? 10 then [48 + n] else digits f (n / 10) ++ [48 + n mod 10]
  end.

Definition str_of_N (n : N) : str := digits (S (N.to_nat (N.log2 n))) n.

(** [str(z)] for an [int]. *)
Definition str_of_int (z : Z) : str :=
  if (z <? 0)%Z then 45 :: str_of_N (Z.abs_N z) else str_of_N (Z.to_N z).

(** [str(b)] for a [bool]. *)
Definition str_of_bool (b : bool) : str :=
  if b then lit "True" else lit "False".

End Py.

Abbreviation pystr := Py.str.
Abbreviation py := Py.lit.
Arguments Py.lit s%_string.

(** Exceptions raised by the modelled code. *)
Inductive exn : Type :=
| AttributeError (msg : pystr)
| ValueError (msg : pystr)
| TypeError (msg : pystr)
| RuntimeError (msg : pystr).

Inductive res (A : Type) : Type :=
| Ok (a : A)
| Raise (e : exn).
Arguments Ok {A} a.
Arguments Raise {A} e.

Definition bind {A B} (m : res A) (k : A -> res B) : res B :=
  match m with
  | Ok a => k a
  | Raise e => Raise e
  end.

Notation "x <- m ;; k" := (bind m (fun x => k))
  (at level 61, m at next level, right associativity).
Notation "' p <- m ;; k" := (bind m (fun x => let 'p := x in k))
  (at level 61, p pattern, m at next level, right associativity).

(** [[f(x) for x in xs]] where [f] may raise: the first exception aborts. *)
Fixpoint mapM {A B} (f : A -> res B) (xs : list A) : res (list B) :=
  match xs with
  | [] => Ok []
  | x :: xs' => y <- f x ;; ys <- mapM f xs' ;; Ok (y :: ys)
  end.

Example lit_example : py "1, 2" = [49; 44; 32; 50]%N.
Proof. reflexivity. Qed.

Example int_examples :
  Py.int (py " 12 ") = Some 12%Z /\ Py.int (py "-7") = Some (-7)%Z
  /\ Py.int (py "1_000") = Some 1000%Z /\ Py.int (py "") = None
  /\ Py.int (py "1 2") = None /\ Py.int (py "a") = None
  /\ Py.int (py "_1") = None /\ Py.int (py "007") = Some 7%Z.
Proof. repeat split; reflexivity. Qed.

Example str_of_int_examples :
  Py.str_of_int 0 = py "0" /\ Py.str_of_int 6 = py "6"
  /\ Py.str_of_int (-15) = py "-15" /\ Py.str_of_int 8000 = py "8000".
Proof. repeat split; reflexivity. Qed.

Example split_examples :
  Py.split 44 (py "1, 2,3") = [py "1"; py " 2"; py "3"]
  /\ Py.split 44 (py "") = [py ""] /\ Py.split 44 (py "1,") = [py "1"; py ""].
Proof. repeat split; reflexivity. Qed.

(** ** Dictionaries with string keys *)

Definition dict (V : Type) : Type := list (pystr * V).

(** [d[k] = v] *)
Fixpoint dict_set {V} (k : pystr) (v : V) (d : dict V) : dict V :=
  match d with
  | [] => [(k, v)]
  | (k', v') :: d' =>
      if Py.eqb k k' then (k', v) :: d' else (k', v') :: dict_set k v d'
  end.

(** [d.get(k)] *)
Fixpoint dict_get {V} (k : pystr) (d : dict V) : option V :=
  match d with
  | [] => None
  | (k', v) :: d' => if Py.eqb k k' then Some v else dict_get k d'
  end.

(** [d.update(e)] *)
Definition dict_update {V} (d e : dict V) : dict V :=
  fold_left (fun acc kv => dict_set (fst kv) (snd kv) acc) e d.

(** [{k: v for (k, v) in items}] *)
Definition dict_of_items {V} (items : list (pystr * V)) : dict V :=
  dict_update [] items.

Definition keys {V} (d : dict V) : list pystr := map fst d.

(** The flat environment mapping, and [os.environ]. *)
Definition env := dict pystr.

(** [if set_env: os.environ.update(env_dict)] *)
Definition set_environ (set_env : bool) (env_dict environ : env) : env :=
  if set_env then dict_update environ env_dict else environ.

(** ** [json.dumps] with its default arguments *)

Module Json.

Local Open Scope N_scope.

Inductive t : Type :=
| JNull
| JBool (b : bool)
| JInt (z : Z)
| JStr (s : pystr)
| JList (l : list t)
| JDict (d : list (pystr * t)).

Definition hexdigit (d : N) : N := if d <? 10 then 48 + d else 87 + d.

(** [\uXXXX] with four lower-case hexadecimal digits. *)
Definition u_escape (n : N) : pystr :=
  [92; 117; hexdigit (n / 4096 mod 16); hexdigit (n / 256 mod 16);
   hexdigit (n / 16 mod 16); hexdigit (n mod 16)].

(** One character of a string literal ([ensure_ascii=True]): the short
    escapes, printable ASCII as it is, [\uXXXX] for the rest and a surrogate
    pair above the basic plane. *)
Definition escape_char (c : N) : pystr :=
  if c =? 34 then [92; 34]
  else if c =? 92 then [92; 92]
  else if c =? 10 then [92; 110]
  else if c =? 13 then [92; 114]
  else if c =? 9 then [92; 116]
  else if c =? 8 then [92; 98]
  else if c =? 12 then [92; 102]
  else if (32 <=? c) && (c <=? 126) then [c]
  else if c <? 65536 then u_escape c
  else let v := c - 65536 in
       u_escape (55296 + v / 1024 mod 1024) ++ u_escape (56320 + v mod 1024).

Definition quote (s : pystr) : pystr :=
  34 :: flat_map escape_char s ++ [34].

(** [json.dumps(j)]: items separated by [", "], keys from values by [": "]. *)
Fixpoint dumps (j : t) : pystr :=
  match j with
  | JNull => py "null"
  | JBool b => if b then py "true" else py "false"
  | JInt z => Py.str_of_int z
  | JStr s => quote s
  | JList l => py "[" ++ Py.join (py ", ") (map dumps l) ++ py "]"
  | JDict d =>
      py "{"
      ++ Py.join (py ", ")
           (map (fun kv => quote (fst kv) ++ py ": " ++ dumps (snd kv)) d)
      ++ py "}"
  end.

(** *** [json.loads]

    Strings, integers, the three literals, arrays and objects, as the
    scanner of the [json] module reads them; a number with a fraction or an
    exponent is a float and has no counterpart here ([None], like a syntax
    error). *)

Definition is_ws (c : N) : bool :=
  (c =? 32) || (c =? 9) || (c =? 10) || (c =? 13).

Fixpoint skip_ws (s : pystr) : pystr :=
  match s with
  | c :: r => if is_ws c then skip_ws r else s
  | [] => []
  end.

Definition hexval (c : N) : option N :=
  if (48 <=? c) && (c <=? 57) then Some (c - 48)
  else if (97 <=? c) && (c <=? 102) then Some (c - 87)
  else if (65 <=? c) && (c <=? 70) then Some (c - 55)
  else None.

Definition hex4 (a b c d : N) : option N :=
  match hexval a, hexval b, hexval c, hexval d with
  | Some x, Some y, Some z, Some w => Some (((x * 16 + y) * 16 + z) * 16 + w)
  | _, _, _, _ => None
  end.

(** The character after a backslash, other than [u]. *)
Definition unescape (e : N) : option N :=
  if e =? 34 then Some 34
  else if e =? 92 then Some 92
  else if e =? 47 then Some 47
  else if e =? 98 then Some 8
  else if e =? 102 then Some 12
  else if e =? 110 then Some 10
  else if e =? 114 then Some 13
  else if e =? 116 then Some 9
  else None.

Definition high_surrogate (u : N) : bool := (55296 <=? u) && (u <=? 56319).

Definition low_surrogate (u : N) : bool := (56320 <=? u) && (u <=? 57343).

(** The characters after an opening quote, up to the closing one: the
    string and what follows it.  A high surrogate escape directly followed
    by a low surrogate escape is one character. *)
Fixpoint scanstring (s : pystr) (acc : pystr) : option (pystr * pystr) :=
  match s with
  | [] => None
  | c :: r =>
      if c =? 34 then Some (rev acc, r)
      else if c =? 92 then
        match r with
        | [] => None
        | e :: r1 =>
            if e =? 117 then
              match r1 with
              | a :: b :: c1 :: d :: r2 =>
                  match hex4 a b c1 d with
                  | None => None
                  | Some uni =>
                      if high_surrogate uni then
                        match r2 with
                        | b1 :: u1 :: a2 :: b2 :: c2 :: d2 :: r3 =>
                            if (b1 =? 92) && (u1 =? 117) then
                              match hex4 a2 b2 c2 d2 with
                              | None => None
                              | Some uni2 =>
                                  if low_surrogate uni2
                                  then scanstring r3
                                         ((65536 + (uni - 55296) * 1024
                                           + (uni2 - 56320)) :: acc)
                                  else scanstring r2 (uni :: acc)
                              end
                            else scanstring r2 (uni :: acc)
                        | _ => scanstring r2 (uni :: acc)
                        end
                      else scanstring r2 (uni :: acc)
                  end
              | _ => None
              end
            else match unescape e with
                 | Some x => scanstring r1 (x :: acc)
                 | None => None
                 end
        end
      else if c <? 32 then None
      else scanstring r (c :: acc)
  end.

Definition digit_char (c : N) : bool := (48 <=? c) && (c <=? 57).

Fixpoint span_digits (s : pystr) : pystr * pystr :=
  match s with
  | c :: r =>
      if digit_char c
      then let (ds, rest) := span_digits r in (c :: ds, rest)
      else ([], s)
  | [] => ([], [])
  end.

(** The integer part is [0] or starts with a non-zero digit; a fraction or
    an exponent after it makes a float. *)
Definition scan_int (negative : bool) (s : pystr) : option (Z * pystr) :=
  match s with
  | [] => None
  | c :: r =>
      let (ds, rest) :=
        if c =? 48 then ([48], r)
        else if digit_char c
        then (c :: fst (span_digits r), snd (span_digits r))
        else ([], s) in
      match ds with
      | [] => None
      | _ =>
          let n := Z.of_N (Py.digits_val ds) in
          let z := if negative then (- n)%Z else n in
          match rest with
          | x :: _ =>
              if (x =? 46) || (x =? 101) || (x =? 69) then None
              else Some (z, rest)
          | [] => Some (z, rest)
          end
      end
  end.

Definition scan_number (s : pystr) : option (Z * pystr) :=
  match s with
  | c :: r => if c =? 45 then scan_int true r else scan_int false s
  | [] => None
  end.

(** [s] without the prefix [p], when it has it. *)
Fixpoint after_prefix (p s : pystr) : option pystr :=
  match p, s with
  | [], _ => Some s
  | x :: p', y :: s' => if x =? y then after_prefix p' s' else None
  | _ :: _, [] => None
  end.

Fixpoint parse_value (fuel : nat) (s : pystr) : option (t * pystr) :=
  match fuel with
  | O => None
  | S f =>
      match s with
      | [] => None
      | c :: r =>
          if c =? 34 then
            match scanstring r [] with
            | Some (str, rest) => Some (JStr str, rest)
            | None => None
            end
          else if c =? 91 then
            match skip_ws r with
            | c1 :: r1 =>
                if c1 =? 93 then Some (JList [], r1)
                else parse_elements f (c1 :: r1) []
            | [] => None
            end
          else if c =? 123 then
            match skip_ws r with
            | c1 :: r1 =>
                if c1 =? 125 then Some (JDict [], r1)
                else parse_members f (c1 :: r1) []
            | [] => None
            end
          else if c =? 110 then
            option_map (fun rest => (JNull, rest)) (after_prefix (py "null") s)
          else if c =? 116 then
            option_map (fun rest => (JBool true, rest))
              (after_prefix (py "true") s)
          else if c =? 102 then
            option_map (fun rest => (JBool false, rest))
              (after_prefix (py "false") s)
          else
            option_map (fun zr => (JInt (fst zr), snd zr)) (scan_number s)
      end
  end

with parse_elements (fuel : nat) (s : pystr) (acc : list t)
  : option (t * pystr) :=
  match fuel with
  | O => None
  | S f =>
      match parse_value f s with
      | None => None
      | Some (v, rest) =>
          match skip_ws rest with
          | c :: r =>
              if c =? 44 then parse_elements f (skip_ws r) (v :: acc)
              else if c =? 93 then Some (JList (rev (v :: acc)), r)
              else None
          | [] => None
          end
      end
  end

with parse_members (fuel : nat) (s : pystr) (acc : list (pystr * t))
  : option (t * pystr) :=
  match fuel with
  | O => None
  | S f =>
      match s with
      | [] => None
      | c :: r =>
          if c =? 34 then
            match scanstring r [] with
            | None => None
            | Some (k, rest) =>
                match skip_ws rest with
                | [] => None
                | c1 :: r1 =>
                    if c1 =? 58 then
                      match parse_value f (skip_ws r1) with
                      | None => None
                      | Some (v, rest2) =>
                          match skip_ws rest2 with
                          | [] => None
                          | c2 :: r2 =>
                              if c2 =? 44
                              then parse_members f (skip_ws r2) ((k, v) :: acc)
                              else if c2 =? 125
                              then Some (JDict (dict_of_items
                                                  (rev ((k, v) :: acc))), r2)
                              else None
                          end
                      end
                    else None
                end
            end
          else None
      end
  end.

(** [json.loads(s)]: one value, with nothing but whitespace around it.  An
    object with a repeated key keeps the last value given for it. *)
Definition loads (s : pystr) : option t :=
  match parse_value (S (List.length s)) (skip_ws s) with
  | Some (v, rest) =>
      match skip_ws rest with
      | [] => Some v
      | _ :: _ => None
      end
  | None => None
  end.

End Json.

Import Json.

Example dumps_example :
  Json.dumps (JDict [(py "sk-a", JList [JInt 1; JInt 2; JInt 3])])
  = py "{" ++ [34%N] ++ py "sk-a" ++ [34%N] ++ py ": [1, 2, 3]}".
Proof. reflexivity. Qed.

(** ** [openai_forward/config/interface.py] *)

Module ForwardItem.

Record t : Type := mk { base_url : pystr; route : pystr; type : pystr }.

(** [Base.to_dict]: the attributes in declaration order (none is [None]). *)
Definition to_dict (self : t) : Json.t :=
  JDict [(py "base_url", JStr self.(base_url));
         (py "route", JStr self.(route));
         (py "type", JStr self.(type))].

End ForwardItem.

Module CacheConfig.

Record t : Type := mk {
  backend : pystr;
  root_path_or_url : pystr;
  default_request_caching_value : bool;
  openai : bool;
  general : bool;
  routes : list pystr }.

Definition default : t :=
  mk (py "LevelDB") (py "./FLAXKV_DB") true false false
     [py "/v1/chat/completions"].

Definition convert_to_env (self : t) (set_env : bool) (environ : env)
  : env * env :=
  let env_dict := [] in
  let env_dict :=
    dict_set (py "CACHE_OPENAI") (Py.str_of_bool self.(openai)) env_dict in
  let env_dict :=
    dict_set (py "CACHE_GENERAL") (Py.str_of_bool self.(general)) env_dict in
  let env_dict := dict_set (py "CACHE_BACKEND") self.(backend) env_dict in
  let env_dict :=
    dict_set (py "CACHE_ROOT_PATH_OR_URL") self.(root_path_or_url) env_dict in
  let env_dict :=
    dict_set (py "DEFAULT_REQUEST_CACHING_VALUE")
      (Py.str_of_bool self.(default_request_caching_value)) env_dict in
  let env_dict :=
    dict_set (py "CACHE_ROUTES") (Json.dumps (JList (map JStr self.(routes))))
      env_dict in
  (env_dict, set_environ set_env env_dict environ).

End CacheConfig.

(** One entry of [RateLimitType.value]: [{"level": 0, "limit": "60/second"}]. *)
Module LimitItem.

Record t : Type := mk { level : Z; limit : pystr }.

Definition to_json (self : t) : Json.t :=
  JDict [(py "level", JInt self.(level)); (py "limit", JStr self.(limit))].

End LimitItem.

Module RateLimitType.

Record t : Type := mk { route : pystr; value : list LimitItem.t }.

End RateLimitType.

Module RateLimit.

Record t : Type := mk {
  backend : pystr;
  global_rate_limit : pystr;
  token_rate_limit : list RateLimitType.t;
  req_rate_limit : list RateLimitType.t;
  iter_chunk : pystr;
  strategy : pystr }.

Definition default : t :=
  mk (py "") (py "inf")
     [RateLimitType.mk (py "/v1/chat/completions")
        [LimitItem.mk 0 (py "60/second")];
      RateLimitType.mk (py "/v1/completions")
        [LimitItem.mk 0 (py "60/second")]]
     [RateLimitType.mk (py "/v1/chat/completions")
        [LimitItem.mk 0 (py "100/2minutes")];
      RateLimitType.mk (py "/v1/completions")
        [LimitItem.mk 0 (py "60/minute")];
      RateLimitType.mk (py "/v1/embeddings")
        [LimitItem.mk 0 (py "100/2minutes")]]
     (py "one-by-one") (py "moving-window").

(** [{i.route: i.value for i in rules if i.route and i.value}] *)
Definition projected (rules : list RateLimitType.t) : dict (list LimitItem.t) :=
  dict_of_items
    (map (fun i => (i.(RateLimitType.route), i.(RateLimitType.value)))
       (filter
          (fun i => Py.truthy i.(RateLimitType.route)
                    && Py.truthy i.(RateLimitType.value))
          rules)).

Definition limits_json (d : dict (list LimitItem.t)) : Json.t :=
  JDict (map (fun kv => (fst kv, JList (map LimitItem.to_json (snd kv)))) d).

Definition convert_to_env (self : t) (set_env : bool) (environ : env)
  : env * env :=
  let env_dict := [] in
  let env_dict :=
    dict_set (py "GLOBAL_RATE_LIMIT") self.(global_rate_limit) env_dict in
  let env_dict := dict_set (py "RATE_LIMIT_STRATEGY") self.(strategy) env_dict in
  let env_dict :=
    dict_set (py "TOKEN_RATE_LIMIT")
      (Json.dumps (limits_json (projected self.(token_rate_limit)))) env_dict in
  let env_dict :=
    dict_set (py "REQ_RATE_LIMIT")
      (Json.dumps (limits_json (projected self.(req_rate_limit)))) env_dict in
  let env_dict := dict_set (py "ITER_CHUNK_TYPE") self.(iter_chunk) env_dict in
  (env_dict, set_environ set_env env_dict environ).

End RateLimit.

Module ApiKey.

(** A value of [openai_key].  The attribute is an untyped [Dict]: the class
    default holds lists of levels ([{"sk-xx1": [0]}]), and [convert_to_env]
    reads each value as a string ([value: str]). *)
Inductive levels : Type :=
| LevelsStr (s : pystr)
| LevelsList (l : list Z).

Record t : Type := mk {
  openai_key : dict levels;
  forward_key : list (Z * list pystr);
  level : list (Z * list pystr) }.

Definition default : t :=
  mk [(py "sk-xx1", LevelsList [0%Z])]
     [(0%Z, [py "fk-1"])]
     [(1%Z, [py "gpt-3.5-turbo"])].

(** [value.strip().replace('，', ',').split(',')]; a list has no [strip]. *)
Definition split_levels (value : levels) : res (list pystr) :=
  match value with
  | LevelsStr s =>
      Ok (Py.split 44 (Py.replace Py.fullwidth_comma 44 (Py.strip s)))
  | LevelsList _ =>
      Raise (AttributeError (py "'list' object has no attribute 'strip'"))
  end.

(** [int(i)] *)
Definition int_level (i : pystr) : res Z :=
  match Py.int i with
  | Some z => Ok z
  | None => Raise (ValueError (py "invalid literal for int() with base 10"))
  end.

(** The loop over [self.openai_key.items()] filling [openai_key_dict]. *)
Fixpoint parse_items (items : list (pystr * levels))
  (openai_key_dict : dict (list Z)) : res (dict (list Z)) :=
  match items with
  | [] => Ok openai_key_dict
  | (key, value) :: items' =>
      values <- split_levels value ;;
      ints <- mapM int_level values ;;
      parse_items items' (dict_set key ints openai_key_dict)
  end.

Definition levels_json (d : dict (list Z)) : Json.t :=
  JDict (map (fun kv => (fst kv, JList (map JInt (snd kv)))) d).

(** [json.dumps] of a dictionary with [int] keys: each key becomes its
    decimal string. *)
Definition int_keyed_json (d : list (Z * list pystr)) : Json.t :=
  JDict (map (fun kv => (Py.str_of_int (fst kv), JList (map JStr (snd kv)))) d).

Definition convert_to_env (self : t) (set_env : bool) (environ : env)
  : res (env * env) :=
  let env_dict := [] in
  openai_key_dict <- parse_items self.(openai_key) [] ;;
  let env_dict :=
    dict_set (py "OPENAI_API_KEY_CONFIG")
      (Json.dumps (levels_json openai_key_dict)) env_dict in
  let env_dict :=
    dict_set (py "FORWARD_KEY_CONFIG")
      (Json.dumps (int_keyed_json self.(forward_key))) env_dict in
  let env_dict :=
    dict_set (py "LEVEL_MODELS") (Json.dumps (int_keyed_json self.(level)))
      env_dict in
  Ok (env_dict, set_environ set_env env_dict environ).

End ApiKey.

Module Log.

Record t : Type := mk { general : bool; openai : bool }.

Definition default : t := mk true true.

Definition convert_to_env (self : t) (set_env : bool) (environ : env)
  : env * env :=
  let env_dict := [] in
  let env_dict :=
    dict_set (py "LOG_GENERAL") (Py.str_of_bool self.(general)) env_dict in
  let env_dict :=
    dict_set (py "LOG_OPENAI") (Py.str_of_bool self.(openai)) env_dict in
  (env_dict, set_environ set_env env_dict environ).

End Log.

(** The constants of [openai_forward.config.settings] read by
    [Config.come_from_env].  That module is not among the sources; the
    values it computes from the environment are a parameter of the method.
    [None] is Python's [None]; [CACHE_ROUTE_SET] is a set, given here by its
    elements in iteration order. *)
Module Settings.

Record t : Type := mk {
  TIMEOUT : Z;
  BENCHMARK_MODE : bool;
  PROXY : option pystr;
  LOG_OPENAI : bool;
  LOG_GENERAL : bool;
  RATE_LIMIT_STRATEGY : pystr;
  GLOBAL_RATE_LIMIT : pystr;
  ITER_CHUNK_TYPE : pystr;
  RATE_LIMIT_BACKEND : option pystr;
  req_rate_limit_dict : dict (list LimitItem.t);
  token_rate_limit_conf : dict (list LimitItem.t);
  CACHE_BACKEND : pystr;
  CACHE_ROOT_PATH_OR_URL : pystr;
  DEFAULT_REQUEST_CACHING_VALUE : bool;
  CACHE_OPENAI : bool;
  CACHE_GENERAL : bool;
  CACHE_ROUTE_SET : list pystr;
  LEVEL_MODELS : list (Z * list pystr);
  OPENAI_API_KEY : dict (list Z);
  LEVEL_TO_FWD_KEY : list (Z * list pystr);
  FORWARD_CONFIG : list (dict pystr) }.

End Settings.

(** [a or b] for an optional string, and for lists. *)
Definition or_str (a : option pystr) (b : pystr) : pystr :=
  match a with
  | Some (c :: s) => c :: s
  | _ => b
  end.

Definition or_list {A} (a b : list A) : list A :=
  match a with [] => b | _ => a end.

Module Config.

Record t : Type := mk {
  forward : list ForwardItem.t;
  api_key : ApiKey.t;
  cache : CacheConfig.t;
  rate_limit : RateLimit.t;
  log : Log.t;
  timezone : pystr;
  timeout : Z;
  benchmark_mode : bool;
  proxy : pystr;
  default_stream_response : bool }.

(** [Config()] *)
Definition default : t :=
  mk [ForwardItem.mk (py "https://api.openai.com") (py "/") (py "openai");
      ForwardItem.mk (py "https://generativelanguage.googleapis.com")
        (py "/gemini") (py "general")]
     ApiKey.default CacheConfig.default RateLimit.default Log.default
     (py "Asia/Shanghai") 6 false (py "") true.

Definition convert_to_env (self : t) (set_env : bool) (environ : env)
  : res (env * env) :=
  let env_dict :=
    [(py "FORWARD_CONFIG",
      Json.dumps (JList (map ForwardItem.to_dict self.(forward))))] in
  '(d, environ) <- ApiKey.convert_to_env self.(api_key) false environ ;;
  let env_dict := dict_update env_dict d in
  let '(d, environ) :=
    CacheConfig.convert_to_env self.(cache) false environ in
  let env_dict := dict_update env_dict d in
  let '(d, environ) :=
    RateLimit.convert_to_env self.(rate_limit) false environ in
  let env_dict := dict_update env_dict d in
  let '(d, environ) := Log.convert_to_env self.(log) false environ in
  let env_dict := dict_update env_dict d in
  let env_dict := dict_set (py "TZ") self.(timezone) env_dict in
  let env_dict :=
    dict_set (py "TIMEOUT") (Py.str_of_int self.(timeout)) env_dict in
  let env_dict :=
    dict_set (py "BENCHMARK_MODE") (Py.str_of_bool self.(benchmark_mode))
      env_dict in
  let env_dict :=
    dict_set (py "DEFAULT_STREAM_RESPONSE")
      (Py.str_of_bool self.(default_stream_response)) env_dict in
  let env_dict :=
    if Py.truthy self.(proxy)
    then dict_set (py "PROXY") self.(proxy) env_dict
    else env_dict in
  Ok (env_dict, set_environ set_env env_dict environ).

(** A [ForwardItem] built from the keyword arguments [i]: [base_url] and
    [route] are required, [type] defaults to ["general"], any other keyword
    is refused. *)
Definition forward_item_of_kwargs (i : dict pystr) : res ForwardItem.t :=
  if forallb
       (fun k => Py.eqb k (py "base_url") || Py.eqb k (py "route")
                 || Py.eqb k (py "type"))
       (keys i)
  then
    match dict_get (py "base_url") i, dict_get (py "route") i with
    | Some b, Some r =>
        Ok (ForwardItem.mk b r
              (match dict_get (py "type") i with
               | Some ty => ty
               | None => py "general"
               end))
    | _, _ => Raise (TypeError (py "missing required positional argument"))
    end
  else Raise (TypeError (py "got an unexpected keyword argument")).

Definition rules_of_dict (d : dict (list LimitItem.t)) : list RateLimitType.t :=
  map (fun kv => RateLimitType.mk (fst kv) (snd kv)) d.

(** [come_from_env]: the attributes assigned, in the source's order, from
    the settings constants [S] and [os.environ]; [default_stream_response]
    is not assigned. *)
Definition come_from_env (S : Settings.t) (environ : env) (self : t) : res t :=
  let timeout := S.(Settings.TIMEOUT) in
  let timezone :=
    match dict_get (py "TZ") environ with
    | Some tz => tz
    | None => py "Asia/Shanghai"
    end in
  let benchmark_mode := S.(Settings.BENCHMARK_MODE) in
  let proxy := or_str S.(Settings.PROXY) (py "") in
  let log := Log.mk S.(Settings.LOG_GENERAL) S.(Settings.LOG_OPENAI) in
  let rl := self.(rate_limit) in
  let rate_limit :=
    RateLimit.mk
      (or_str S.(Settings.RATE_LIMIT_BACKEND) rl.(RateLimit.backend))
      S.(Settings.GLOBAL_RATE_LIMIT)
      (or_list (rules_of_dict S.(Settings.token_rate_limit_conf))
         rl.(RateLimit.token_rate_limit))
      (or_list (rules_of_dict S.(Settings.req_rate_limit_dict))
         rl.(RateLimit.req_rate_limit))
      S.(Settings.ITER_CHUNK_TYPE)
      S.(Settings.RATE_LIMIT_STRATEGY) in
  let c := self.(cache) in
  let cache :=
    CacheConfig.mk
      S.(Settings.CACHE_BACKEND)
      S.(Settings.CACHE_ROOT_PATH_OR_URL)
      S.(Settings.DEFAULT_REQUEST_CACHING_VALUE)
      (S.(Settings.CACHE_OPENAI) || c.(CacheConfig.openai))
      (S.(Settings.CACHE_GENERAL) || c.(CacheConfig.general))
      (or_list S.(Settings.CACHE_ROUTE_SET) c.(CacheConfig.routes)) in
  let a := self.(api_key) in
  let api_key :=
    ApiKey.mk
      (or_list
         (map (fun kv => (fst kv, ApiKey.LevelsList (snd kv)))
            S.(Settings.OPENAI_API_KEY))
         a.(ApiKey.openai_key))
      (or_list S.(Settings.LEVEL_TO_FWD_KEY) a.(ApiKey.forward_key))
      (or_list S.(Settings.LEVEL_MODELS) a.(ApiKey.level)) in
  forward <- mapM forward_item_of_kwargs S.(Settings.FORWARD_CONFIG) ;;
  Ok (mk forward api_key cache rate_limit log timezone timeout benchmark_mode
        proxy self.(default_stream_response)).

End Config.

(** ** Facts about strings and dictionaries *)

Lemma eqb_eq (a b : pystr) : Py.eqb a b = true <-> a = b.
Proof.
  revert b; induction a as [|x a IH]; intros [|y b]; simpl;
    try (split; [discriminate | discriminate]); try tauto.
  rewrite andb_true_iff, N.eqb_eq, IH.
  split; [intros [-> ->]; reflexivity | intros [= -> ->]; auto].
Qed.

Lemma eqb_refl (a : pystr) : Py.eqb a a = true.
Proof. apply eqb_eq; reflexivity. Qed.

Lemma eqb_neq (a b : pystr) : Py.eqb a b = false <-> a <> b.
Proof.
  rewrite <- eqb_eq. destruct (Py.eqb a b); split; congruence.
Qed.

Lemma truthy_true {A} (l : list A) : Py.truthy l = true <-> l <> [].
Proof. destruct l; simpl; split; congruence. Qed.

Lemma dict_get_set_same {V} (k : pystr) (v : V) (d : dict V) :
  dict_get k (dict_set k v d) = Some v.
Proof.
  induction d as [|[k' v'] d IH]; simpl.
  - rewrite eqb_refl; reflexivity.
  - destruct (Py.eqb k k') eqn:E; simpl; rewrite E; auto.
Qed.

Lemma dict_get_set_other {V} (k k' : pystr) (v : V) (d : dict V) :
  k' <> k -> dict_get k' (dict_set k v d) = dict_get k' d.
Proof.
  intros N; induction d as [|[k0 v0] d IH]; simpl.
  - apply eqb_neq in N; rewrite N; reflexivity.
  - destruct (Py.eqb k k0) eqn:E; simpl.
    + apply eqb_eq in E; subst k0. apply eqb_neq in N; rewrite N; reflexivity.
    + rewrite IH; reflexivity.
Qed.

Lemma keys_set_in {V} (k : pystr) (v : V) (d : dict V) :
  In k (keys d) -> keys (dict_set k v d) = keys d.
Proof.
  unfold keys; induction d as [|[k0 v0] d IH]; simpl; [tauto|].
  intros H; destruct (Py.eqb k k0) eqn:E; simpl; [reflexivity|].
  f_equal; apply IH. destruct H as [H|H]; [|exact H].
  apply eqb_neq in E; congruence.
Qed.

Lemma keys_set_notin {V} (k : pystr) (v : V) (d : dict V) :
  ~ In k (keys d) -> keys (dict_set k v d) = keys d ++ [k].
Proof.
  unfold keys; induction d as [|[k0 v0] d IH]; simpl; [reflexivity|].
  intros H; destruct (Py.eqb k k0) eqn:E; simpl.
  - apply eqb_eq in E; subst; tauto.
  - f_equal; apply IH; tauto.
Qed.


(** ** The key set of the projection (claim C5) *)

(** The environment keys of section 6 of the specification, in the order
    [Config.convert_to_env] writes them: forwarding rules; provider-key,
    forward-key and level-to-models mappings; cache flags for openai and
    general, cache backend, storage location, default caching flag and
    cached routes; global rate limit, strategy, token and request rate
    limits, chunk iteration mode; the two logging flags; timezone, timeout,
    benchmark mode and default stream response.  The proxy key comes last
    and only for a non-empty proxy. *)
Definition documented_keys : list pystr :=
  [py "FORWARD_CONFIG"; py "OPENAI_API_KEY_CONFIG"; py "FORWARD_KEY_CONFIG";
   py "LEVEL_MODELS"; py "CACHE_OPENAI"; py "CACHE_GENERAL";
   py "CACHE_BACKEND"; py "CACHE_ROOT_PATH_OR_URL";
   py "DEFAULT_REQUEST_CACHING_VALUE"; py "CACHE_ROUTES";
   py "GLOBAL_RATE_LIMIT"; py "RATE_LIMIT_STRATEGY"; py "TOKEN_RATE_LIMIT";
   py "REQ_RATE_LIMIT"; py "ITER_CHUNK_TYPE"; py "LOG_GENERAL";
   py "LOG_OPENAI"; py "TZ"; py "TIMEOUT"; py "BENCHMARK_MODE";
   py "DEFAULT_STREAM_RESPONSE"].

(** A configuration that projects: the defaults, with the levels of the
    provider key written as the string the projection expects. *)
Definition sample_api_key : ApiKey.t :=
  ApiKey.mk [(py "sk-xx1", ApiKey.LevelsStr (py "0"))]
    ApiKey.default.(ApiKey.forward_key) ApiKey.default.(ApiKey.level).

Definition sample_config : Config.t :=
  Config.mk Config.default.(Config.forward) sample_api_key
    CacheConfig.default RateLimit.default Log.default
    (py "Asia/Shanghai") 6 false (py "") true.

Ltac project_config H :=
  unfold Config.convert_to_env, ApiKey.convert_to_env in H;
  destruct (ApiKey.parse_items _ _) as [?d|?e]; [|discriminate H];
  cbn -[Json.dumps Py.str_of_int Py.str_of_bool Py.truthy] in H.

(** C5. Whenever the projection returns a mapping, its keys are exactly the
    documented keys, in the documented order, followed by [PROXY] if and
    only if the proxy field is non-empty; the value under [PROXY] is then
    the proxy itself, so it is never the empty string. *)
Theorem C5_projected_key_set :
  forall (self : Config.t) set_env environ env_dict environ',
    Config.convert_to_env self set_env environ = Ok (env_dict, environ') ->
    keys env_dict
    = documented_keys
      ++ (if Py.truthy self.(Config.proxy) then [py "PROXY"] else [])
    /\ (In (py "PROXY") (keys env_dict) <-> self.(Config.proxy) <> [])
    /\ dict_get (py "PROXY") env_dict
       = (if Py.truthy self.(Config.proxy)
          then Some self.(Config.proxy) else None)
    /\ dict_get (py "PROXY") env_dict <> Some [].
Proof.
  intros self set_env environ env_dict environ' H.
  project_config H.
  destruct (Py.truthy self.(Config.proxy)) eqn:E; injection H as <- _.
  - apply truthy_true in E.
    repeat split; try reflexivity; try (intros _; exact E).
    + intros _. vm_compute. auto 30.
    + cbn -[Json.dumps Py.str_of_int Py.str_of_bool]. congruence.
  - assert (P : self.(Config.proxy) = []).
    { destruct self.(Config.proxy); [reflexivity | discriminate E]. }
    repeat split; try reflexivity; try discriminate.
    + intros HI. exfalso. revert HI. vm_compute.
      intuition discriminate.
    + intros N; congruence.
Qed.

Lemma C5_projected_key_set_witness :
  exists env_dict,
    Config.convert_to_env sample_config false [] = Ok (env_dict, [])
    /\ keys env_dict = documented_keys.
Proof.
  eexists; split; [vm_compute; reflexivity|].
  rewrite <- (app_nil_r documented_keys).
  exact (proj1 (@C5_projected_key_set sample_config false [] _ [] eq_refl)).
Defined.

(** ** Projection of the class defaults (claim C2) *)

(** C2. [Config().convert_to_env()] raises: the default [openai_key] maps
    ["sk-xx1"] to the list [[0]], on which [value.strip()] is an
    [AttributeError].  This is the call [Cli.gen_config] makes. *)
Theorem C2_default_projection_raises :
  forall set_env environ,
    Config.convert_to_env Config.default set_env environ
    = Raise (AttributeError (py "'list' object has no attribute 'strip'")).
Proof. intros set_env environ. reflexivity. Qed.

(** ** Filtering of rate-limit rules (claim C4) *)

Lemma dict_get_app {V} (k : pystr) (a b : dict V) :
  dict_get k (a ++ b)
  = match dict_get k a with Some v => Some v | None => dict_get k b end.
Proof.
  induction a as [|[k0 v0] a IH]; simpl; [reflexivity|].
  destruct (Py.eqb k k0); auto.
Qed.

Lemma dict_get_update {V} (k : pystr) (items d : dict V) :
  dict_get k (dict_update d items)
  = match dict_get k (rev items) with
    | Some v => Some v
    | None => dict_get k d
    end.
Proof.
  unfold dict_update; revert d; induction items as [|[k0 v0] items IH];
    intros d; simpl; [reflexivity|].
  rewrite IH, dict_get_app; simpl.
  destruct (dict_get k (rev items)); [reflexivity|].
  destruct (Py.eqb k k0) eqn:E.
  - apply eqb_eq in E; subst; apply dict_get_set_same.
  - apply eqb_neq in E; apply dict_get_set_other; exact E.
Qed.

Section RateLimitFiltering.

Import RateLimitType.

(** The test [i.route and i.value] of the comprehension. *)
Definition kept (i : RateLimitType.t) : bool :=
  Py.truthy i.(route) && Py.truthy i.(value).

(** The limits of the last kept rule for route [r], if any. *)
Fixpoint last_kept (r : pystr) (rules : list RateLimitType.t)
  : option (list LimitItem.t) :=
  match rules with
  | [] => None
  | i :: rest =>
      match last_kept r rest with
      | Some v => Some v
      | None => if kept i && Py.eqb r i.(route) then Some i.(value) else None
      end
  end.

Lemma projected_last_kept (r : pystr) (rules : list RateLimitType.t) :
  dict_get r (RateLimit.projected rules) = last_kept r rules.
Proof.
  unfold RateLimit.projected, dict_of_items.
  rewrite dict_get_update; simpl.
  replace (match dict_get r (rev (map (fun i => (i.(route), i.(value)))
                                    (filter (fun i => Py.truthy i.(route)
                                                      && Py.truthy i.(value))
                                       rules)))
           with Some v => Some v | None => None end)
    with (dict_get r (rev (map (fun i => (i.(route), i.(value)))
                             (filter kept rules))))
    by (unfold kept; destruct (dict_get r _); reflexivity).
  induction rules as [|i rest IH]; simpl; [reflexivity|].
  destruct (kept i) eqn:K; simpl.
  - rewrite dict_get_app, IH; simpl.
    destruct (last_kept r rest); [reflexivity|].
    destruct (Py.eqb r i.(route)); reflexivity.
  - rewrite IH. destruct (last_kept r rest); reflexivity.
Qed.

Lemma last_kept_none (r : pystr) (rules : list RateLimitType.t) :
  last_kept r rules = None <->
  forall j, In j rules -> j.(route) = r -> kept j = false.
Proof.
  induction rules as [|i rest IH]; simpl; [tauto|].
  destruct (last_kept r rest) as [v|].
  - split; [discriminate|]. intros H.
    assert (X : Some v = None) by (apply IH; intros j Hj; apply H; auto).
    discriminate X.
  - destruct (kept i) eqn:K; simpl.
    + destruct (Py.eqb r i.(route)) eqn:E.
      * split; [discriminate|]. intros H. apply eqb_eq in E.
        rewrite (H i) in K; auto; discriminate.
      * apply eqb_neq in E. split; [|reflexivity].
        intros _ j [<-|Hj] R; [congruence|].
        apply (proj1 IH); auto.
    + split; [|destruct (Py.eqb r (route i)); reflexivity].
      intros _ j [<-|Hj] R; [exact K|]. apply (proj1 IH); auto.
Qed.

Lemma last_kept_some (r : pystr) (v : list LimitItem.t)
  (rules : list RateLimitType.t) :
  last_kept r rules = Some v <->
  exists pre post,
    rules = pre ++ RateLimitType.mk r v :: post
    /\ r <> [] /\ v <> []
    /\ forall j, In j post -> j.(route) = r -> kept j = false.
Proof.
  induction rules as [|i rest IH]; simpl.
  - split; [discriminate|]. intros (pre & post & H & _).
    destruct pre; discriminate H.
  - split.
    + destruct (last_kept r rest) as [w|] eqn:L.
      * intros [= ->]. destruct (proj1 IH eq_refl) as (pre & post & -> & H).
        exists (i :: pre), post; split; [reflexivity | exact H].
      * destruct (kept i) eqn:K; simpl; [|discriminate].
        destruct (Py.eqb r i.(route)) eqn:E; [|discriminate].
        intros [= <-]. apply eqb_eq in E; subst r.
        unfold kept in K; apply andb_true_iff in K; destruct K as [K1 K2].
        apply truthy_true in K1; apply truthy_true in K2.
        exists [], rest; repeat split; auto.
        -- destruct i; reflexivity.
        -- apply last_kept_none; exact L.
    + intros (pre & post & H & Hr & Hv & Hpost).
      destruct pre as [|i' pre]; simpl in H; injection H as -> ->.
      * apply last_kept_none in Hpost; rewrite Hpost; simpl.
        unfold kept; simpl. rewrite eqb_refl.
        destruct r; [congruence|]; destruct v; [congruence|]; reflexivity.
      * assert (X : last_kept r (pre ++ RateLimitType.mk r v :: post) = Some v).
        { apply IH; exists pre, post; auto. }
        rewrite X; reflexivity.
Qed.

End RateLimitFiltering.

(** Two rules for one route. *)
Definition first_rule : RateLimitType.t :=
  RateLimitType.mk (py "/v1/chat/completions") [LimitItem.mk 0 (py "60/second")].

Definition second_rule : RateLimitType.t :=
  RateLimitType.mk (py "/v1/chat/completions") [LimitItem.mk 1 (py "10/second")].

(** C4, as stated, fails: of two rules for the same route, both with a
    route and limits, only the second is in the projected mapping. *)
Lemma C4_duplicate_route_counterexample :
  In first_rule [first_rule; second_rule]
  /\ first_rule.(RateLimitType.route) <> []
  /\ first_rule.(RateLimitType.value) <> []
  /\ RateLimit.projected [first_rule; second_rule]
     = [(py "/v1/chat/completions", [LimitItem.mk 1 (py "10/second")])]
  /\ ~ In (first_rule.(RateLimitType.route), first_rule.(RateLimitType.value))
         (RateLimit.projected [first_rule; second_rule]).
Proof.
  repeat split; try (simpl; auto; discriminate).
  vm_compute. intros [H|[]]. discriminate H.
Qed.

(** C4, amended. [TOKEN_RATE_LIMIT] and [REQ_RATE_LIMIT] are the JSON text
    of the mapping [projected] of the respective rules, and a route [r] is
    bound to limits [v] in that mapping exactly when some rule has route
    [r] and limits [v], both non-empty, and no later rule for [r] has
    non-empty limits.  Hence a rule with an empty route or empty limits is
    never an entry, and a rule with both non-empty is an entry unless a
    later such rule for the same route replaces it.  The method returns the
    mapping only: the rules of the model are not touched. *)
Theorem C4_rate_limit_filtering :
  forall (self : RateLimit.t) set_env environ,
    dict_get (py "TOKEN_RATE_LIMIT")
      (fst (RateLimit.convert_to_env self set_env environ))
    = Some (Json.dumps (RateLimit.limits_json
                          (RateLimit.projected self.(RateLimit.token_rate_limit))))
    /\ dict_get (py "REQ_RATE_LIMIT")
         (fst (RateLimit.convert_to_env self set_env environ))
       = Some (Json.dumps (RateLimit.limits_json
                             (RateLimit.projected self.(RateLimit.req_rate_limit))))
    /\ forall rules r v,
         dict_get r (RateLimit.projected rules) = Some v <->
         exists pre post,
           rules = pre ++ RateLimitType.mk r v :: post
           /\ r <> [] /\ v <> []
           /\ forall j, In j post -> j.(RateLimitType.route) = r ->
                        j.(RateLimitType.value) = [].
Proof.
  intros self set_env environ. split; [reflexivity|]. split; [reflexivity|].
  intros rules r v. rewrite projected_last_kept, last_kept_some.
  split; intros (pre & post & H & Hr & Hv & Hpost); exists pre, post;
    repeat split; auto; intros j Hj R.
  - specialize (Hpost j Hj R). unfold kept in Hpost.
    rewrite R in Hpost. destruct r; [congruence|]. simpl in Hpost.
    destruct j.(RateLimitType.value); [reflexivity | discriminate].
  - unfold kept. rewrite (Hpost j Hj R). apply andb_false_r.
Qed.

(** ** Decimal text of integers *)

Section Decimal.

Local Open Scope N_scope.

Definition is_digit (c : N) : Prop := 48 <= c <= 57.

(** The characters [str] of an [int] is made of. *)
Definition numeral_char (c : N) : Prop := c = 45 \/ is_digit c.

Lemma digits_are_digits (fuel : nat) (n : N) :
  Forall is_digit (Py.digits fuel n).
Proof.
  revert n; induction fuel as [|f IH]; intros n; cbn [Py.digits];
    [constructor|].
  destruct (N.ltb_spec n 10).
  - constructor; [unfold is_digit; lia | constructor].
  - apply Forall_app; split; [apply IH|].
    constructor; [|constructor].
    assert (R : n mod 10 < 10) by (apply N.mod_upper_bound; lia).
    unfold is_digit; revert R; generalize (n mod 10); intros r R; lia.
Qed.

Lemma str_of_N_nonempty (n : N) : Py.str_of_N n <> [].
Proof.
  unfold Py.str_of_N; cbn [Py.digits]. destruct (n <? 10); [discriminate|].
  intros H; apply app_eq_nil in H; destruct H as [_ H]; discriminate H.
Qed.

Lemma digits_val_digits (fuel : nat) (n : N) :
  n < 2 ^ N.of_nat fuel -> Py.digits_val (Py.digits fuel n) = n.
Proof.
  revert n; induction fuel as [|f IH]; intros n Hn.
  - simpl in Hn. unfold Py.digits_val; cbn [Py.digits fold_left]. lia.
  - cbn [Py.digits]. destruct (N.ltb_spec n 10).
    + unfold Py.digits_val; cbn [fold_left]. lia.
    + unfold Py.digits_val in *. rewrite fold_left_app; cbn [fold_left].
      rewrite IH.
      * replace (48 + n mod 10 - 48) with (n mod 10)
          by (generalize (n mod 10); intros; lia).
        symmetry; apply N.div_mod; lia.
      * rewrite Nnat.Nat2N.inj_succ, N.pow_succ_r' in Hn.
        apply N.Div0.div_lt_upper_bound.
        revert Hn; generalize (2 ^ N.of_nat f); intros; lia.
Qed.

Lemma str_of_N_val (n : N) : Py.digits_val (Py.str_of_N n) = n.
Proof.
  apply digits_val_digits.
  rewrite Nnat.Nat2N.inj_succ, Nnat.N2Nat.id.
  destruct n as [|p]; [reflexivity|].
  apply N.log2_spec; lia.
Qed.

Lemma int_digits_seen (ds : pystr) (acc : N) :
  Forall is_digit ds ->
  Py.int_digits acc true ds
  = Some (fold_left (fun a c => 10 * a + (c - 48)) ds acc).
Proof.
  intros H; revert acc; induction H as [|c ds Hc _ IH]; intros acc;
    cbn [Py.int_digits fold_left]; [reflexivity|].
  unfold is_digit in Hc.
  replace (c =? 95) with false by (symmetry; apply N.eqb_neq; lia).
  unfold Py.digit_of.
  replace (48 <=? c) with true by (symmetry; apply N.leb_le; lia).
  replace (c <=? 57) with true by (symmetry; apply N.leb_le; lia).
  cbn [andb]. apply IH.
Qed.

Lemma int_digits_first (ds : pystr) :
  Forall is_digit ds -> ds <> [] ->
  Py.int_digits 0 false ds = Some (Py.digits_val ds).
Proof.
  intros H N0. destruct H as [|c ds Hc H]; [congruence|].
  cbn [Py.int_digits]. unfold is_digit in Hc.
  replace (c =? 95) with false by (symmetry; apply N.eqb_neq; lia).
  unfold Py.digit_of.
  replace (48 <=? c) with true by (symmetry; apply N.leb_le; lia).
  replace (c <=? 57) with true by (symmetry; apply N.leb_le; lia).
  cbn [andb]. unfold Py.digits_val; cbn [fold_left].
  apply int_digits_seen; exact H.
Qed.

Lemma str_of_int_chars (z : Z) : Forall numeral_char (Py.str_of_int z).
Proof.
  unfold Py.str_of_int, Py.str_of_N.
  destruct (z <? 0)%Z; [constructor; [left; reflexivity|]|];
    (eapply Forall_impl; [|apply digits_are_digits]); intros c Hc; right;
    exact Hc.
Qed.

Lemma str_of_int_nonempty (z : Z) : Py.str_of_int z <> [].
Proof.
  unfold Py.str_of_int. destruct (z <? 0)%Z; [discriminate|].
  apply str_of_N_nonempty.
Qed.

Lemma isspace_numeral (c : N) : numeral_char c -> Py.isspace c = false.
Proof.
  intros H. assert (R : 32 < c < 133) by (destruct H as [->|H]; [|unfold is_digit in H]; lia).
  unfold Py.isspace.
  replace (c <=? 13) with false by (symmetry; apply N.leb_gt; lia).
  replace (c <=? 32) with false by (symmetry; apply N.leb_gt; lia).
  replace (8192 <=? c) with false by (symmetry; apply N.leb_gt; lia).
  replace (c =? 133) with false by (symmetry; apply N.eqb_neq; lia).
  replace (c =? 160) with false by (symmetry; apply N.eqb_neq; lia).
  replace (c =? 5760) with false by (symmetry; apply N.eqb_neq; lia).
  replace (c =? 8232) with false by (symmetry; apply N.eqb_neq; lia).
  replace (c =? 8233) with false by (symmetry; apply N.eqb_neq; lia).
  replace (c =? 8239) with false by (symmetry; apply N.eqb_neq; lia).
  replace (c =? 8287) with false by (symmetry; apply N.eqb_neq; lia).
  replace (c =? 12288) with false by (symmetry; apply N.eqb_neq; lia).
  rewrite !andb_false_r. reflexivity.
Qed.

End Decimal.

(** ** Stripping and splitting *)

Section Strings.

Local Open Scope N_scope.

Definition all_space (s : pystr) : Prop :=
  Forall (fun c => Py.isspace c = true) s.

Lemma lstrip_spaces (ws : pystr) (c : N) (s : pystr) :
  all_space ws -> Py.isspace c = false ->
  Py.lstrip (ws ++ c :: s) = c :: s.
Proof.
  intros H Hc; induction H as [|w ws Hw _ IH]; simpl.
  - rewrite Hc; reflexivity.
  - rewrite Hw; exact IH.
Qed.

Lemma rstrip_spaces (ws : pystr) (c : N) (s : pystr) :
  all_space ws -> Py.isspace c = false ->
  Py.rstrip (s ++ c :: ws) = s ++ [c].
Proof.
  intros H Hc. unfold Py.rstrip.
  rewrite rev_app_distr; simpl. rewrite <- app_assoc; simpl.
  rewrite lstrip_spaces; auto.
  - simpl. rewrite rev_involutive. reflexivity.
  - apply Forall_rev; exact H.
Qed.

(** A text that starts and ends with a non-blank character, wrapped in
    whitespace, strips to itself. *)
Lemma strip_wrapped (a b : pystr) (c d : N) (m : pystr) (body : pystr) :
  all_space a -> all_space b ->
  body = c :: m -> Py.isspace c = false ->
  (exists x, body = x ++ [d]) -> Py.isspace d = false ->
  Py.strip (a ++ body ++ b) = body.
Proof.
  intros Ha Hb E Hc [x Ex] Hd. unfold Py.strip.
  rewrite E at 1. simpl. rewrite lstrip_spaces by auto.
  change (c :: m ++ b) with ((c :: m) ++ b). rewrite <- E, Ex.
  rewrite <- app_assoc; simpl. apply rstrip_spaces; auto.
Qed.



End Strings.

(** ** Normalisation of authorization levels (claim C3) *)

Section LevelsText.

Local Open Scope N_scope.

Definition blanks (n : nat) : pystr := repeat 32 n.

Inductive delimiter : Type := AsciiComma | FullwidthComma.

Definition delimiter_char (d : delimiter) : N :=
  match d with AsciiComma => 44 | FullwidthComma => Py.fullwidth_comma end.

(** One more level of a text: blanks, a delimiter, blanks, the level. *)
Record more : Type := More {
  before : nat; delim : delimiter; after : nat; lvl : Z }.

(** Levels in decimal, separated by ASCII or full-width commas with
    optional blanks around them. *)
Fixpoint levels_body (z : Z) (rest : list more) : pystr :=
  Py.str_of_int z
  ++ match rest with
     | [] => []
     | m :: rest' =>
         blanks m.(before) ++ [delimiter_char m.(delim)]
         ++ blanks m.(after) ++ levels_body m.(lvl) rest'
     end.

Definition levels_text (lead : nat) (z : Z) (rest : list more) (trail : nat)
  : pystr :=
  blanks lead ++ levels_body z rest ++ blanks trail.



Lemma numeral_head (z : Z) :
  exists c m, Py.str_of_int z = c :: m /\ Py.isspace c = false.
Proof.
  pose proof (str_of_int_chars z) as H. pose proof (str_of_int_nonempty z).
  destruct (Py.str_of_int z) as [|c m]; [congruence|].
  exists c, m; split; [reflexivity|]. inversion H; subst.
  apply isspace_numeral; assumption.
Qed.

Lemma numeral_last (z : Z) :
  exists x d, Py.str_of_int z = x ++ [d] /\ Py.isspace d = false.
Proof.
  pose proof (str_of_int_chars z) as H. pose proof (str_of_int_nonempty z).
  destruct (exists_last H0) as (x & d & E). exists x, d; split; [exact E|].
  rewrite E in H. apply Forall_app in H; destruct H as [_ H].
  inversion H; subst. apply isspace_numeral; assumption.
Qed.

Lemma strip_padded_numeral (a b : pystr) (z : Z) :
  all_space a -> all_space b ->
  Py.strip (a ++ Py.str_of_int z ++ b) = Py.str_of_int z.
Proof.
  intros Ha Hb.
  destruct (numeral_head z) as (c & m & E & Hc).
  destruct (numeral_last z) as (x & d & E' & Hd).
  apply (@strip_wrapped a b c d m); eauto.
Qed.

Lemma strip_numeral (z : Z) : Py.strip (Py.str_of_int z) = Py.str_of_int z.
Proof.
  rewrite <- (app_nil_r (Py.str_of_int z)) at 1.
  apply (@strip_padded_numeral [] [] z); constructor.
Qed.

Lemma int_of_str (z : Z) : Py.int (Py.str_of_int z) = Some z.
Proof.
  unfold Py.int. rewrite strip_numeral.
  unfold Py.str_of_int. destruct (Z.ltb_spec z 0).
  - cbn [N.eqb Pos.eqb]. rewrite int_digits_first.
    + rewrite str_of_N_val. simpl. f_equal. lia.
    + apply digits_are_digits.
    + apply str_of_N_nonempty.
  - pose proof (digits_are_digits (S (N.to_nat (N.log2 (Z.to_N z)))) (Z.to_N z))
      as D.
    fold (Py.str_of_N (Z.to_N z)) in D.
    pose proof (@str_of_N_nonempty (Z.to_N z)) as NE.
    destruct (Py.str_of_N (Z.to_N z)) as [|c m] eqn:E; [congruence|].
    inversion D as [|? ? Dc _]; subst. unfold is_digit in Dc.
    replace (c =? 45) with false by (symmetry; apply N.eqb_neq; lia).
    replace (c =? 43) with false by (symmetry; apply N.eqb_neq; lia).
    rewrite int_digits_first by (auto; discriminate).
    rewrite <- E, str_of_N_val. simpl. f_equal. lia.
Qed.














End LevelsText.

Example spec_levels_text :
  levels_text 0 1 [More 0 AsciiComma 1 2; More 0 FullwidthComma 0 3] 0
  = py "1, 2" ++ [Py.fullwidth_comma] ++ py "3".
Proof. reflexivity. Qed.




(** The example of the specification: ["sk-a"] mapped to ["1, 2，3"]. *)
Definition spec_api_key : ApiKey.t :=
  ApiKey.mk
    [(py "sk-a",
      ApiKey.LevelsStr
        (levels_text 0 1 [More 0 AsciiComma 1 2; More 0 FullwidthComma 0 3] 0))]
    ApiKey.default.(ApiKey.forward_key) ApiKey.default.(ApiKey.level).


Example spec_example_projected :
  option_map (fun r => dict_get (py "OPENAI_API_KEY_CONFIG") (fst r))
    (match ApiKey.convert_to_env spec_api_key false [] with
     | Ok r => Some r
     | Raise _ => None
     end)
  = Some (Some (Json.dumps
                  (JDict [(py "sk-a", JList [JInt 1; JInt 2; JInt 3])]))).
Proof. reflexivity. Qed.

(** ** [openai_forward/__main__.py]: processes, time and effects

    A child process is known by its command line, the time it was spawned,
    the time it is gone ([exits_at], once that is settled) and its reaction
    to an interrupt: [grace = Some d] exits [d] time-units after the signal,
    [grace = None] ignores it.  Time is a counter of time-units that only
    the blocking calls advance. *)

Record process : Type := mkProcess {
  argv : list pystr;
  started : nat;
  exits_at : option nat;
  grace : option nat }.

(** The process is running at time [t]. *)
Definition live_at (p : process) (t : nat) : bool :=
  (p.(started) <=? t)%nat
  && match p.(exits_at) with Some e => (t <? e)%nat | None => true end.

Inductive event : Type :=
| Spawn (pid : nat) (command : list pystr)
| SendSignal (pid : nat) (signal : pystr)
| Wait (pid : nat) (timeout : nat)
| Kill (pid : nat)
| HealthCheck (url : pystr) (timeout : nat) (suppress_exception : bool)
| ServerRun (port workers : Z) (ssl_keyfile ssl_certfile : option pystr)
    (environ : env)
| Print (line : pystr)
| ConvertFolder (log_folder : pystr) (target_path : option pystr)
| WriteFile (path : pystr) (content : pystr).

(** Exceptions of the supervisor, beside the built-in ones. *)
Inductive failure : Type :=
| Builtin (e : exn)
| TimeoutExpired
| StartupTimeout
| HelperError.

(** The [Cli] object's process handles and the world around it. *)
Record state : Type := mkState {
  uvicorn_proc : option nat;
  streamlit_proc : option nat;
  procs : list process;
  now : nat;
  environ : env;
  log : list event }.

Inductive outcome (A : Type) : Type :=
| Returns (a : A)
| Raises (e : failure).
Arguments Returns {A} a.
Arguments Raises {A} e.

(** A command: a result or an exception, and the state it leaves. *)
Definition M (A : Type) : Type := state -> outcome A * state.

Definition ret {A} (a : A) : M A := fun s => (Returns a, s).

Definition raise {A} (e : failure) : M A := fun s => (Raises e, s).

Definition bindM {A B} (m : M A) (k : A -> M B) : M B :=
  fun s =>
    match m s with
    | (Returns a, s') => k a s'
    | (Raises e, s') => (Raises e, s')
    end.

Notation "x <~ m ;; k" := (bindM m (fun x => k))
  (at level 61, m at next level, right associativity).
Notation "m ;;; k" := (bindM m (fun _ => k))
  (at level 61, right associativity).

(** [try: m except TimeoutExpired: h] *)
Definition try_timeout (m h : M unit) : M unit :=
  fun s =>
    match m s with
    | (Raises TimeoutExpired, s') => h s'
    | r => r
    end.

Definition emit (e : event) : M unit :=
  fun s =>
    (Returns tt,
     mkState s.(uvicorn_proc) s.(streamlit_proc) s.(procs) s.(now)
       s.(environ) (s.(log) ++ [e])).

Definition set_procs (ps : list process) (s : state) : state :=
  mkState s.(uvicorn_proc) s.(streamlit_proc) ps s.(now) s.(environ) s.(log).

Definition set_now (t : nat) (s : state) : state :=
  mkState s.(uvicorn_proc) s.(streamlit_proc) s.(procs) t s.(environ) s.(log).

Fixpoint update {A} (i : nat) (f : A -> A) (l : list A) : list A :=
  match l, i with
  | [], _ => []
  | x :: l', O => f x :: l'
  | x :: l', S i' => x :: update i' f l'
  end.

(** The earlier of a settled exit time and [t]. *)
Definition exit_by (t : nat) (p : process) : process :=
  mkProcess p.(argv) p.(started)
    (match p.(exits_at) with
     | Some e => Some (Nat.min e t)
     | None => Some t
     end)
    p.(grace).

(** [proc.poll() is None] *)
Definition running (pid : nat) (s : state) : bool :=
  match nth_error s.(procs) pid with
  | Some p => live_at p s.(now)
  | None => false
  end.

(** [proc.send_signal(signal.SIGINT)] *)
Definition send_sigint (pid : nat) : M unit :=
  emit (SendSignal pid (py "SIGINT")) ;;;
  fun s =>
    (Returns tt,
     set_procs
       (update pid
          (fun p => match p.(grace) with
                    | Some d => exit_by (s.(now) + d) p
                    | None => p
                    end)
          s.(procs)) s).

(** [proc.wait(timeout=t)]: returns when the process is gone, raises
    [TimeoutExpired] after [t] time-units otherwise. *)
Definition wait (pid : nat) (timeout : nat) : M unit :=
  emit (Wait pid timeout) ;;;
  fun s =>
    match option_map exits_at (nth_error s.(procs) pid) with
    | Some (Some e) =>
        if (e <=? s.(now) + timeout)%nat
        then (Returns tt, set_now (Nat.max s.(now) e) s)
        else (Raises TimeoutExpired, set_now (s.(now) + timeout) s)
    | Some None => (Raises TimeoutExpired, set_now (s.(now) + timeout) s)
    | None => (Returns tt, s)
    end.

(** [proc.kill()] *)
Definition kill (pid : nat) : M unit :=
  emit (Kill pid) ;;;
  fun s => (Returns tt, set_procs (update pid (exit_by s.(now)) s.(procs)) s).

Section Cli.

(** What the host and the helpers outside the sources decide:
    [platform.system()]; whether a GET of a URL succeeds at a given time;
    how a spawned command reacts to an interrupt; the route prefixes of the
    settings module; and the two helpers of [Cli.convert]. *)
Variable platform_system : pystr.
Variable healthz : pystr -> nat -> bool.
Variable child_grace : list pystr -> option nat.
Variable OPENAI_ROUTE_PREFIX : list pystr.
Variable route_prefix_to_str : pystr -> pystr.
Variable convert_folder_fails : pystr -> option pystr -> bool.

(** [subprocess.Popen(command)] *)
Definition Popen (command : list pystr) : M nat :=
  fun s =>
    let pid := List.length s.(procs) in
    (Returns pid,
     mkState s.(uvicorn_proc) s.(streamlit_proc)
       (s.(procs) ++ [mkProcess command s.(now) None (child_grace command)])
       s.(now) s.(environ) (s.(log) ++ [Spawn pid command])).

(** First time in [from, from + n] at which [url] answers. *)
Fixpoint first_healthy (url : pystr) (from n : nat) : option nat :=
  if healthz url from then Some from
  else match n with
       | O => None
       | S n' => first_healthy url (S from) n'
       end.

(** Modelled from the spec: [wait_for_serve_start] of
    [openai_forward.helper], which is not among the sources.  It polls the
    liveness endpoint for at most [timeout] time-units; when the endpoint
    never answers, the failure is raised, or suppressed (treated as
    success) when [suppress_exception] is set. *)
Definition wait_for_serve_start (url : pystr) (timeout : nat)
  (suppress_exception : bool) : M unit :=
  emit (HealthCheck url timeout suppress_exception) ;;;
  fun s =>
    match first_healthy url s.(now) timeout with
    | Some t => (Returns tt, set_now t s)
    | None =>
        if suppress_exception
        then (Returns tt, set_now (s.(now) + timeout) s)
        else (Raises StartupTimeout, set_now (s.(now) + timeout) s)
    end.

Definition set_uvicorn_proc (pid : nat) : M unit :=
  fun s =>
    (Returns tt,
     mkState (Some pid) s.(streamlit_proc) s.(procs) s.(now) s.(environ)
       s.(log)).

(** Reading a handle attribute that was never assigned is an
    [AttributeError]. *)
Definition attribute (get : state -> option nat) (name : pystr) : M nat :=
  fun s =>
    match get s with
    | Some pid => (Returns pid, s)
    | None => (Raises (Builtin (AttributeError name)), s)
    end.

Definition uvicorn_command (port workers : Z)
  (ssl_keyfile ssl_certfile : option pystr) : list pystr :=
  [py "uvicorn"; py "openai_forward.app:app"; py "--host"; py "0.0.0.0";
   py "--port"; Py.str_of_int port; py "--app-dir"; py "..";
   py "--workers"; Py.str_of_int workers]
  ++ match ssl_keyfile with
     | Some (c :: f) => [py "--ssl-keyfile"; c :: f]
     | _ => []
     end
  ++ match ssl_certfile with
     | Some (c :: f) => [py "--ssl-certfile"; c :: f]
     | _ => []
     end.

Definition healthz_url (port : Z) : pystr :=
  py "http://localhost:" ++ Py.str_of_int port ++ py "/healthz".

Definition _start_uvicorn (port workers : Z)
  (ssl_keyfile ssl_certfile : option pystr) : M unit :=
  pid <~ Popen (uvicorn_command port workers ssl_keyfile ssl_certfile) ;;
  set_uvicorn_proc pid ;;;
  let suppress_exception := Py.eqb platform_system (py "Windows") in
  wait_for_serve_start (healthz_url port) 10 suppress_exception.

(** One branch of [_stop]: interrupt, wait for the grace period, kill on
    [TimeoutExpired]; nothing when [poll()] shows the process gone. *)
Definition stop_handle (get : state -> option nat) (name : pystr)
  (grace_period : nat) : M unit :=
  pid <~ attribute get name ;;
  fun s =>
    if running pid s
    then (send_sigint pid ;;;
          try_timeout (wait pid grace_period) (kill pid)) s
    else (Returns tt, s).

Definition _stop (uvicorn streamlit : bool) : M unit :=
  (if uvicorn then stop_handle uvicorn_proc (py "uvicorn_proc") 15
   else ret tt) ;;;
  (if streamlit then stop_handle streamlit_proc (py "streamlit_proc") 5
   else ret tt).

Definition _stop_streamlit : M unit := _stop false true.

Definition _stop_uvicorn : M unit := _stop true false.

Definition _restart_uvicorn (port workers : Z)
  (ssl_keyfile ssl_certfile : option pystr) : M unit :=
  _stop_uvicorn ;;;
  _start_uvicorn port workers ssl_keyfile ssl_certfile.

(** [os.environ.get(name, None) or None] *)
Definition environ_or_none (name : pystr) (s : state) : option pystr :=
  match dict_get name s.(environ) with
  | Some (c :: v) => Some (c :: v)
  | _ => None
  end.

(** [os.environ[name] = value] *)
Definition putenv (name value : pystr) : M unit :=
  fun s =>
    (Returns tt,
     mkState s.(uvicorn_proc) s.(streamlit_proc) s.(procs) s.(now)
       (dict_set name value s.(environ)) s.(log)).

(** [Cli.run]: [uvicorn.run] is the launch of the server, recorded with the
    environment it starts in. *)
Definition run (port workers : Z) (start_ui : bool) (ui_port : Z) : M unit :=
  (if Py.eqb platform_system (py "Windows") then putenv (py "TZ") (py "")
   else ret tt) ;;;
  fun s =>
    let ssl_keyfile := environ_or_none (py "ssl_keyfile") s in
    let ssl_certfile := environ_or_none (py "ssl_certfile") s in
    emit (ServerRun port workers ssl_keyfile ssl_certfile s.(environ)) s.

Definition dashes : pystr := repeat 45%N 60.

(** [convert_folder_to_jsonl] of [openai_forward.helper], not among the
    sources: the file work of [Cli.convert], which may fail. *)
Definition convert_folder_to_jsonl (log_folder : pystr)
  (target_path : option pystr) : M unit :=
  emit (ConvertFolder log_folder target_path) ;;;
  if convert_folder_fails log_folder target_path then raise HelperError
  else ret tt.

(** A [None] inside an f-string prints as [None]. *)
Definition format_optional (v : option pystr) : pystr :=
  match v with Some t => t | None => py "None" end.

Fixpoint for_each {A} (xs : list A) (body : A -> M unit) : M unit :=
  match xs with
  | [] => ret tt
  | x :: xs' => body x ;;; for_each xs' body
  end.

(** The body of the loop of [convert], for one route prefix. *)
Definition convert_route (prefix : pystr) : M unit :=
  let log_folder := py "./Log/" ++ prefix ++ py "/chat" in
  let target_path := py "./Log/chat_" ++ prefix ++ py ".json" in
  emit (Print (py "Convert " ++ log_folder ++ py "/*.log to " ++ target_path)) ;;;
  convert_folder_to_jsonl log_folder (Some target_path) ;;;
  emit (Print dashes).

Definition convert (log_folder target_path : option pystr) : M unit :=
  emit (Print dashes) ;;;
  match log_folder with
  | None =>
      match target_path with
      | Some _ =>
          raise (Builtin (ValueError
                   (py "target_path must be None when log_folder is None")))
      | None =>
          let _prefix_list := map route_prefix_to_str OPENAI_ROUTE_PREFIX in
          for_each _prefix_list convert_route
      end
  | Some folder =>
      emit (Print (py "Convert " ++ folder ++ py "/*.log to "
                   ++ format_optional target_path)) ;;;
      convert_folder_to_jsonl folder target_path ;;;
      emit (Print dashes)
  end.

(** [Cli.gen_config]: the projection of [Config()] written to [dir/.env]. *)
Definition gen_config (dir : pystr) : M unit :=
  fun s =>
    match Config.convert_to_env Config.default false s.(environ) with
    | Raise e => (Raises (Builtin e), s)
    | Ok (env_dict, _) =>
        emit (WriteFile (dir ++ py "/.env")
                (Py.join [10%N]
                   (map (fun kv => fst kv ++ py "=" ++ snd kv) env_dict))) s
    end.

End Cli.

(** ** The timezone entry of [Cli.run] (claim C10) *)

(** C10. [run] on Windows sets [TZ] to the empty string, whatever it was,
    and leaves every other entry; on any other platform the environment is
    unchanged.  The server is launched afterwards, in that environment. *)
Theorem C10_run_sets_tz_on_windows :
  forall platform port workers start_ui ui_port (s : state),
    let r := run platform port workers start_ui ui_port s in
    fst r = Returns tt
    /\ (if Py.eqb platform (py "Windows")
        then dict_get (py "TZ") (snd r).(environ) = Some (py "")
             /\ (snd r).(environ) = dict_set (py "TZ") (py "") s.(environ)
             /\ forall k, k <> py "TZ" ->
                  dict_get k (snd r).(environ) = dict_get k s.(environ)
        else (snd r).(environ) = s.(environ))
    /\ exists kf cf,
         (snd r).(log)
         = s.(log) ++ [ServerRun port workers kf cf (snd r).(environ)].
Proof.
  intros platform port workers start_ui ui_port s.
  unfold run, bindM, putenv, ret, emit; cbn zeta.
  destruct (Py.eqb platform (py "Windows")); cbn [fst snd environ log].
  - repeat split.
    + apply dict_get_set_same.
    + intros k Hk. apply dict_get_set_other; exact Hk.
    + eexists _, _; reflexivity.
  - repeat split. eexists _, _; reflexivity.
Qed.

(** ** Usage check of [Cli.convert] (claim C9) *)

Section Convert.

Variable OPENAI_ROUTE_PREFIX : list pystr.
Variable route_prefix_to_str : pystr -> pystr.
Variable convert_folder_fails : pystr -> option pystr -> bool.

Definition default_log_folder (prefix : pystr) : pystr :=
  py "./Log/" ++ prefix ++ py "/chat".

Definition default_target_path (prefix : pystr) : pystr :=
  py "./Log/chat_" ++ prefix ++ py ".json".

(** What one round of the loop leaves in the log. *)
Definition round_events (prefix : pystr) : list event :=
  [Print (py "Convert " ++ default_log_folder prefix ++ py "/*.log to "
          ++ default_target_path prefix);
   ConvertFolder (default_log_folder prefix) (Some (default_target_path prefix));
   Print dashes].

Definition is_file_work (e : event) : bool :=
  match e with
  | ConvertFolder _ _ | WriteFile _ _ => true
  | _ => false
  end.

Lemma convert_route_ok (p : pystr) (s : state) :
  convert_folder_fails (default_log_folder p) (Some (default_target_path p))
  = false ->
  convert_route convert_folder_fails p s
  = (Returns tt,
     mkState s.(uvicorn_proc) s.(streamlit_proc) s.(procs) s.(now)
       s.(environ) (s.(log) ++ round_events p)).
Proof.
  intros H.
  unfold convert_route, convert_folder_to_jsonl, round_events,
    default_log_folder, default_target_path in *.
  cbn zeta. unfold bindM, emit. cbn [log uvicorn_proc streamlit_proc procs now environ].
  destruct (convert_folder_fails _ _); [discriminate H|].
  unfold ret. cbn [log uvicorn_proc streamlit_proc procs now environ].
  rewrite <- !app_assoc. reflexivity.
Qed.

Lemma for_each_rounds (prefixes : list pystr) (s : state) :
  (forall p, In p prefixes ->
     convert_folder_fails (default_log_folder p)
       (Some (default_target_path p)) = false) ->
  for_each prefixes (convert_route convert_folder_fails) s
  = (Returns tt,
     mkState s.(uvicorn_proc) s.(streamlit_proc) s.(procs) s.(now)
       s.(environ) (s.(log) ++ flat_map round_events prefixes)).
Proof.
  revert s; induction prefixes as [|p prefixes IH]; intros s H.
  - simpl. rewrite app_nil_r. destruct s; reflexivity.
  - cbn [for_each]. unfold bindM at 1.
    rewrite convert_route_ok by (apply H; left; reflexivity).
    rewrite IH by (intros q Hq; apply H; right; exact Hq).
    cbn [uvicorn_proc streamlit_proc procs now environ log flat_map].
    rewrite <- !app_assoc. reflexivity.
Qed.

Lemma for_each_outcome {A} (xs : list A) (body : A -> M unit) (s : state) :
  (forall x s0, fst (body x s0) = Returns tt
                \/ fst (body x s0) = Raises HelperError) ->
  fst (for_each xs body s) = Returns tt
  \/ fst (for_each xs body s) = Raises HelperError.
Proof.
  intros H; revert s; induction xs as [|x xs IH]; intros s; simpl.
  - left; reflexivity.
  - unfold bindM. destruct (H x s) as [E|E]; destruct (body x s) as [[[]|e] s1];
      simpl in E; try discriminate; [apply IH|right; exact E].
Qed.

Lemma convert_no_arguments (s : state) :
  convert OPENAI_ROUTE_PREFIX route_prefix_to_str convert_folder_fails
    None None s
  = for_each (map route_prefix_to_str OPENAI_ROUTE_PREFIX)
      (convert_route convert_folder_fails)
      (mkState s.(uvicorn_proc) s.(streamlit_proc) s.(procs) s.(now)
         s.(environ) (s.(log) ++ [Print dashes])).
Proof. reflexivity. Qed.

(** C9. With no folder and a target path, [convert] raises the usage error
    having printed one line and done no file work.  With neither, it does
    not raise the usage error: it visits the default log location of every
    configured route in order, as long as the helper does not fail. *)
Theorem C9_convert_usage_check :
  forall (s : state),
    (forall target,
       convert OPENAI_ROUTE_PREFIX route_prefix_to_str convert_folder_fails
         None (Some target) s
       = (Raises (Builtin (ValueError
                    (py "target_path must be None when log_folder is None"))),
          mkState s.(uvicorn_proc) s.(streamlit_proc) s.(procs) s.(now)
            s.(environ) (s.(log) ++ [Print dashes]))
       /\ existsb is_file_work [Print dashes] = false)
    /\ (let r := convert OPENAI_ROUTE_PREFIX route_prefix_to_str
                   convert_folder_fails None None s in
        (fst r = Returns tt \/ fst r = Raises HelperError)
        /\ ((forall p, In p (map route_prefix_to_str OPENAI_ROUTE_PREFIX) ->
               convert_folder_fails (default_log_folder p)
                 (Some (default_target_path p)) = false) ->
            fst r = Returns tt
            /\ (snd r).(log)
               = s.(log) ++ Print dashes
                 :: flat_map round_events
                      (map route_prefix_to_str OPENAI_ROUTE_PREFIX))).
Proof.
  intros s; split; [intros target; split; reflexivity|].
  cbn zeta. rewrite convert_no_arguments. split.
  - apply for_each_outcome. intros x s0.
    unfold convert_route, bindM, emit, convert_folder_to_jsonl, bindM, emit,
      raise, ret.
    destruct (convert_folder_fails _ _); simpl; auto.
  - intros H. rewrite for_each_rounds by exact H.
    cbn [fst snd log]. split; [reflexivity|].
    rewrite <- app_assoc. reflexivity.
Qed.

End Convert.

(** ** Health check after start (claim C6) *)

Inductive supervisor_state : Type :=
| Stopped | Starting | Running | Stopping | Failed.

(** Modelled from the spec: the supervisor state of section 4.3 that the
    outcome of [start] stands for; the source keeps no state variable.
    [Starting] becomes [Running] when [start] returns and [Failed] when the
    startup error is raised. *)
Definition after_start (r : outcome unit) : supervisor_state :=
  match r with
  | Returns _ => Running
  | Raises _ => Failed
  end.

Lemma first_healthy_none (healthz : pystr -> nat -> bool) (url : pystr)
  (n from : nat) :
  (forall t, (t <= n)%nat -> healthz url (from + t)%nat = false) ->
  first_healthy healthz url from n = None.
Proof.
  revert from; induction n as [|n IH]; intros from H; simpl.
  - specialize (H 0%nat). rewrite Nat.add_0_r in H. rewrite H; auto.
  - pose proof (H 0%nat) as H0. rewrite Nat.add_0_r in H0.
    rewrite H0 by lia. apply IH. intros t Ht.
    replace (S from + t)%nat with (from + S t)%nat by lia. apply H; lia.
Qed.

(** C6. [_start_uvicorn] spawns the forwarder, keeps its handle and checks
    [http://localhost:{port}/healthz] with timeout 10 and
    [suppress_exception] set exactly on Windows.  When the endpoint does not
    answer within those 10 time-units, the call raises the startup error
    ([Failed]) on every platform but Windows, where it returns
    ([Running]). *)
Theorem C6_start_health_timeout :
  forall platform healthz child_grace port workers ssl_keyfile ssl_certfile
         (s : state),
    (forall t, (t <= 10)%nat ->
       healthz (py "http://localhost:" ++ Py.str_of_int port ++ py "/healthz")
         (s.(now) + t)%nat = false) ->
    let r := _start_uvicorn platform healthz child_grace port workers
               ssl_keyfile ssl_certfile s in
    let windows := Py.eqb platform (py "Windows") in
    fst r = (if windows then Returns tt else Raises StartupTimeout)
    /\ after_start (fst r) = (if windows then Running else Failed)
    /\ (snd r).(uvicorn_proc) = Some (List.length s.(procs))
    /\ (snd r).(now) = (s.(now) + 10)%nat
    /\ (snd r).(log)
       = s.(log)
         ++ [Spawn (List.length s.(procs))
               (uvicorn_command port workers ssl_keyfile ssl_certfile);
             HealthCheck
               (py "http://localhost:" ++ Py.str_of_int port ++ py "/healthz")
               10 windows].
Proof.
  intros platform healthz child_grace port workers kf cf s H.
  unfold _start_uvicorn, bindM, Popen, set_uvicorn_proc, wait_for_serve_start,
    bindM, emit, healthz_url.
  cbn [now log uvicorn_proc streamlit_proc procs environ set_now].
  rewrite (@first_healthy_none healthz _ 10 _ H).
  destruct (Py.eqb platform (py "Windows"));
    cbn [fst snd now log uvicorn_proc set_now after_start];
    rewrite <- app_assoc; repeat split; reflexivity.
Qed.

Definition empty_state : state := mkState None None [] 0 [] [].

Lemma C6_start_health_timeout_witness :
  fst (_start_uvicorn (py "Linux") (fun _ _ => false) (fun _ => None)
         8000 1 None None empty_state)
  = Raises StartupTimeout
  /\ fst (_start_uvicorn (py "Windows") (fun _ _ => false) (fun _ => None)
            8000 1 None None empty_state)
     = Returns tt.
Proof.
  split.
  - exact (proj1 (@C6_start_health_timeout (py "Linux") (fun _ _ => false)
                    (fun _ => None) 8000 1 None None empty_state
                    (fun _ _ => eq_refl))).
  - exact (proj1 (@C6_start_health_timeout (py "Windows") (fun _ _ => false)
                    (fun _ => None) 8000 1 None None empty_state
                    (fun _ _ => eq_refl))).
Defined.

(** ** Stopping a handle *)

Lemma nth_error_update {A} (f : A -> A) (l : list A) (i j : nat) :
  nth_error (update i f l) j
  = if Nat.eqb i j then option_map f (nth_error l j) else nth_error l j.
Proof.
  revert i j; induction l as [|x l IH]; intros i j.
  - destruct i, j; simpl; try reflexivity; destruct (Nat.eqb _ _); reflexivity.
  - destruct i, j; simpl; auto.
Qed.

Lemma update_update {A} (f g : A -> A) (l : list A) (i : nat) :
  update i f (update i g l) = update i (fun x => f (g x)) l.
Proof.
  revert i; induction l as [|x l IH]; intros [|i]; simpl; auto.
  rewrite IH; reflexivity.
Qed.


Lemma update_length {A} (f : A -> A) (l : list A) (i : nat) :
  List.length (update i f l) = List.length l.
Proof.
  revert i; induction l as [|y l IH]; intros [|i]; simpl; auto.
Qed.






(** Stopping a handle whose process is gone changes nothing. *)
Lemma stop_handle_idle (get : state -> option nat) (name : pystr)
  (g : nat) (s : state) (pid : nat) :
  get s = Some pid -> running pid s = false ->
  stop_handle get name g s = (Returns tt, s).
Proof.
  intros G R. unfold stop_handle, bindM, attribute. rewrite G, R. reflexivity.
Qed.










(** ** Graceful-then-forced stop (claim C7) *)

Definition deaf_forwarder : process :=
  mkProcess (uvicorn_command 8000 1 None None) 0 None None.

Definition deaf_dashboard : process :=
  mkProcess [py "streamlit"; py "run"; py "webui/run.py"] 0 None None.





(** ** Restart without overlap (claim C8) *)











(** A supervisor with one running forwarder that ignores the interrupt. *)
Definition one_forwarder : state :=
  mkState (Some 0%nat) None [deaf_forwarder] 0 [] [].




Example restart_timeline :
  (snd (_restart_uvicorn (py "Linux") (fun _ _ => true) (fun _ => None)
          8000 1 None None one_forwarder)).(procs)
  = [mkProcess (uvicorn_command 8000 1 None None) 0 (Some 15%nat) None;
     mkProcess (uvicorn_command 8000 1 None None) 15 None None].
Proof. reflexivity. Qed.

(** ** Hydration from an environment mapping *)

Fixpoint mapO {A B} (f : A -> option B) (xs : list A) : option (list B) :=
  match xs with
  | [] => Some []
  | x :: xs' =>
      match f x, mapO f xs' with
      | Some y, Some ys => Some (y :: ys)
      | _, _ => None
      end
  end.

Module Decode.

Definition str (j : Json.t) : option pystr :=
  match j with JStr s => Some s | _ => None end.

Definition int (j : Json.t) : option Z :=
  match j with JInt z => Some z | _ => None end.

Definition list_of {A} (f : Json.t -> option A) (j : Json.t)
  : option (list A) :=
  match j with JList l => mapO f l | _ => None end.

Definition dict_of {A} (f : Json.t -> option A) (j : Json.t)
  : option (dict A) :=
  match j with
  | JDict d => mapO (fun kv => option_map (pair (fst kv)) (f (snd kv))) d
  | _ => None
  end.

(** A mapping whose keys are integers written as strings. *)
Definition int_keyed {A} (f : Json.t -> option A) (j : Json.t)
  : option (list (Z * A)) :=
  match j with
  | JDict d =>
      mapO (fun kv => match Py.int (fst kv), f (snd kv) with
                      | Some z, Some a => Some (z, a)
                      | _, _ => None
                      end) d
  | _ => None
  end.

Definition limit_item (j : Json.t) : option LimitItem.t :=
  match j with
  | JDict d =>
      match dict_get (py "level") d, dict_get (py "limit") d with
      | Some (JInt l), Some (JStr s) => Some (LimitItem.mk l s)
      | _, _ => None
      end
  | _ => None
  end.

End Decode.

(** A set built from a list, by its elements in order of first
    occurrence.  (The iteration order of a Python set is not specified;
    nothing below depends on the order chosen here.) *)
Fixpoint set_of_list (l : list pystr) : list pystr :=
  match l with
  | [] => []
  | x :: l' => x :: filter (fun y => negb (Py.eqb x y)) (set_of_list l')
  end.

Section Load.

Variable environ : env.

(** The value of a key that is present and non-empty. *)
Definition present (key : pystr) : option pystr :=
  match dict_get key environ with
  | Some (c :: v) => Some (c :: v)
  | _ => None
  end.

Definition load_str (key default : pystr) : pystr :=
  match present key with Some v => v | None => default end.

Definition load_bool (key : pystr) (default : bool) : bool :=
  match present key with
  | Some v => Py.eqb v (py "True")
  | None => default
  end.

Definition load_int (key : pystr) (default : Z) : res Z :=
  match present key with
  | Some v =>
      match Py.int v with
      | Some z => Ok z
      | None => Raise (ValueError (py "invalid literal for int() with base 10"))
      end
  | None => Ok default
  end.

Definition load_json {A} (key : pystr) (decode : Json.t -> option A)
  (default : A) : res A :=
  match present key with
  | Some v =>
      match Json.loads v with
      | Some j =>
          match decode j with
          | Some a => Ok a
          | None => Raise (TypeError (py "unexpected shape"))
          end
      | None => Raise (ValueError (py "Expecting value"))
      end
  | None => Ok default
  end.

Definition forward_kwargs (i : ForwardItem.t) : dict pystr :=
  [(py "base_url", i.(ForwardItem.base_url));
   (py "route", i.(ForwardItem.route));
   (py "type", i.(ForwardItem.type))].

(** Modelled from the spec: the constants of the settings module, which is
    not among the sources, as section 4.2 describes hydration.  Each
    documented key that is present and non-empty is parsed (a flag from
    ["True"] or ["False"], a number from its decimal text, a structured
    field from its JSON text); for a key that is absent or empty the
    constant is the value the configuration being hydrated already has, or
    an empty value where [come_from_env] itself falls back to the existing
    attribute.  No documented key carries the rate-limit backend. *)
Definition load_settings (config : Config.t) : res Settings.t :=
  let rl := config.(Config.rate_limit) in
  let c := config.(Config.cache) in
  TIMEOUT <- load_int (py "TIMEOUT") config.(Config.timeout) ;;
  req <- load_json (py "REQ_RATE_LIMIT")
           (Decode.dict_of (Decode.list_of Decode.limit_item)) [] ;;
  token <- load_json (py "TOKEN_RATE_LIMIT")
             (Decode.dict_of (Decode.list_of Decode.limit_item)) [] ;;
  routes <- load_json (py "CACHE_ROUTES") (Decode.list_of Decode.str) [] ;;
  level_models <- load_json (py "LEVEL_MODELS")
                    (Decode.int_keyed (Decode.list_of Decode.str)) [] ;;
  openai_api_key <- load_json (py "OPENAI_API_KEY_CONFIG")
                      (Decode.dict_of (Decode.list_of Decode.int)) [] ;;
  level_to_fwd_key <- load_json (py "FORWARD_KEY_CONFIG")
                        (Decode.int_keyed (Decode.list_of Decode.str)) [] ;;
  forward_config <- load_json (py "FORWARD_CONFIG")
                      (Decode.list_of (Decode.dict_of Decode.str))
                      (map forward_kwargs config.(Config.forward)) ;;
  Ok (Settings.mk
        TIMEOUT
        (load_bool (py "BENCHMARK_MODE") config.(Config.benchmark_mode))
        (present (py "PROXY"))
        (load_bool (py "LOG_OPENAI") config.(Config.log).(Log.openai))
        (load_bool (py "LOG_GENERAL") config.(Config.log).(Log.general))
        (load_str (py "RATE_LIMIT_STRATEGY") rl.(RateLimit.strategy))
        (load_str (py "GLOBAL_RATE_LIMIT") rl.(RateLimit.global_rate_limit))
        (load_str (py "ITER_CHUNK_TYPE") rl.(RateLimit.iter_chunk))
        None
        req token
        (load_str (py "CACHE_BACKEND") c.(CacheConfig.backend))
        (load_str (py "CACHE_ROOT_PATH_OR_URL") c.(CacheConfig.root_path_or_url))
        (load_bool (py "DEFAULT_REQUEST_CACHING_VALUE")
           c.(CacheConfig.default_request_caching_value))
        (load_bool (py "CACHE_OPENAI") false)
        (load_bool (py "CACHE_GENERAL") false)
        (set_of_list routes)
        level_models openai_api_key level_to_fwd_key forward_config).

(** [hydrate(config, env)]: the settings read from the mapping, then
    [come_from_env] with that mapping as the process environment. *)
Definition hydrate (config : Config.t) : res Config.t :=
  S <- load_settings config ;;
  Config.come_from_env S environ config.

End Load.

(** The mapping projected from [C], when the projection returns. *)
Definition project (C : Config.t) : res env :=
  r <- Config.convert_to_env C false [] ;; Ok (fst r).

(** ** [json.loads] after [json.dumps] *)

Section JsonStrings.

Local Open Scope N_scope.

(** A Unicode scalar value: a code point that is not a surrogate. *)
Definition scalar (c : N) : Prop := c < 55296 \/ (57343 < c /\ c < 1114112).

(** Text made of scalar values, as any string read from a file is. *)
Definition text_ok (s : pystr) : Prop := Forall scalar s.

Lemma hexval_hexdigit (d : N) : d < 16 -> Json.hexval (Json.hexdigit d) = Some d.
Proof.
  intros H. unfold Json.hexdigit, Json.hexval.
  destruct (N.ltb_spec d 10).
  - replace (48 <=? 48 + d) with true by (symmetry; apply N.leb_le; lia).
    replace (48 + d <=? 57) with true by (symmetry; apply N.leb_le; lia).
    cbn [andb]. f_equal. lia.
  - replace (87 + d <=? 57) with false by (symmetry; apply N.leb_gt; lia).
    rewrite andb_false_r.
    replace (97 <=? 87 + d) with true by (symmetry; apply N.leb_le; lia).
    replace (87 + d <=? 102) with true by (symmetry; apply N.leb_le; lia).
    cbn [andb]. f_equal. lia.
Qed.

Lemma hex_digits_sum (n : N) :
  n < 65536 ->
  ((n / 4096 mod 16 * 16 + n / 256 mod 16) * 16 + n / 16 mod 16) * 16
  + n mod 16 = n.
Proof.
  intros H.
  pose proof (N.div_mod n 16) as E0.
  pose proof (N.div_mod (n / 16) 16) as E1.
  pose proof (N.div_mod (n / 256) 16) as E2.
  assert (D1 : n / 16 / 16 = n / 256) by (rewrite N.Div0.div_div; reflexivity).
  assert (D2 : n / 256 / 16 = n / 4096) by (rewrite N.Div0.div_div; reflexivity).
  assert (S : n / 4096 < 16) by (apply N.Div0.div_lt_upper_bound; lia).
  rewrite (N.mod_small (n / 4096) 16) by exact S.
  rewrite D1 in E1. rewrite D2 in E2.
  specialize (E0 ltac:(lia)). specialize (E1 ltac:(lia)).
  specialize (E2 ltac:(lia)).
  revert E0 E1 E2.
  generalize (n mod 16) (n / 16 mod 16) (n / 256 mod 16) (n / 4096) (n / 256)
    (n / 16).
  intros. lia.
Qed.

Lemma hex4_u_escape (n : N) (r : pystr) :
  n < 65536 ->
  exists a b c d,
    Json.u_escape n = [92; 117; a; b; c; d] /\ Json.hex4 a b c d = Some n.
Proof.
  intros H. unfold Json.u_escape. do 4 eexists. split; [reflexivity|].
  unfold Json.hex4.
  rewrite !hexval_hexdigit by (apply N.mod_upper_bound; lia).
  rewrite hex_digits_sum by exact H. reflexivity.
Qed.

Lemma scan_plain (c : N) (r acc : pystr) :
  c <> 34 -> c <> 92 -> 32 <= c ->
  Json.scanstring (c :: r) acc = Json.scanstring r (c :: acc).
Proof.
  intros A B C. cbn [Json.scanstring].
  replace (c =? 34) with false by (symmetry; apply N.eqb_neq; exact A).
  replace (c =? 92) with false by (symmetry; apply N.eqb_neq; exact B).
  replace (c <? 32) with false by (symmetry; apply N.ltb_ge; exact C).
  reflexivity.
Qed.

Lemma scan_short (e x : N) (r acc : pystr) :
  Json.unescape e = Some x -> e <> 117 ->
  Json.scanstring (92 :: e :: r) acc = Json.scanstring r (x :: acc).
Proof.
  intros U E. cbn [Json.scanstring].
  change (92 =? 34) with false. change (92 =? 92) with true. cbv iota.
  replace (e =? 117) with false by (symmetry; apply N.eqb_neq; exact E).
  rewrite U. reflexivity.
Qed.

Lemma scan_u (a b c d uni : N) (r acc : pystr) :
  Json.hex4 a b c d = Some uni -> Json.high_surrogate uni = false ->
  Json.scanstring (92 :: 117 :: a :: b :: c :: d :: r) acc
  = Json.scanstring r (uni :: acc).
Proof.
  intros H S. cbn [Json.scanstring].
  change (92 =? 34) with false. change (92 =? 92) with true.
  change (117 =? 117) with true. cbv iota.
  rewrite H, S. reflexivity.
Qed.

Lemma scan_pair (a b c d a2 b2 c2 d2 uni uni2 : N) (r acc : pystr) :
  Json.hex4 a b c d = Some uni -> Json.high_surrogate uni = true ->
  Json.hex4 a2 b2 c2 d2 = Some uni2 -> Json.low_surrogate uni2 = true ->
  Json.scanstring
    (92 :: 117 :: a :: b :: c :: d :: 92 :: 117 :: a2 :: b2 :: c2 :: d2 :: r)
    acc
  = Json.scanstring r
      ((65536 + (uni - 55296) * 1024 + (uni2 - 56320)) :: acc).
Proof.
  intros H S H2 S2. cbn [Json.scanstring].
  change (92 =? 34) with false. change (92 =? 92) with true.
  change (117 =? 117) with true. cbv iota.
  rewrite H, S. cbn [andb]. rewrite H2, S2. reflexivity.
Qed.

Lemma scan_escape_char (c : N) (r acc : pystr) :
  scalar c ->
  Json.scanstring (Json.escape_char c ++ r) acc
  = Json.scanstring r (c :: acc).
Proof.
  intros Sc. unfold Json.escape_char.
  destruct (N.eqb_spec c 34) as [->|N34]; [reflexivity|].
  destruct (N.eqb_spec c 92) as [->|N92]; [reflexivity|].
  destruct (N.eqb_spec c 10) as [->|N10]; [reflexivity|].
  destruct (N.eqb_spec c 13) as [->|N13]; [reflexivity|].
  destruct (N.eqb_spec c 9) as [->|N9]; [reflexivity|].
  destruct (N.eqb_spec c 8) as [->|N8]; [reflexivity|].
  destruct (N.eqb_spec c 12) as [->|N12]; [reflexivity|].
  destruct (N.leb_spec 32 c) as [L32|L32]; cbn [andb].
  - destruct (N.leb_spec c 126) as [L126|L126].
    + apply scan_plain; assumption.
    + destruct (N.ltb_spec c 65536) as [B|B].
      * destruct (hex4_u_escape r B) as (a & b & x & d & E & H).
        rewrite E. cbn [app]. apply scan_u; [exact H|].
        unfold Json.high_surrogate. destruct Sc as [Sc|[Sc _]].
        -- replace (55296 <=? c) with false by (symmetry; apply N.leb_gt; lia).
           reflexivity.
        -- replace (c <=? 56319) with false by (symmetry; apply N.leb_gt; lia).
           apply andb_false_r.
      * cbv zeta. destruct Sc as [Sc|[_ Sc]]; [lia|].
        assert (Q : (c - 65536) / 1024 < 1024)
          by (apply N.Div0.div_lt_upper_bound; lia).
        assert (M : (c - 65536) mod 1024 < 1024)
          by (apply N.mod_upper_bound; lia).
        rewrite (N.mod_small _ _ Q).
        assert (DM : c = 65536 + (1024 * ((c - 65536) / 1024)
                               + (c - 65536) mod 1024))
          by (rewrite <- N.div_mod by lia; lia).
        revert DM Q M.
        generalize ((c - 65536) / 1024) ((c - 65536) mod 1024).
        intros q m DM Q M.
        assert (B1 : 55296 + q < 65536) by lia.
        assert (B2 : 56320 + m < 65536) by lia.
        destruct (hex4_u_escape r B1) as (a & b & x & d & E & H).
        destruct (hex4_u_escape r B2) as (a2 & b2 & x2 & d2 & E2 & H2).
        rewrite E, E2. cbn [app].
        assert (HS : Json.high_surrogate (55296 + q) = true)
          by (unfold Json.high_surrogate;
              apply andb_true_iff; split; apply N.leb_le; lia).
        assert (LS : Json.low_surrogate (56320 + m) = true)
          by (unfold Json.low_surrogate;
              apply andb_true_iff; split; apply N.leb_le; lia).
        rewrite (@scan_pair a b x d a2 b2 x2 d2 _ _ r acc H HS H2 LS).
        do 2 f_equal. lia.
  - destruct (N.ltb_spec c 65536) as [B|B]; [|lia].
    destruct (hex4_u_escape r B) as (a & b & x & d & E & H).
    rewrite E. cbn [app]. apply scan_u; [exact H|].
    unfold Json.high_surrogate.
    replace (55296 <=? c) with false by (symmetry; apply N.leb_gt; lia).
    reflexivity.
Qed.

(** A quoted string reads back as itself. *)
Lemma scanstring_quote (s rest acc : pystr) :
  text_ok s ->
  Json.scanstring (flat_map Json.escape_char s ++ 34 :: rest) acc
  = Some (rev acc ++ s, rest).
Proof.
  intros H; revert acc; induction H as [|c s Hc _ IH]; intros acc.
  - simpl. rewrite app_nil_r. reflexivity.
  - cbn [flat_map]. rewrite <- app_assoc, scan_escape_char by exact Hc.
    rewrite IH. cbn [rev]. rewrite <- app_assoc. reflexivity.
Qed.

End JsonStrings.

Section JsonNumbers.

Local Open Scope N_scope.

(** What may follow a value in the output of [dumps]: nothing, a comma, or
    a closing bracket or brace. *)
Definition delimited (rest : pystr) : Prop :=
  match rest with
  | [] => True
  | c :: _ => c = 44 \/ c = 93 \/ c = 125
  end.

Lemma digit_char_true (c : N) : is_digit c -> Json.digit_char c = true.
Proof.
  unfold is_digit, Json.digit_char. intros [A B].
  apply andb_true_iff; split; apply N.leb_le; assumption.
Qed.

Lemma span_digits_app (ds rest : pystr) :
  Forall is_digit ds -> delimited rest ->
  Json.span_digits (ds ++ rest) = (ds, rest).
Proof.
  intros H D; induction H as [|c ds Hc _ IH].
  - destruct rest as [|x rest]; [reflexivity|]. simpl in D.
    destruct D as [->|[->| ->]]; reflexivity.
  - cbn [app Json.span_digits]. rewrite (digit_char_true Hc), IH. reflexivity.
Qed.

Lemma digits_leading (fuel : nat) (n : N) :
  0 < n -> n < 2 ^ N.of_nat fuel ->
  exists c ds, Py.digits fuel n = c :: ds /\ 49 <= c <= 57.
Proof.
  revert n; induction fuel as [|f IH]; intros n P B.
  - simpl in B. lia.
  - cbn [Py.digits]. destruct (N.ltb_spec n 10).
    + exists (48 + n), []. split; [reflexivity | lia].
    + destruct (IH (n / 10)) as (c & ds & E & R).
      * apply N.div_str_pos. lia.
      * rewrite Nnat.Nat2N.inj_succ, N.pow_succ_r' in B.
        apply N.Div0.div_lt_upper_bound.
        revert B; generalize (2 ^ N.of_nat f); intros; lia.
      * rewrite E. exists c, (ds ++ [48 + n mod 10]). split; [reflexivity|].
        exact R.
Qed.

Lemma str_of_N_leading (n : N) :
  0 < n ->
  exists c ds,
    Py.str_of_N n = c :: ds /\ 49 <= c <= 57 /\ Forall is_digit ds.
Proof.
  intros P. pose proof (digits_are_digits (S (N.to_nat (N.log2 n))) n) as F.
  destruct (@digits_leading (S (N.to_nat (N.log2 n))) n P) as (c & ds & E & R).
  - rewrite Nnat.Nat2N.inj_succ, Nnat.N2Nat.id. apply N.log2_spec; exact P.
  - unfold Py.str_of_N. rewrite E in *. exists c, ds. repeat split; try apply R.
    inversion F; assumption.
Qed.

Lemma scan_int_str (negative : bool) (n : N) (rest : pystr) :
  delimited rest ->
  Json.scan_int negative (Py.str_of_N n ++ rest)
  = Some ((if negative then (- Z.of_N n)%Z else Z.of_N n), rest).
Proof.
  intros D.
  assert (T : forall z : Z,
             match rest with
             | x :: _ =>
                 if (x =? 46) || (x =? 101) || (x =? 69) then None
                 else Some (z, rest)
             | [] => Some (z, rest)
             end = Some (z, rest)).
  { intros z. destruct rest as [|x rest]; [reflexivity|]. simpl in D.
    destruct D as [->|[->| ->]]; reflexivity. }
  destruct (N.eq_dec n 0) as [->|NZ].
  - change (Py.str_of_N 0) with [48]. cbn [app Json.scan_int].
    change (48 =? 48) with true. cbv iota. apply (T _).
  - destruct (@str_of_N_leading n ltac:(lia)) as (c & ds & E & R & F).
    pose proof (str_of_N_val n) as V. rewrite E in *.
    cbn [app Json.scan_int].
    replace (c =? 48) with false by (symmetry; apply N.eqb_neq; lia).
    rewrite digit_char_true by (unfold is_digit; lia).
    rewrite span_digits_app by assumption. cbn [fst snd].
    rewrite V. apply (T _).
Qed.

Lemma scan_number_str (z : Z) (rest : pystr) :
  delimited rest ->
  Json.scan_number (Py.str_of_int z ++ rest) = Some (z, rest).
Proof.
  intros D. unfold Py.str_of_int. destruct (Z.ltb_spec z 0).
  - cbn [app Json.scan_number]. change (45 =? 45) with true. cbv iota.
    rewrite scan_int_str by exact D. do 2 f_equal. lia.
  - destruct (N.eq_dec (Z.to_N z) 0) as [E|NZ].
    + rewrite E. change (Py.str_of_N 0) with [48].
      cbn [app Json.scan_number]. change (48 =? 45) with false. cbv iota.
      change (48 :: rest) with (Py.str_of_N 0 ++ rest).
      rewrite scan_int_str by exact D. do 2 f_equal. lia.
    + destruct (@str_of_N_leading (Z.to_N z) ltac:(lia)) as (c & ds & E & R & F).
      pose proof (@scan_int_str false (Z.to_N z) rest D) as S.
      rewrite E in *. cbn [app Json.scan_number] in *.
      replace (c =? 45) with false by (symmetry; apply N.eqb_neq; lia).
      rewrite S. do 2 f_equal. lia.
Qed.

End JsonNumbers.

Section JsonValues.

Local Open Scope N_scope.

(** Fuel that suffices to read a value back. *)
Fixpoint size (j : Json.t) : nat :=
  match j with
  | JList l => S (fold_right (fun x n => S (size x + n)) 0%nat l)
  | JDict d => S (fold_right (fun kv n => S (size (snd kv) + n)) 0%nat d)
  | _ => 1%nat
  end.

(** Values whose strings are scalar text and whose objects have no
    repeated key. *)
Fixpoint wf (j : Json.t) : Prop :=
  match j with
  | JStr s => text_ok s
  | JList l => fold_right (fun x P => wf x /\ P) True l
  | JDict d =>
      NoDup (keys d)
      /\ fold_right (fun kv P => text_ok (fst kv) /\ wf (snd kv) /\ P) True d
  | _ => True
  end.

(** A text that begins with the first character of a value. *)
Definition starts_value (s : pystr) : Prop :=
  exists c r, s = c :: r /\ Json.is_ws c = false /\ c <> 93 /\ c <> 125.

Lemma starts_value_skip (s : pystr) : starts_value s -> Json.skip_ws s = s.
Proof. intros (c & r & -> & W & _). simpl. rewrite W. reflexivity. Qed.

Lemma dumps_starts (j : Json.t) (rest : pystr) :
  starts_value (Json.dumps j ++ rest).
Proof.
  destruct j as [|b|z|s|l|d]; cbn [Json.dumps].
  - eexists _, _; split; [reflexivity|]. repeat split; discriminate.
  - destruct b; (eexists _, _; split; [reflexivity|]);
      repeat split; discriminate.
  - pose proof (str_of_int_chars z) as F. pose proof (str_of_int_nonempty z).
    destruct (Py.str_of_int z) as [|c r]; [congruence|].
    exists c, (r ++ rest). split; [reflexivity|]. inversion F; subst.
    assert (R : c = 45 \/ 48 <= c <= 57) by assumption.
    unfold Json.is_ws. repeat split; try lia.
    replace (c =? 32) with false by (symmetry; apply N.eqb_neq; lia).
    replace (c =? 9) with false by (symmetry; apply N.eqb_neq; lia).
    replace (c =? 10) with false by (symmetry; apply N.eqb_neq; lia).
    replace (c =? 13) with false by (symmetry; apply N.eqb_neq; lia).
    reflexivity.
  - eexists _, _; split; [reflexivity|]. repeat split; discriminate.
  - eexists _, _; split; [reflexivity|]. repeat split; discriminate.
  - eexists _, _; split; [reflexivity|]. repeat split; discriminate.
Qed.

Lemma delimited_skip (rest : pystr) :
  delimited rest -> Json.skip_ws rest = rest.
Proof.
  destruct rest as [|c rest]; [reflexivity|]. simpl.
  intros [->|[->| ->]]; reflexivity.
Qed.

Lemma dict_set_fresh {V} (k : pystr) (v : V) (d : dict V) :
  ~ In k (keys d) -> dict_set k v d = d ++ [(k, v)].
Proof.
  unfold keys; induction d as [|[k0 v0] d IH]; simpl; [reflexivity|].
  intros H. destruct (Py.eqb k k0) eqn:E.
  - apply eqb_eq in E; subst; tauto.
  - rewrite IH by tauto. reflexivity.
Qed.

Lemma dict_update_nodup {V} (d acc : dict V) :
  NoDup (keys (acc ++ d)) -> dict_update acc d = acc ++ d.
Proof.
  unfold dict_update. revert acc; induction d as [|[k v] d IH]; intros acc H;
    simpl.
  - rewrite app_nil_r. reflexivity.
  - rewrite dict_set_fresh.
    + rewrite IH; rewrite <- app_assoc; [reflexivity | exact H].
    + unfold keys in *. rewrite map_app in H. simpl in H.
      apply NoDup_remove_2 in H. intros X; apply H.
      apply in_or_app; left; exact X.
Qed.

Lemma dict_of_items_nodup {V} (d : dict V) :
  NoDup (keys d) -> dict_of_items d = d.
Proof. intros H. apply (@dict_update_nodup V d []). exact H. Qed.

(** The claim of the round trip for one value, at any fuel that suffices. *)
Definition reads_back (x : Json.t) : Prop :=
  forall (fuel : nat) (rest : pystr),
    (size x <= fuel)%nat -> delimited rest ->
    Json.parse_value fuel (Json.dumps x ++ rest) = Some (x, rest).

Lemma skip_space (s : pystr) : Json.skip_ws (32 :: s) = Json.skip_ws s.
Proof. reflexivity. Qed.

Lemma skip_comma (s : pystr) : Json.skip_ws (44 :: s) = 44 :: s.
Proof. reflexivity. Qed.

Lemma skip_bracket (s : pystr) : Json.skip_ws (93 :: s) = 93 :: s.
Proof. reflexivity. Qed.

Lemma skip_brace (s : pystr) : Json.skip_ws (125 :: s) = 125 :: s.
Proof. reflexivity. Qed.

Lemma skip_colon (s : pystr) : Json.skip_ws (58 :: s) = 58 :: s.
Proof. reflexivity. Qed.

Lemma parse_elements_dumps (l : list Json.t) :
  Forall reads_back l -> l <> [] ->
  forall (acc : list Json.t) (f : nat) (rest : pystr),
    (fold_right (fun x n => S (size x + n)) 0 l <= f)%nat ->
    Json.parse_elements f
      (Py.join (py ", ") (map Json.dumps l) ++ 93 :: rest) acc
    = Some (JList (rev acc ++ l), rest).
Proof.
  intros H; induction H as [|x l Hx Hl IH]; [congruence|].
  intros _ acc f rest B. cbn [fold_right] in B.
  destruct f as [|f]; [lia|].
  destruct l as [|y l].
  - cbn [map Py.join Json.parse_elements].
    rewrite Hx by (simpl; auto; lia).
    rewrite skip_bracket. change (93 =? 44) with false.
    change (93 =? 93) with true. cbv iota. cbn [rev]. reflexivity.
  - assert (E : Py.join (py ", ") (map Json.dumps (x :: y :: l)) ++ 93 :: rest
                = Json.dumps x
                  ++ 44 :: 32 :: (Py.join (py ", ") (map Json.dumps (y :: l))
                                  ++ 93 :: rest)).
    { cbn [map Py.join]. rewrite <- !app_assoc. reflexivity. }
    rewrite E. cbn [Json.parse_elements].
    rewrite Hx by (simpl; auto; lia).
    rewrite skip_comma. change (44 =? 44) with true. cbv iota.
    rewrite skip_space, starts_value_skip.
    + rewrite IH by (try discriminate; cbn [fold_right] in *; lia).
      cbn [rev]. rewrite <- app_assoc. reflexivity.
    + destruct l; cbn [map Py.join]; [|rewrite <- app_assoc];
        apply dumps_starts.
Qed.

Definition member_text (kv : pystr * Json.t) : pystr :=
  Json.quote (fst kv) ++ py ": " ++ Json.dumps (snd kv).

Lemma parse_members_dumps (d : list (pystr * Json.t)) :
  Forall (fun kv => text_ok (fst kv) /\ reads_back (snd kv)) d -> d <> [] ->
  forall (acc : list (pystr * Json.t)) (f : nat) (rest : pystr),
    (fold_right (fun kv n => S (size (snd kv) + n)) 0 d <= f)%nat ->
    Json.parse_members f
      (Py.join (py ", ") (map member_text d) ++ 125 :: rest) acc
    = Some (JDict (dict_of_items (rev acc ++ d)), rest).
Proof.
  intros H; induction H as [|[k v] d [Hk Hv] Hd IH]; [congruence|].
  intros _ acc f rest B. cbn [fold_right snd] in B.
  destruct f as [|f]; [lia|].
  assert (M : forall tail,
             member_text (k, v) ++ tail
             = 34 :: flat_map Json.escape_char k
                     ++ 34 :: 58 :: 32 :: Json.dumps v ++ tail).
  { intros tail. unfold member_text, Json.quote. cbn [fst snd app].
    rewrite <- !app_assoc. reflexivity. }
  destruct d as [|y d].
  - cbn [map Py.join]. rewrite M. cbn [Json.parse_members].
    change (34 =? 34) with true. cbv iota.
    rewrite scanstring_quote by exact Hk. cbn [rev app].
    rewrite skip_colon. change (58 =? 58) with true. cbv iota.
    rewrite skip_space, starts_value_skip by apply dumps_starts.
    rewrite Hv by (simpl; auto; lia).
    rewrite skip_brace. change (125 =? 44) with false.
    change (125 =? 125) with true. cbv iota. reflexivity.
  - assert (E : Py.join (py ", ") (map member_text ((k, v) :: y :: d))
                ++ 125 :: rest
                = member_text (k, v)
                  ++ 44 :: 32 :: (Py.join (py ", ") (map member_text (y :: d))
                                  ++ 125 :: rest)).
    { cbn [map Py.join]. rewrite <- !app_assoc. reflexivity. }
    rewrite E, M. cbn [Json.parse_members].
    change (34 =? 34) with true. cbv iota.
    rewrite scanstring_quote by exact Hk. cbn [rev app].
    rewrite skip_colon. change (58 =? 58) with true. cbv iota.
    rewrite skip_space, starts_value_skip by apply dumps_starts.
    rewrite Hv by (simpl; auto; lia).
    rewrite skip_comma. change (44 =? 44) with true. cbv iota.
    rewrite skip_space, starts_value_skip.
    + rewrite IH by (try discriminate; cbn [fold_right] in *; lia).
      cbn [rev]. rewrite <- app_assoc. reflexivity.
    + destruct y as [k' v']. destruct d; cbn [map Py.join];
        unfold member_text at 1; unfold Json.quote; cbn [fst snd app];
        eexists _, _; (split; [reflexivity|]); repeat split; discriminate.
Qed.

Lemma json_size_ind (P : Json.t -> Prop) :
  (forall j, (forall x, (size x < size j)%nat -> P x) -> P j) ->
  forall j, P j.
Proof.
  intros H j. remember (size j) as n eqn:E. revert j E.
  induction n as [n IH] using lt_wf_ind. intros j ->.
  apply H. intros x L. exact (IH (size x) L x eq_refl).
Qed.

Lemma size_element (x : Json.t) (l : list Json.t) :
  In x l -> (size x < size (JList l))%nat.
Proof.
  cbn [size]. induction l as [|y l IH]; [intros []|].
  intros [->|H]; cbn [fold_right]; [lia|]. specialize (IH H). lia.
Qed.

Lemma size_member (kv : pystr * Json.t) (d : list (pystr * Json.t)) :
  In kv d -> (size (snd kv) < size (JDict d))%nat.
Proof.
  cbn [size]. induction d as [|y d IH]; [intros []|].
  intros [->|H]; cbn [fold_right]; [lia|]. specialize (IH H). lia.
Qed.

Lemma wf_list (l : list Json.t) : wf (JList l) <-> Forall wf l.
Proof.
  cbn [wf]. induction l as [|x l IH]; cbn [fold_right].
  - split; auto.
  - rewrite IH. split; [intros [A B]; constructor; auto|].
    intros H; inversion H; auto.
Qed.

Lemma wf_dict (d : list (pystr * Json.t)) :
  wf (JDict d)
  <-> NoDup (keys d) /\ Forall (fun kv => text_ok (fst kv) /\ wf (snd kv)) d.
Proof.
  cbn [wf]. apply and_iff_compat_l.
  induction d as [|x d IH]; cbn [fold_right].
  - split; auto.
  - rewrite IH. split; [intros (A & B & C); constructor; auto|].
    intros H; inversion H; tauto.
Qed.

Lemma parse_value_number (f : nat) (c : N) (r : pystr) :
  c = 45 \/ 48 <= c <= 57 ->
  Json.parse_value (S f) (c :: r)
  = option_map (fun zr => (JInt (fst zr), snd zr)) (Json.scan_number (c :: r)).
Proof.
  intros H. cbn [Json.parse_value].
  replace (c =? 34) with false by (symmetry; apply N.eqb_neq; lia).
  replace (c =? 91) with false by (symmetry; apply N.eqb_neq; lia).
  replace (c =? 123) with false by (symmetry; apply N.eqb_neq; lia).
  replace (c =? 110) with false by (symmetry; apply N.eqb_neq; lia).
  replace (c =? 116) with false by (symmetry; apply N.eqb_neq; lia).
  replace (c =? 102) with false by (symmetry; apply N.eqb_neq; lia).
  reflexivity.
Qed.

(** Every well-formed value is read back from its text. *)
Lemma reads_back_wf (j : Json.t) : wf j -> reads_back j.
Proof.
  induction j as [j IH] using json_size_ind. intros W fuel rest B D.
  destruct fuel as [|f]; [destruct j; simpl in B; lia|].
  destruct j as [|b|z|s|l|d].
  - reflexivity.
  - destruct b; reflexivity.
  - cbn [Json.dumps].
    pose proof (str_of_int_chars z) as F. pose proof (str_of_int_nonempty z).
    pose proof (@scan_number_str z rest D) as S.
    destruct (Py.str_of_int z) as [|c r]; [congruence|].
    inversion F; subst. cbn [app] in *.
    rewrite parse_value_number by assumption. rewrite S. reflexivity.
  - cbn [Json.dumps Json.quote app Json.parse_value].
    change (34 =? 34) with true. cbv iota.
    rewrite <- app_assoc. cbn [app].
    rewrite scanstring_quote by exact W. reflexivity.
  - cbn [size] in B.
    assert (T : Json.dumps (JList l) ++ rest
                = 91 :: (Py.join (py ", ") (map Json.dumps l) ++ 93 :: rest)).
    { cbn [Json.dumps]. change (py "[") with [91]. change (py "]") with [93].
      cbn [app]. rewrite <- app_assoc. reflexivity. }
    rewrite T. cbn [Json.parse_value].
    change (91 =? 34) with false. change (91 =? 91) with true. cbv iota.
    destruct l as [|x l].
    + reflexivity.
    + assert (R : Forall reads_back (x :: l)).
      { apply wf_list in W. apply Forall_forall. intros y Hy.
        apply IH; [apply size_element; exact Hy|].
        rewrite Forall_forall in W; auto. }
      pose proof (@parse_elements_dumps (x :: l) R ltac:(discriminate) []
                    f rest ltac:(lia)) as P.
      destruct (@dumps_starts x (match l with
                                 | [] => [] | _ => py ", " ++
                                     Py.join (py ", ") (map Json.dumps l)
                                 end ++ 93 :: rest))
        as (c & r & E & Wc & N1 & N2).
      assert (E' : Py.join (py ", ") (map Json.dumps (x :: l)) ++ 93 :: rest
                   = c :: r).
      { rewrite <- E. cbn [map Py.join]. destruct l; [reflexivity|].
        cbn [map]. rewrite <- !app_assoc. reflexivity. }
      rewrite E' in *. cbn [Json.skip_ws]. rewrite Wc.
      replace (c =? 93) with false by (symmetry; apply N.eqb_neq; exact N1).
      exact P.
  - cbn [size] in B.
    assert (T : Json.dumps (JDict d) ++ rest
                = 123 :: (Py.join (py ", ") (map member_text d) ++ 125 :: rest)).
    { cbn [Json.dumps]. change (py "{") with [123]. change (py "}") with [125].
      cbn [app]. rewrite <- app_assoc. reflexivity. }
    rewrite T. cbn [Json.parse_value].
    change (123 =? 34) with false. change (123 =? 91) with false.
    change (123 =? 123) with true. cbv iota.
    destruct d as [|[k v] d].
    + reflexivity.
    + apply wf_dict in W. destruct W as [ND W].
      assert (R : Forall (fun kv => text_ok (fst kv) /\ reads_back (snd kv))
                    ((k, v) :: d)).
      { apply Forall_forall. intros y Hy. rewrite Forall_forall in W.
        destruct (W y Hy) as [A C]. split; [exact A|].
        apply IH; [apply size_member; exact Hy | exact C]. }
      pose proof (@parse_members_dumps ((k, v) :: d) R ltac:(discriminate) []
                    f rest ltac:(lia)) as P.
      cbn [rev app] in P. rewrite (@dict_of_items_nodup _ _ ND) in P.
      assert (E' : exists r,
                 Py.join (py ", ") (map member_text ((k, v) :: d))
                 ++ 125 :: rest = 34 :: r).
      { cbn [map Py.join]. unfold member_text at 1, Json.quote.
        cbn [fst snd app]. destruct d; eexists; reflexivity. }
      destruct E' as (r & E'). rewrite E' in *.
      cbn [Json.skip_ws]. change (Json.is_ws 34) with false. cbv iota.
      change (34 =? 125) with false. cbv iota. exact P.
Qed.

Lemma size_le_length (j : Json.t) : (size j <= List.length (Json.dumps j))%nat.
Proof.
  induction j as [j IH] using json_size_ind.
  destruct j as [|b|z|s|l|d]; cbn [size Json.dumps].
  - simpl; lia.
  - destruct b; simpl; lia.
  - pose proof (str_of_int_nonempty z).
    destruct (Py.str_of_int z); [congruence | simpl; lia].
  - unfold Json.quote. simpl. lia.
  - rewrite !length_app. change (List.length (py "[")) with 1%nat.
    change (List.length (py "]")) with 1%nat.
    assert (G : (fold_right (fun x n => S (size x + n)) 0 l
                 <= List.length (Py.join (py ", ") (map Json.dumps l)) + 1)%nat).
    { assert (A : forall x, In x l -> (size x <= List.length (Json.dumps x))%nat)
        by (intros x Hx; apply IH, size_element, Hx).
      clear IH. induction l as [|x l IHl]; [simpl; lia|].
      cbn [fold_right map]. pose proof (A x (or_introl eq_refl)).
      specialize (IHl (fun y Hy => A y (or_intror Hy))).
      destruct l as [|y l]; [simpl in *; lia|].
      cbn [map Py.join] in *. rewrite !length_app.
      change (List.length (py ", ")) with 2%nat. lia. }
    lia.
  - rewrite !length_app. change (List.length (py "{")) with 1%nat.
    change (List.length (py "}")) with 1%nat.
    change (map (fun kv : pystr * Json.t =>
                   Json.quote (fst kv) ++ py ": " ++ Json.dumps (snd kv)) d)
      with (map member_text d).
    assert (G : (fold_right (fun kv n => S (size (snd kv) + n)) 0 d
                 <= List.length (Py.join (py ", ") (map member_text d)) + 1)%nat).
    { assert (A : forall x, In x d ->
                    (size (snd x) <= List.length (member_text x))%nat).
      { intros x Hx. unfold member_text. rewrite !length_app.
        pose proof (IH (snd x) (size_member _ _ Hx)). lia. }
      clear IH. induction d as [|x d IHd]; [simpl; lia|].
      cbn [fold_right map]. pose proof (A x (or_introl eq_refl)).
      specialize (IHd (fun y Hy => A y (or_intror Hy))).
      destruct d as [|y d]; [simpl in *; lia|].
      cbn [map Py.join] in *. rewrite !length_app.
      change (List.length (py ", ")) with 2%nat. lia. }
    lia.
Qed.

(** [json.loads(json.dumps(j))] is [j]. *)
Lemma loads_dumps (j : Json.t) : wf j -> Json.loads (Json.dumps j) = Some j.
Proof.
  intros W. unfold Json.loads.
  pose proof (@dumps_starts j []) as St. rewrite app_nil_r in St.
  rewrite (starts_value_skip St).
  pose proof (@reads_back_wf j W (S (List.length (Json.dumps j))) []) as R.
  rewrite app_nil_r in R. rewrite R; [reflexivity | | exact I].
  pose proof (size_le_length j). lia.
Qed.

End JsonValues.

(** ** Decoding what the projection encoded *)

Lemma mapO_map {A B} (f : B -> option A) (g : A -> B) (l : list A) :
  (forall x, In x l -> f (g x) = Some x) -> mapO f (map g l) = Some l.
Proof.
  induction l as [|x l IH]; intros H; simpl; [reflexivity|].
  rewrite (H x (or_introl eq_refl)), IH; [reflexivity|].
  intros y Hy; apply H; right; exact Hy.
Qed.

Lemma decode_list {A} (f : Json.t -> option A) (g : A -> Json.t)
  (l : list A) :
  (forall x, In x l -> f (g x) = Some x) ->
  Decode.list_of f (JList (map g l)) = Some l.
Proof. intros H. apply mapO_map; exact H. Qed.

Lemma decode_dict {A} (f : Json.t -> option A) (g : A -> Json.t)
  (d : dict A) :
  (forall kv, In kv d -> f (g (snd kv)) = Some (snd kv)) ->
  Decode.dict_of f (JDict (map (fun kv => (fst kv, g (snd kv))) d)) = Some d.
Proof.
  intros H. unfold Decode.dict_of.
  apply (mapO_map (fun kv => option_map (pair (fst kv)) (f (snd kv)))
           (fun kv => (fst kv, g (snd kv)))).
  intros [k v] Hkv. pose proof (H (k, v) Hkv) as E. cbn [fst snd] in *.
  rewrite E. reflexivity.
Qed.

Lemma decode_int_keyed {A} (f : Json.t -> option A) (g : A -> Json.t)
  (d : list (Z * A)) :
  (forall kv, In kv d -> f (g (snd kv)) = Some (snd kv)) ->
  Decode.int_keyed f
    (JDict (map (fun kv => (Py.str_of_int (fst kv), g (snd kv))) d))
  = Some d.
Proof.
  intros H. unfold Decode.int_keyed.
  apply (mapO_map
           (fun kv : pystr * Json.t =>
              match Py.int (fst kv), f (snd kv) with
              | Some z, Some a => Some (z, a)
              | _, _ => None
              end)
           (fun kv : Z * A => (Py.str_of_int (fst kv), g (snd kv)))).
  intros [k v] Hkv. pose proof (H (k, v) Hkv) as E. cbn [fst snd] in *.
  rewrite int_of_str, E. reflexivity.
Qed.

Lemma decode_limit_item (i : LimitItem.t) :
  Decode.limit_item (LimitItem.to_json i) = Some i.
Proof. destruct i; reflexivity. Qed.

Lemma decode_strings (l : list pystr) :
  Decode.list_of Decode.str (JList (map JStr l)) = Some l.
Proof. apply decode_list. reflexivity. Qed.

Lemma decode_ints (l : list Z) :
  Decode.list_of Decode.int (JList (map JInt l)) = Some l.
Proof. apply decode_list. reflexivity. Qed.

Lemma decode_limits (d : dict (list LimitItem.t)) :
  Decode.dict_of (Decode.list_of Decode.limit_item) (RateLimit.limits_json d)
  = Some d.
Proof.
  unfold RateLimit.limits_json.
  apply (decode_dict (Decode.list_of Decode.limit_item)
           (fun v => JList (map LimitItem.to_json v))).
  intros kv _. apply decode_list. intros i _. apply decode_limit_item.
Qed.

Lemma decode_levels (d : dict (list Z)) :
  Decode.dict_of (Decode.list_of Decode.int) (ApiKey.levels_json d) = Some d.
Proof.
  unfold ApiKey.levels_json.
  apply (decode_dict (Decode.list_of Decode.int) (fun v => JList (map JInt v))).
  intros kv _. apply decode_ints.
Qed.

Lemma decode_int_keyed_json (d : list (Z * list pystr)) :
  Decode.int_keyed (Decode.list_of Decode.str) (ApiKey.int_keyed_json d)
  = Some d.
Proof.
  unfold ApiKey.int_keyed_json.
  apply (decode_int_keyed (Decode.list_of Decode.str)
           (fun v => JList (map JStr v))).
  intros kv _. apply decode_strings.
Qed.

Lemma decode_forward (l : list ForwardItem.t) :
  Decode.list_of (Decode.dict_of Decode.str)
    (JList (map ForwardItem.to_dict l))
  = Some (map forward_kwargs l).
Proof.
  unfold Decode.list_of. induction l as [|i l IH]; [reflexivity|].
  cbn [map mapO]. rewrite IH. destruct i; reflexivity.
Qed.

Lemma forward_of_kwargs (l : list ForwardItem.t) :
  mapM Config.forward_item_of_kwargs (map forward_kwargs l) = Ok l.
Proof.
  induction l as [|i l IH]; [reflexivity|].
  cbn [map mapM]. rewrite IH. destruct i; reflexivity.
Qed.

(** ** Well-formed text in a configuration *)

Section TextOk.

Local Open Scope N_scope.

Lemma text_ok_lit (s : string) : text_ok (py s).
Proof.
  unfold text_ok, Py.lit. apply Forall_forall. intros c H.
  apply in_map_iff in H. destruct H as (a & <- & _).
  left. pose proof (N_ascii_bounded a). lia.
Qed.

Lemma text_ok_int (z : Z) : text_ok (Py.str_of_int z).
Proof.
  unfold text_ok. eapply Forall_impl; [|apply str_of_int_chars].
  intros c [->|[A B]]; left; lia.
Qed.

Lemma str_of_int_inj (a b : Z) : Py.str_of_int a = Py.str_of_int b -> a = b.
Proof.
  intros H. pose proof (int_of_str a) as A. rewrite H, int_of_str in A.
  congruence.
Qed.

End TextOk.

Lemma keys_dict_set {V} (k : pystr) (v : V) (d : dict V) :
  keys (dict_set k v d) = if existsb (Py.eqb k) (keys d) then keys d
                          else keys d ++ [k].
Proof.
  unfold keys; induction d as [|[k0 v0] d IH]; simpl; [reflexivity|].
  destruct (Py.eqb k k0) eqn:E; simpl; [reflexivity|].
  rewrite IH. destruct (existsb (Py.eqb k) (map fst d)); reflexivity.
Qed.

Lemma dict_set_nodup {V} (k : pystr) (v : V) (d : dict V) :
  NoDup (keys d) -> NoDup (keys (dict_set k v d)).
Proof.
  intros H. rewrite keys_dict_set.
  destruct (existsb (Py.eqb k) (keys d)) eqn:E; [exact H|].
  apply NoDup_app; [exact H | repeat constructor; intros [] |].
  intros x Hx [X|[]]. subst x.
  assert (X : existsb (Py.eqb k) (keys d) = true)
    by (apply existsb_exists; exists k; split; [exact Hx | apply eqb_refl]).
  congruence.
Qed.

Lemma dict_set_entries {V} (k : pystr) (v : V) (d : dict V) (kv : pystr * V) :
  In kv (dict_set k v d) -> kv = (k, v) \/ In kv d.
Proof.
  induction d as [|[k0 v0] d IH]; simpl.
  - intros [<-|[]]; auto.
  - destruct (Py.eqb k k0) eqn:E; simpl.
    + apply eqb_eq in E; subst. intros [<-|H]; auto.
    + intros [<-|H]; auto. destruct (IH H); auto.
Qed.

Lemma dict_update_nodup_keys {V} (items d : dict V) :
  NoDup (keys d) -> NoDup (keys (dict_update d items)).
Proof.
  unfold dict_update. revert d; induction items as [|[k v] items IH];
    intros d H; simpl; [exact H|].
  apply IH, dict_set_nodup, H.
Qed.

Lemma dict_update_entries {V} (items d : dict V) (kv : pystr * V) :
  In kv (dict_update d items) -> In kv d \/ In kv items.
Proof.
  unfold dict_update. revert d; induction items as [|[k v] items IH];
    intros d; simpl; [auto|].
  intros H. destruct (IH _ H) as [X|X]; [|auto].
  destruct (dict_set_entries _ _ _ _ X); auto.
Qed.

Definition forward_text_ok (i : ForwardItem.t) : Prop :=
  text_ok i.(ForwardItem.base_url) /\ text_ok i.(ForwardItem.route)
  /\ text_ok i.(ForwardItem.type).

Definition rule_text_ok (r : RateLimitType.t) : Prop :=
  text_ok r.(RateLimitType.route)
  /\ Forall (fun i => text_ok i.(LimitItem.limit)) r.(RateLimitType.value).

(** The strings of the configuration are scalar text, and the two
    dictionaries keyed by level have no repeated key. *)
Record well_formed (C : Config.t) : Prop := {
  wf_forward : Forall forward_text_ok C.(Config.forward);
  wf_openai_key :
    Forall (fun kv => text_ok (fst kv)) C.(Config.api_key).(ApiKey.openai_key);
  wf_forward_key_keys :
    NoDup (map fst C.(Config.api_key).(ApiKey.forward_key));
  wf_forward_key :
    Forall (fun kv => Forall text_ok (snd kv))
      C.(Config.api_key).(ApiKey.forward_key);
  wf_level_keys : NoDup (map fst C.(Config.api_key).(ApiKey.level));
  wf_level :
    Forall (fun kv => Forall text_ok (snd kv)) C.(Config.api_key).(ApiKey.level);
  wf_routes : Forall text_ok C.(Config.cache).(CacheConfig.routes);
  wf_token :
    Forall rule_text_ok C.(Config.rate_limit).(RateLimit.token_rate_limit);
  wf_req :
    Forall rule_text_ok C.(Config.rate_limit).(RateLimit.req_rate_limit) }.

Lemma wf_strings_json (l : list pystr) :
  Forall text_ok l -> wf (JList (map JStr l)).
Proof.
  intros H. apply wf_list. apply Forall_forall. intros j Hj.
  apply in_map_iff in Hj. destruct Hj as (s & <- & Hs).
  rewrite Forall_forall in H. exact (H s Hs).
Qed.

Lemma wf_forward_json (l : list ForwardItem.t) :
  Forall forward_text_ok l -> wf (JList (map ForwardItem.to_dict l)).
Proof.
  intros H. apply wf_list. apply Forall_forall. intros j Hj.
  apply in_map_iff in Hj. destruct Hj as (i & <- & Hi).
  rewrite Forall_forall in H. destruct (H i Hi) as (A & B & C).
  unfold ForwardItem.to_dict. apply wf_dict. split.
  - repeat constructor; simpl; intuition discriminate.
  - repeat constructor; cbn [fst snd wf]; auto using text_ok_lit.
Qed.

Lemma wf_limits_json (rules : list RateLimitType.t) :
  Forall rule_text_ok rules ->
  wf (RateLimit.limits_json (RateLimit.projected rules)).
Proof.
  intros H. unfold RateLimit.limits_json. apply wf_dict. split.
  - unfold keys. rewrite map_map. cbn [fst].
    apply (@dict_update_nodup_keys (list LimitItem.t)). constructor.
  - apply Forall_forall. intros kv Hkv.
    apply in_map_iff in Hkv. destruct Hkv as ([r v] & <- & Hrv). cbn [fst snd].
    unfold RateLimit.projected, dict_of_items in Hrv.
    apply dict_update_entries in Hrv. destruct Hrv as [[]|Hrv].
    apply in_map_iff in Hrv. destruct Hrv as (i & [= <- <-] & Hi).
    apply filter_In in Hi. destruct Hi as [Hi _].
    rewrite Forall_forall in H. destruct (H i Hi) as [A B].
    split; [exact A|]. apply wf_list. apply Forall_forall. intros j Hj.
    apply in_map_iff in Hj. destruct Hj as (it & <- & Hit).
    unfold LimitItem.to_json. apply wf_dict. split.
    + repeat constructor; simpl; intuition discriminate.
    + rewrite Forall_forall in B.
      repeat constructor; cbn [fst snd wf]; auto using text_ok_lit.
Qed.

Lemma wf_int_keyed_json (d : list (Z * list pystr)) :
  NoDup (map fst d) -> Forall (fun kv => Forall text_ok (snd kv)) d ->
  wf (ApiKey.int_keyed_json d).
Proof.
  intros ND H. unfold ApiKey.int_keyed_json. apply wf_dict. split.
  - unfold keys. rewrite map_map. cbn [fst].
    rewrite <- (map_map fst Py.str_of_int).
    apply NoDup_map_NoDup_ForallPairs; [|exact ND].
    intros a b _ _; apply str_of_int_inj.
  - apply Forall_forall. intros kv Hkv.
    apply in_map_iff in Hkv. destruct Hkv as ([z v] & <- & Hzv). cbn [fst snd].
    split; [apply text_ok_int|]. apply wf_strings_json.
    rewrite Forall_forall in H. exact (H (z, v) Hzv).
Qed.

Lemma parse_items_keys (items : list (pystr * ApiKey.levels))
  (acc d : dict (list Z)) :
  ApiKey.parse_items items acc = Ok d ->
  NoDup (keys acc) ->
  NoDup (keys d)
  /\ forall k, In k (keys d) -> In k (keys acc) \/ In k (keys items).
Proof.
  revert acc; induction items as [|[k v] items IH]; intros acc; simpl.
  - intros [= ->] H; auto.
  - destruct (ApiKey.split_levels v) as [values|]; [|discriminate]; simpl.
    destruct (mapM ApiKey.int_level values) as [ints|]; [|discriminate]; simpl.
    intros H ND.
    destruct (IH _ H (@dict_set_nodup _ k ints acc ND)) as [A B].
    split; [exact A|]. intros k' Hk'. destruct (B k' Hk') as [X|X]; [|auto].
    rewrite keys_dict_set in X.
    destruct (existsb (Py.eqb k) (keys acc)); [auto|].
    apply in_app_or in X. destruct X as [X|[<-|[]]]; auto.
Qed.

Lemma wf_levels_json (d : dict (list Z)) :
  NoDup (keys d) -> Forall text_ok (keys d) -> wf (ApiKey.levels_json d).
Proof.
  intros ND H. unfold ApiKey.levels_json. apply wf_dict. split.
  - unfold keys in *. rewrite map_map. cbn [fst]. exact ND.
  - apply Forall_forall. intros kv Hkv.
    apply in_map_iff in Hkv. destruct Hkv as ([k v] & <- & Hk). cbn [fst snd].
    split.
    + rewrite Forall_forall in H. apply H. unfold keys.
      apply in_map_iff. exists (k, v); auto.
    + apply wf_list. apply Forall_forall. intros j Hj.
      apply in_map_iff in Hj. destruct Hj as (z & <- & _). exact I.
Qed.

(** ** Hydrating the projection (claim C1) *)

(** The entries of the projection of [C], [d] being the levels parsed from
    its provider keys; the proxy entry follows when there is a proxy. *)
Definition projected_entries (C : Config.t) (d : dict (list Z)) : env :=
  let c := C.(Config.cache) in
  let rl := C.(Config.rate_limit) in
  let a := C.(Config.api_key) in
  [(py "FORWARD_CONFIG",
    Json.dumps (JList (map ForwardItem.to_dict C.(Config.forward))));
   (py "OPENAI_API_KEY_CONFIG", Json.dumps (ApiKey.levels_json d));
   (py "FORWARD_KEY_CONFIG",
    Json.dumps (ApiKey.int_keyed_json a.(ApiKey.forward_key)));
   (py "LEVEL_MODELS", Json.dumps (ApiKey.int_keyed_json a.(ApiKey.level)));
   (py "CACHE_OPENAI", Py.str_of_bool c.(CacheConfig.openai));
   (py "CACHE_GENERAL", Py.str_of_bool c.(CacheConfig.general));
   (py "CACHE_BACKEND", c.(CacheConfig.backend));
   (py "CACHE_ROOT_PATH_OR_URL", c.(CacheConfig.root_path_or_url));
   (py "DEFAULT_REQUEST_CACHING_VALUE",
    Py.str_of_bool c.(CacheConfig.default_request_caching_value));
   (py "CACHE_ROUTES", Json.dumps (JList (map JStr c.(CacheConfig.routes))));
   (py "GLOBAL_RATE_LIMIT", rl.(RateLimit.global_rate_limit));
   (py "RATE_LIMIT_STRATEGY", rl.(RateLimit.strategy));
   (py "TOKEN_RATE_LIMIT",
    Json.dumps (RateLimit.limits_json
                  (RateLimit.projected rl.(RateLimit.token_rate_limit))));
   (py "REQ_RATE_LIMIT",
    Json.dumps (RateLimit.limits_json
                  (RateLimit.projected rl.(RateLimit.req_rate_limit))));
   (py "ITER_CHUNK_TYPE", rl.(RateLimit.iter_chunk));
   (py "LOG_GENERAL", Py.str_of_bool C.(Config.log).(Log.general));
   (py "LOG_OPENAI", Py.str_of_bool C.(Config.log).(Log.openai));
   (py "TZ", C.(Config.timezone));
   (py "TIMEOUT", Py.str_of_int C.(Config.timeout));
   (py "BENCHMARK_MODE", Py.str_of_bool C.(Config.benchmark_mode));
   (py "DEFAULT_STREAM_RESPONSE",
    Py.str_of_bool C.(Config.default_stream_response))].

Definition proxy_entry (C : Config.t) : env :=
  if Py.truthy C.(Config.proxy) then [(py "PROXY", C.(Config.proxy))] else [].

Lemma project_entries (C : Config.t) (env_dict : env) :
  project C = Ok env_dict ->
  exists d,
    ApiKey.parse_items C.(Config.api_key).(ApiKey.openai_key) [] = Ok d
    /\ env_dict = projected_entries C d ++ proxy_entry C.
Proof.
  unfold project. intros H.
  destruct (Config.convert_to_env C false []) as [[e e']|] eqn:E;
    [|discriminate]. cbn [bind fst] in H. injection H as ->.
  unfold Config.convert_to_env, ApiKey.convert_to_env in E.
  destruct (ApiKey.parse_items _ _) as [d|]; [|discriminate E].
  cbn -[Json.dumps Py.str_of_int Py.str_of_bool Py.truthy] in E.
  exists d. split; [reflexivity|]. unfold proxy_entry.
  destruct (Py.truthy C.(Config.proxy)); injection E as <- _; reflexivity.
Qed.

Section Loading.

Variable e : env.

Lemma present_found (key v : pystr) :
  dict_get key e = Some v -> v <> [] -> present e key = Some v.
Proof.
  intros G N0. unfold present. rewrite G. destruct v; [congruence|reflexivity].
Qed.

Lemma load_json_ok {A} (key : pystr) (decode : Json.t -> option A)
  (default a : A) (j : Json.t) :
  dict_get key e = Some (Json.dumps j) -> wf j -> decode j = Some a ->
  load_json e key decode default = Ok a.
Proof.
  intros G W D. unfold load_json. rewrite (@present_found key _ G).
  - rewrite (@loads_dumps j W), D. reflexivity.
  - pose proof (@dumps_starts j []) as (c & r & E & _).
    rewrite app_nil_r in E. rewrite E. discriminate.
Qed.

Lemma load_int_ok (key : pystr) (default z : Z) :
  dict_get key e = Some (Py.str_of_int z) -> load_int e key default = Ok z.
Proof.
  intros G. unfold load_int.
  rewrite (@present_found key _ G) by apply str_of_int_nonempty.
  rewrite int_of_str. reflexivity.
Qed.

Lemma load_bool_ok (key : pystr) (default b : bool) :
  dict_get key e = Some (Py.str_of_bool b) -> load_bool e key default = b.
Proof.
  intros G. unfold load_bool.
  rewrite (@present_found key _ G) by (destruct b; discriminate).
  destruct b; reflexivity.
Qed.

Lemma load_str_ok (key default v : pystr) :
  dict_get key e = Some v ->
  load_str e key default = match v with [] => default | _ => v end.
Proof.
  intros G. unfold load_str, present. rewrite G. destruct v; reflexivity.
Qed.

End Loading.

(** Rules that the projection keeps as they are: a route and limits in
    each, and no route twice. *)
Definition faithful (rules : list RateLimitType.t) : Prop :=
  rules <> []
  /\ NoDup (map RateLimitType.route rules)
  /\ Forall (fun r => r.(RateLimitType.route) <> []
                      /\ r.(RateLimitType.value) <> []) rules.

Lemma projected_faithful (rules : list RateLimitType.t) :
  faithful rules ->
  or_list (Config.rules_of_dict (RateLimit.projected rules))
    RateLimit.default.(RateLimit.token_rate_limit) = rules
  /\ or_list (Config.rules_of_dict (RateLimit.projected rules))
       RateLimit.default.(RateLimit.req_rate_limit) = rules.
Proof.
  intros (NE & ND & K).
  assert (F : filter (fun i => Py.truthy i.(RateLimitType.route)
                               && Py.truthy i.(RateLimitType.value)) rules
              = rules).
  { clear NE ND. induction K as [|r rules [A B] _ IH]; [reflexivity|].
    simpl. rewrite IH.
    destruct r.(RateLimitType.route); [congruence|].
    destruct r.(RateLimitType.value); [congruence|]. reflexivity. }
  assert (P : Config.rules_of_dict (RateLimit.projected rules) = rules).
  { unfold RateLimit.projected. rewrite F.
    rewrite dict_of_items_nodup
      by (unfold keys; rewrite map_map; cbn [fst]; exact ND).
    unfold Config.rules_of_dict. rewrite map_map. cbn [fst snd].
    clear. induction rules as [|[r v] rules IH]; [reflexivity|].
    simpl. rewrite IH. reflexivity. }
  rewrite P. destruct rules; [congruence|]. split; reflexivity.
Qed.

Ltac entry := intros; reflexivity.

(** C1, amended.  For a configuration [C] of well-formed text whose
    projection returns, hydrating the default configuration from that
    projection returns a configuration that agrees with [C] on the forward
    rules, the timezone, the timeout, the benchmark flag, the proxy (empty
    or not), the logging flags and the three cache flags; on the cache
    backend and location and on the three rate-limit strings when they are
    non-empty; on the token and request rules when they are faithful (each
    with a route and limits, no route twice, at least one rule); and on
    the forward-key and level mappings when they are non-empty.  Nothing is
    said of the rate-limit backend, the cached routes, the provider keys and
    the default stream response. *)
Theorem C1_round_trip_amended :
  forall (C : Config.t) (env_dict : env),
    well_formed C ->
    project C = Ok env_dict ->
    exists C',
      hydrate env_dict Config.default = Ok C'
      /\ C'.(Config.forward) = C.(Config.forward)
      /\ C'.(Config.timezone) = C.(Config.timezone)
      /\ C'.(Config.timeout) = C.(Config.timeout)
      /\ C'.(Config.benchmark_mode) = C.(Config.benchmark_mode)
      /\ C'.(Config.proxy) = C.(Config.proxy)
      /\ C'.(Config.log) = C.(Config.log)
      /\ C'.(Config.cache).(CacheConfig.default_request_caching_value)
         = C.(Config.cache).(CacheConfig.default_request_caching_value)
      /\ C'.(Config.cache).(CacheConfig.openai)
         = C.(Config.cache).(CacheConfig.openai)
      /\ C'.(Config.cache).(CacheConfig.general)
         = C.(Config.cache).(CacheConfig.general)
      /\ (C.(Config.cache).(CacheConfig.backend) <> [] ->
          C'.(Config.cache).(CacheConfig.backend)
          = C.(Config.cache).(CacheConfig.backend))
      /\ (C.(Config.cache).(CacheConfig.root_path_or_url) <> [] ->
          C'.(Config.cache).(CacheConfig.root_path_or_url)
          = C.(Config.cache).(CacheConfig.root_path_or_url))
      /\ (C.(Config.rate_limit).(RateLimit.global_rate_limit) <> [] ->
          C'.(Config.rate_limit).(RateLimit.global_rate_limit)
          = C.(Config.rate_limit).(RateLimit.global_rate_limit))
      /\ (C.(Config.rate_limit).(RateLimit.strategy) <> [] ->
          C'.(Config.rate_limit).(RateLimit.strategy)
          = C.(Config.rate_limit).(RateLimit.strategy))
      /\ (C.(Config.rate_limit).(RateLimit.iter_chunk) <> [] ->
          C'.(Config.rate_limit).(RateLimit.iter_chunk)
          = C.(Config.rate_limit).(RateLimit.iter_chunk))
      /\ (faithful C.(Config.rate_limit).(RateLimit.token_rate_limit) ->
          C'.(Config.rate_limit).(RateLimit.token_rate_limit)
          = C.(Config.rate_limit).(RateLimit.token_rate_limit))
      /\ (faithful C.(Config.rate_limit).(RateLimit.req_rate_limit) ->
          C'.(Config.rate_limit).(RateLimit.req_rate_limit)
          = C.(Config.rate_limit).(RateLimit.req_rate_limit))
      /\ (C.(Config.api_key).(ApiKey.forward_key) <> [] ->
          C'.(Config.api_key).(ApiKey.forward_key)
          = C.(Config.api_key).(ApiKey.forward_key))
      /\ (C.(Config.api_key).(ApiKey.level) <> [] ->
          C'.(Config.api_key).(ApiKey.level)
          = C.(Config.api_key).(ApiKey.level)).
Proof.
  intros C env_dict W P.
  destruct (@project_entries _ _ P) as (d & PI & ->).
  set (e := projected_entries C d ++ proxy_entry C).
  assert (Wd : wf (ApiKey.levels_json d)).
  { destruct (@parse_items_keys _ _ _ PI (NoDup_nil _)) as [ND K].
    apply wf_levels_json; [exact ND|]. apply Forall_forall. intros k Hk.
    destruct (K k Hk) as [[]|X]. pose proof (wf_openai_key W) as T.
    rewrite Forall_forall in T. unfold keys in X. apply in_map_iff in X.
    destruct X as (kv & <- & Hkv). exact (T kv Hkv). }
  unfold hydrate, load_settings.
  rewrite (@load_int_ok e (py "TIMEOUT") _ C.(Config.timeout)) by entry.
  cbn [bind].
  rewrite (@load_json_ok e _ (py "REQ_RATE_LIMIT") _ _
             (RateLimit.projected
                C.(Config.rate_limit).(RateLimit.req_rate_limit))
             (RateLimit.limits_json
                (RateLimit.projected
                   C.(Config.rate_limit).(RateLimit.req_rate_limit))))
    by first [ solve [apply wf_limits_json, (wf_req W)]
             | solve [apply decode_limits] | entry ].
  cbn [bind].
  rewrite (@load_json_ok e _ (py "TOKEN_RATE_LIMIT") _ _
             (RateLimit.projected
                C.(Config.rate_limit).(RateLimit.token_rate_limit))
             (RateLimit.limits_json
                (RateLimit.projected
                   C.(Config.rate_limit).(RateLimit.token_rate_limit))))
    by first [ solve [apply wf_limits_json, (wf_token W)]
             | solve [apply decode_limits] | entry ].
  cbn [bind].
  rewrite (@load_json_ok e _ (py "CACHE_ROUTES") _ _
             C.(Config.cache).(CacheConfig.routes)
             (JList (map JStr C.(Config.cache).(CacheConfig.routes))))
    by first [ solve [apply wf_strings_json, (wf_routes W)]
             | solve [apply decode_strings] | entry ].
  cbn [bind].
  rewrite (@load_json_ok e _ (py "LEVEL_MODELS") _ _
             C.(Config.api_key).(ApiKey.level)
             (ApiKey.int_keyed_json C.(Config.api_key).(ApiKey.level)))
    by first [ solve [apply wf_int_keyed_json;
                      [apply (wf_level_keys W) | apply (wf_level W)]]
             | solve [apply decode_int_keyed_json] | entry ].
  cbn [bind].
  rewrite (@load_json_ok e _ (py "OPENAI_API_KEY_CONFIG") _ _ d
             (ApiKey.levels_json d))
    by first [ solve [exact Wd]
             | solve [apply decode_levels] | entry ].
  cbn [bind].
  rewrite (@load_json_ok e _ (py "FORWARD_KEY_CONFIG") _ _
             C.(Config.api_key).(ApiKey.forward_key)
             (ApiKey.int_keyed_json C.(Config.api_key).(ApiKey.forward_key)))
    by first [ solve [apply wf_int_keyed_json;
                      [apply (wf_forward_key_keys W) | apply (wf_forward_key W)]]
             | solve [apply decode_int_keyed_json] | entry ].
  cbn [bind].
  rewrite (@load_json_ok e _ (py "FORWARD_CONFIG") _ _
             (map forward_kwargs C.(Config.forward))
             (JList (map ForwardItem.to_dict C.(Config.forward))))
    by first [ solve [apply wf_forward_json, (wf_forward W)]
             | solve [apply decode_forward] | entry ].
  cbn [bind].
  unfold Config.come_from_env.
  cbn [Settings.FORWARD_CONFIG]. rewrite forward_of_kwargs. cbn [bind].
  eexists; split; [reflexivity|].
  cbn [Config.forward Config.timezone Config.timeout Config.benchmark_mode
       Config.proxy Config.log Config.cache Config.rate_limit Config.api_key
       CacheConfig.default_request_caching_value CacheConfig.openai
       CacheConfig.general CacheConfig.backend CacheConfig.root_path_or_url
       RateLimit.global_rate_limit RateLimit.strategy RateLimit.iter_chunk
       RateLimit.token_rate_limit RateLimit.req_rate_limit
       ApiKey.forward_key ApiKey.level
       Settings.TIMEOUT Settings.BENCHMARK_MODE Settings.PROXY
       Settings.LOG_OPENAI Settings.LOG_GENERAL Settings.RATE_LIMIT_STRATEGY
       Settings.GLOBAL_RATE_LIMIT Settings.ITER_CHUNK_TYPE
       Settings.req_rate_limit_dict Settings.token_rate_limit_conf
       Settings.CACHE_BACKEND Settings.CACHE_ROOT_PATH_OR_URL
       Settings.DEFAULT_REQUEST_CACHING_VALUE Settings.CACHE_OPENAI
       Settings.CACHE_GENERAL Settings.LEVEL_MODELS Settings.LEVEL_TO_FWD_KEY].
  rewrite (@load_bool_ok e (py "BENCHMARK_MODE") _ C.(Config.benchmark_mode))
    by entry.
  rewrite (@load_bool_ok e (py "LOG_OPENAI") _ C.(Config.log).(Log.openai))
    by entry.
  rewrite (@load_bool_ok e (py "LOG_GENERAL") _ C.(Config.log).(Log.general))
    by entry.
  rewrite (@load_bool_ok e (py "DEFAULT_REQUEST_CACHING_VALUE") _
             C.(Config.cache).(CacheConfig.default_request_caching_value))
    by entry.
  rewrite (@load_bool_ok e (py "CACHE_OPENAI") _
             C.(Config.cache).(CacheConfig.openai)) by entry.
  rewrite (@load_bool_ok e (py "CACHE_GENERAL") _
             C.(Config.cache).(CacheConfig.general)) by entry.
  rewrite (@load_str_ok e (py "CACHE_BACKEND") _
             C.(Config.cache).(CacheConfig.backend)) by entry.
  rewrite (@load_str_ok e (py "CACHE_ROOT_PATH_OR_URL") _
             C.(Config.cache).(CacheConfig.root_path_or_url)) by entry.
  rewrite (@load_str_ok e (py "GLOBAL_RATE_LIMIT") _
             C.(Config.rate_limit).(RateLimit.global_rate_limit)) by entry.
  rewrite (@load_str_ok e (py "RATE_LIMIT_STRATEGY") _
             C.(Config.rate_limit).(RateLimit.strategy)) by entry.
  rewrite (@load_str_ok e (py "ITER_CHUNK_TYPE") _
             C.(Config.rate_limit).(RateLimit.iter_chunk)) by entry.
  assert (TZ : dict_get (py "TZ") e = Some C.(Config.timezone)) by entry.
  rewrite TZ.
  assert (PX : or_str (present e (py "PROXY")) (py "") = C.(Config.proxy)).
  { unfold present.
    replace (dict_get (py "PROXY") e)
      with (dict_get (py "PROXY") (proxy_entry C)) by reflexivity.
    unfold proxy_entry. destruct C.(Config.proxy) as [|c p]; reflexivity. }
  rewrite PX. rewrite !orb_false_r.
  repeat split; try reflexivity.
  - destruct C.(Config.log); reflexivity.
  - destruct C.(Config.cache).(CacheConfig.backend); [congruence|reflexivity].
  - destruct C.(Config.cache).(CacheConfig.root_path_or_url);
      [congruence|reflexivity].
  - destruct C.(Config.rate_limit).(RateLimit.global_rate_limit);
      [congruence|reflexivity].
  - destruct C.(Config.rate_limit).(RateLimit.strategy);
      [congruence|reflexivity].
  - destruct C.(Config.rate_limit).(RateLimit.iter_chunk);
      [congruence|reflexivity].
  - intros F. apply (proj1 (@projected_faithful _ F)).
  - intros F. apply (proj2 (@projected_faithful _ F)).
  - destruct C.(Config.api_key).(ApiKey.forward_key); [congruence|reflexivity].
  - destruct C.(Config.api_key).(ApiKey.level); [congruence|reflexivity].
Qed.

(** A configuration with a token rule that has no limits yet: the defaults of
    [sample_config] and one more rule, which the projection leaves out. *)
Definition draft_rule : RateLimitType.t :=
  RateLimitType.mk (py "/v1/audio/speech") [].

Definition draft_rate_limit : RateLimit.t :=
  RateLimit.mk (py "") (py "inf")
    (RateLimit.default.(RateLimit.token_rate_limit) ++ [draft_rule])
    RateLimit.default.(RateLimit.req_rate_limit)
    (py "one-by-one") (py "moving-window").

Definition draft_config : Config.t :=
  Config.mk Config.default.(Config.forward) sample_api_key
    CacheConfig.default draft_rate_limit Log.default
    (py "Asia/Shanghai") 6 false (py "") true.

Definition projection_of (C : Config.t) : env :=
  match project C with Ok env_dict => env_dict | Raise _ => [] end.

(** C1, counterexample.  [draft_config] projects, and hydrating the default
    configuration from its projection returns a configuration whose token
    rules are the two rules with limits only: the rule without limits is not
    reproduced, and the field that differs is not the proxy, which is empty
    on both sides. *)
Lemma C1_round_trip_counterexample :
  exists (env_dict : env) (C' : Config.t),
    project draft_config = Ok env_dict
    /\ hydrate env_dict Config.default = Ok C'
    /\ C'.(Config.proxy) = draft_config.(Config.proxy)
    /\ C'.(Config.rate_limit).(RateLimit.token_rate_limit)
       = RateLimit.default.(RateLimit.token_rate_limit)
    /\ C'.(Config.rate_limit).(RateLimit.token_rate_limit)
       <> draft_config.(Config.rate_limit).(RateLimit.token_rate_limit)
    /\ C' <> draft_config.
Proof.
  exists (projection_of draft_config).
  destruct (hydrate (projection_of draft_config) Config.default)
    as [C'|x] eqn:H; [|vm_compute in H; discriminate H].
  exists C'. vm_compute in H. injection H as <-.
  split; [vm_compute; reflexivity|]. split; [reflexivity|].
  split; [reflexivity|]. split; [reflexivity|].
  split; intros E; vm_compute in E; discriminate E.
Qed.

(** The amended round trip at [sample_config]: its projection hydrates, and
    the result has the rules, the forward rules and the level mappings of
    [sample_config]. *)
Lemma C1_round_trip_amended_witness :
  well_formed sample_config
  /\ project sample_config = Ok (projection_of sample_config)
  /\ exists C',
       hydrate (projection_of sample_config) Config.default = Ok C'
       /\ C'.(Config.forward) = sample_config.(Config.forward)
       /\ C'.(Config.rate_limit).(RateLimit.token_rate_limit)
          = sample_config.(Config.rate_limit).(RateLimit.token_rate_limit)
       /\ C'.(Config.rate_limit).(RateLimit.req_rate_limit)
          = sample_config.(Config.rate_limit).(RateLimit.req_rate_limit)
       /\ C'.(Config.api_key).(ApiKey.forward_key)
          = sample_config.(Config.api_key).(ApiKey.forward_key)
       /\ C'.(Config.api_key).(ApiKey.level)
          = sample_config.(Config.api_key).(ApiKey.level).
Proof.
  assert (W : well_formed sample_config).
  { constructor; cbn -[Py.lit];
      repeat first [ apply text_ok_lit | apply Forall_nil | apply Forall_cons
                   | apply NoDup_nil | apply NoDup_cons | apply conj ];
      intros []. }
  assert (P : project sample_config = Ok (projection_of sample_config))
    by (vm_compute; reflexivity).
  split; [exact W|]. split; [exact P|].
  destruct (@C1_round_trip_amended sample_config _ W P)
    as (C' & H & F & _ & _ & _ & _ & _ & _ & _ & _ & _ & _ & _ & _ & _
        & T & R & K & L).
  exists C'. split; [exact H|]. split; [exact F|].
  split; [apply T|]. 2: split; [apply R|]. 3: split; [apply K|apply L].
  all: try (cbn; discriminate).
  all: repeat split; cbn;
    repeat first [ apply Forall_nil | apply Forall_cons
                 | apply NoDup_nil | apply NoDup_cons | apply conj ];
    cbn; try discriminate; intuition discriminate.
Defined.

(** ** Two fields outside the round trip *)

(** [come_from_env] assigns every attribute but [default_stream_response]:
    whatever the settings and the environment hold, a hydration that returns
    leaves that field as the receiver had it, and it returns exactly when the
    forward rules of the settings can be built. *)
Theorem hydration_keeps_default_stream_response :
  forall (S : Settings.t) (environ : env) (self : Config.t),
    match Config.come_from_env S environ self with
    | Ok C' =>
        C'.(Config.default_stream_response)
        = self.(Config.default_stream_response)
        /\ mapM Config.forward_item_of_kwargs S.(Settings.FORWARD_CONFIG)
           = Ok C'.(Config.forward)
    | Raise x =>
        mapM Config.forward_item_of_kwargs S.(Settings.FORWARD_CONFIG)
        = Raise x
    end.
Proof.
  intros S environ self. unfold Config.come_from_env.
  destruct (mapM Config.forward_item_of_kwargs S.(Settings.FORWARD_CONFIG));
    cbn [bind Config.default_stream_response Config.forward];
    [split|]; reflexivity.
Qed.

(** The configuration [C] with another rate-limit backend. *)
Definition with_backend (b : pystr) (C : Config.t) : Config.t :=
  let rl := C.(Config.rate_limit) in
  Config.mk C.(Config.forward) C.(Config.api_key) C.(Config.cache)
    (RateLimit.mk b rl.(RateLimit.global_rate_limit)
       rl.(RateLimit.token_rate_limit) rl.(RateLimit.req_rate_limit)
       rl.(RateLimit.iter_chunk) rl.(RateLimit.strategy))
    C.(Config.log) C.(Config.timezone) C.(Config.timeout)
    C.(Config.benchmark_mode) C.(Config.proxy)
    C.(Config.default_stream_response).

(** [convert_to_env] does not read the rate-limit backend: two configurations
    that differ in that field only have the same projection, and leave the
    same environment. *)
Theorem projection_ignores_rate_limit_backend :
  forall (b : pystr) (C : Config.t) (set_env : bool) (environ : env),
    Config.convert_to_env (with_backend b C) set_env environ
    = Config.convert_to_env C set_env environ.
Proof.
  intros b C set_env environ. reflexivity.
Qed.

(** * The rest of the two files

    What follows covers the code around the projection and the supervisor:
    when the projection returns, what [set_env] does to [os.environ], how the
    sections' own projections make up [Config.convert_to_env], the class
    [Forward], and what [come_from_env] keeps. *)

(** ** When the projection returns *)

(** [value.strip().replace('，', ',').split(',')] for a string [value]. *)
Definition level_pieces (s : pystr) : list pystr :=
  Py.split 44 (Py.replace Py.fullwidth_comma 44 (Py.strip s)).

(** A value of [openai_key] that [ApiKey.convert_to_env] can read: a string
    whose pieces are all accepted by [int]. *)
Definition levels_ok (value : ApiKey.levels) : Prop :=
  match value with
  | ApiKey.LevelsStr s => Forall (fun p => Py.int p <> None) (level_pieces s)
  | ApiKey.LevelsList _ => False
  end.


(** The exception a value that cannot be read raises. *)
Definition levels_error (value : ApiKey.levels) : exn :=
  match value with
  | ApiKey.LevelsStr _ =>
      ValueError (py "invalid literal for int() with base 10")
  | ApiKey.LevelsList _ =>
      AttributeError (py "'list' object has no attribute 'strip'")
  end.

Lemma mapM_int_level (pieces : list pystr) :
  (exists ints, mapM ApiKey.int_level pieces = Ok ints)
  <-> Forall (fun p => Py.int p <> None) pieces.
Proof.
  induction pieces as [|p pieces IH]; cbn [mapM].
  - split; [constructor | exists []; reflexivity].
  - unfold ApiKey.int_level at 1. destruct (Py.int p) as [z|] eqn:E;
      cbn [bind].
    + split.
      * intros [ints H]. constructor; [congruence|]. apply IH.
        destruct (mapM ApiKey.int_level pieces) as [l|]; [|discriminate H].
        exists l; reflexivity.
      * intros H. inversion H as [|? ? _ H2]; subst.
        apply IH in H2. destruct H2 as [l ->]. eexists; reflexivity.
    + split; [intros [ints H]; discriminate H|].
      intros H. inversion H as [|? ? H1 _]; subst. congruence.
Qed.

Lemma mapM_int_level_error (pieces : list pystr) :
  ~ Forall (fun p => Py.int p <> None) pieces ->
  mapM ApiKey.int_level pieces
  = Raise (ValueError (py "invalid literal for int() with base 10")).
Proof.
  induction pieces as [|p pieces IH]; intros H.
  - destruct H; constructor.
  - cbn [mapM]. unfold ApiKey.int_level at 1.
    destruct (Py.int p) as [z|] eqn:E; cbn [bind]; [|reflexivity].
    rewrite IH; [reflexivity|].
    intros F. apply H. constructor; [congruence | exact F].
Qed.

Lemma entry_ok (value : ApiKey.levels) :
  levels_ok value ->
  exists ints,
    (values <- ApiKey.split_levels value ;; mapM ApiKey.int_level values)
    = Ok ints.
Proof.
  destruct value as [s|l]; cbn [levels_ok ApiKey.split_levels bind];
    [|intros []].
  intros H. apply mapM_int_level in H. exact H.
Qed.

Lemma entry_error (value : ApiKey.levels) :
  ~ levels_ok value ->
  (values <- ApiKey.split_levels value ;; mapM ApiKey.int_level values)
  = Raise (levels_error value).
Proof.
  destruct value as [s|l];
    cbn [levels_ok ApiKey.split_levels bind levels_error]; [|reflexivity].
  apply mapM_int_level_error.
Qed.



(** The projection with [set_env] and an environment is the projection
    without them, and the environment updated when [set_env] is set. *)
Lemma convert_to_env_flag (C : Config.t) (set_env : bool) (environ : env) :
  Config.convert_to_env C set_env environ
  = match Config.convert_to_env C false [] with
    | Ok (d, _) => Ok (d, set_environ set_env d environ)
    | Raise x => Raise x
    end.
Proof.
  unfold Config.convert_to_env, ApiKey.convert_to_env.
  destruct (ApiKey.parse_items _ _); reflexivity.
Qed.







(** ** [set_env] and [os.environ] *)

Fixpoint distinct (l : list pystr) : bool :=
  match l with
  | [] => true
  | k :: l' => negb (existsb (Py.eqb k) l') && distinct l'
  end.

Lemma distinct_NoDup (l : list pystr) : distinct l = true -> NoDup l.
Proof.
  induction l as [|k l IH]; cbn [distinct]; [constructor|].
  intros H. apply andb_true_iff in H. destruct H as [H1 H2].
  constructor; [|exact (IH H2)].
  intros X. apply negb_true_iff in H1.
  assert (Y : existsb (Py.eqb k) l = true)
    by (apply existsb_exists; exists k; split; [exact X | apply eqb_refl]).
  congruence.
Qed.



Lemma dict_get_entry {V} (k : pystr) (v : V) (d : dict V) :
  dict_get k d = Some v -> In (k, v) d.
Proof.
  induction d as [|[k0 v0] d IH]; cbn [dict_get]; [discriminate|].
  destruct (Py.eqb k k0) eqn:E.
  - apply eqb_eq in E; subst k0. intros [= ->]. left; reflexivity.
  - intros H. right. exact (IH H).
Qed.

Lemma projected_keys_distinct (C : Config.t) (d : dict (list Z)) :
  NoDup (keys (projected_entries C d ++ proxy_entry C)).
Proof.
  apply distinct_NoDup. unfold proxy_entry.
  destruct (Py.truthy C.(Config.proxy)); reflexivity.
Qed.

Lemma projection_entries (C : Config.t) (set_env : bool) (environ : env)
  (env_dict environ' : env) :
  Config.convert_to_env C set_env environ = Ok (env_dict, environ') ->
  environ' = set_environ set_env env_dict environ
  /\ exists d,
       ApiKey.parse_items C.(Config.api_key).(ApiKey.openai_key) [] = Ok d
       /\ env_dict = projected_entries C d ++ proxy_entry C.
Proof.
  rewrite convert_to_env_flag.
  destruct (Config.convert_to_env C false []) as [[d0 e0]|x] eqn:E;
    [|discriminate].
  intros [= <- <-]. split; [reflexivity|].
  apply project_entries. unfold project. rewrite E. reflexivity.
Qed.




(** ** The sections' own projections *)

(** The class [Forward]: the forward rules on their own, with the projection
    that [Config.convert_to_env] repeats inline. *)
Module Forward.

Record t : Type := mk { forward : list ForwardItem.t }.

(** [Forward()] *)
Definition default : t :=
  mk [ForwardItem.mk (py "https://api.openai.com") (py "/") (py "openai");
      ForwardItem.mk (py "https://generativelanguage.googleapis.com")
        (py "/gemini") (py "general")].

Definition convert_to_env (self : t) (set_env : bool) (environ : env)
  : env * env :=
  let env_dict :=
    [(py "FORWARD_CONFIG",
      Json.dumps (JList (map ForwardItem.to_dict self.(forward))))] in
  (env_dict, set_environ set_env env_dict environ).

End Forward.

(** The entries that the five sections of a configuration project on their
    own: [Forward], [ApiKey], [CacheConfig], [RateLimit] and [Log]. *)
Definition section_entry (C : Config.t) (k v : pystr) : Prop :=
  dict_get k (fst (Forward.convert_to_env
                     (Forward.mk C.(Config.forward)) false [])) = Some v
  \/ (exists r, ApiKey.convert_to_env C.(Config.api_key) false [] = Ok r
                /\ dict_get k (fst r) = Some v)
  \/ dict_get k (fst (CacheConfig.convert_to_env C.(Config.cache) false []))
     = Some v
  \/ dict_get k (fst (RateLimit.convert_to_env C.(Config.rate_limit) false []))
     = Some v
  \/ dict_get k (fst (Log.convert_to_env C.(Config.log) false [])) = Some v.

(** [Config.convert_to_env] is made of the sections' projections: every
    entry that [Forward], [ApiKey], [CacheConfig], [RateLimit] or [Log]
    projects on its own is an entry of the configuration's mapping, with the
    same value; no section overwrites a key of another.  The only other
    keys are [TZ], [TIMEOUT], [BENCHMARK_MODE], [DEFAULT_STREAM_RESPONSE] and
    [PROXY]. *)
Theorem section_projections_compose :
  forall (C : Config.t) (set_env : bool) (environ env_dict environ' : env),
    Config.convert_to_env C set_env environ = Ok (env_dict, environ') ->
    forall k v,
      dict_get k env_dict = Some v
      <-> (section_entry C k v
           \/ In (k, v)
                [(py "TZ", C.(Config.timezone));
                 (py "TIMEOUT", Py.str_of_int C.(Config.timeout));
                 (py "BENCHMARK_MODE",
                  Py.str_of_bool C.(Config.benchmark_mode));
                 (py "DEFAULT_STREAM_RESPONSE",
                  Py.str_of_bool C.(Config.default_stream_response))]
           \/ (C.(Config.proxy) <> []
               /\ (k, v) = (py "PROXY", C.(Config.proxy)))).
Proof.
  intros C set_env environ env_dict environ' H k v.
  destruct (projection_entries _ _ _ H) as (_ & d & P & ->).
  unfold section_entry, ApiKey.convert_to_env. rewrite P. cbn [bind].
  split.
  - intros G. apply dict_get_entry in G. apply in_app_or in G.
    destruct G as [G|G].
    + unfold projected_entries in G. cbn [In] in G.
      repeat (destruct G as [G|G];
              [injection G as <- <-;
               first [ left; left; reflexivity
                     | left; right; left; eexists; split; reflexivity
                     | left; right; right; left; reflexivity
                     | left; right; right; right; left; reflexivity
                     | left; right; right; right; right; reflexivity
                     | right; left; cbn [In]; tauto ]|]).
      destruct G.
    + right; right. unfold proxy_entry in G.
      destruct C.(Config.proxy) as [|c p]; cbn in G; [destruct G|].
      destruct G as [G|[]]. split; [discriminate | symmetry; exact G].
  - assert (T : forall key value,
               In (key, value) (projected_entries C d ++ proxy_entry C) ->
               dict_get key (projected_entries C d ++ proxy_entry C)
               = Some value).
    { intros key value G.
      pose proof (projected_keys_distinct C d) as N.
      revert N G. generalize (projected_entries C d ++ proxy_entry C).
      intros l. unfold keys. induction l as [|[k0 v0] l IH]; cbn [map fst In].
      - intros _ [].
      - intros N [G|G]; inversion N as [|? ? N1 N2]; subst; cbn [dict_get].
        + injection G as -> ->. rewrite eqb_refl. reflexivity.
        + destruct (Py.eqb key k0) eqn:E; [|exact (IH N2 G)].
          apply eqb_eq in E; subst k0. destruct N1.
          apply in_map_iff. exists (key, value). split; [reflexivity|exact G]. }
    intros [S|[S|[N S]]]; apply T.
    + apply in_or_app; left.
      destruct S as [S|[(r & [= <-] & S)|[S|[S|S]]]];
        apply dict_get_entry in S; cbn in S;
        repeat (destruct S as [S|S];
                [injection S as <- <-; unfold projected_entries; cbn [In];
                 tauto|]);
        destruct S.
    + apply in_or_app; left. cbn [In] in S.
      repeat (destruct S as [S|S];
              [injection S as <- <-; unfold projected_entries; cbn [In];
               tauto|]).
      destruct S.
    + apply in_or_app; right. unfold proxy_entry.
      destruct C.(Config.proxy) as [|c p]; [congruence|].
      rewrite S. left; reflexivity.
Qed.

Lemma section_projections_compose_witness :
  dict_get (py "LOG_OPENAI") (projection_of sample_config) = Some (py "True").
Proof.
  assert (H : Config.convert_to_env sample_config false []
              = Ok (projection_of sample_config, []))
    by (vm_compute; reflexivity).
  apply (proj2 (@section_projections_compose _ _ _ _ _ H _ _)).
  left. right; right; right; right. reflexivity.
Defined.

(** ** What [come_from_env] keeps *)

Lemma or_list_idem {A} (a b : list A) : or_list a (or_list a b) = or_list a b.
Proof. destruct a; reflexivity. Qed.

Lemma or_str_idem (a : option pystr) (b : pystr) :
  or_str a (or_str a b) = or_str a b.
Proof. destruct a as [[|c s]|]; reflexivity. Qed.

Lemma or_list_nonempty {A} (a b : list A) : b <> [] -> or_list a b <> [].
Proof. destruct a; cbn; [auto | discriminate]. Qed.

(** Hydrating twice from the same settings and environment is hydrating
    once: the second [come_from_env] returns the configuration the first one
    left. *)
Theorem hydration_idempotent :
  forall (S : Settings.t) (environ : env) (self C' : Config.t),
    Config.come_from_env S environ self = Ok C' ->
    Config.come_from_env S environ C' = Ok C'.
Proof.
  intros S environ self C'. unfold Config.come_from_env.
  destruct (mapM Config.forward_item_of_kwargs S.(Settings.FORWARD_CONFIG))
    as [forward|x]; cbn [bind]; [|discriminate].
  intros [= <-].
  cbn [Config.rate_limit Config.cache Config.api_key
       Config.default_stream_response
       RateLimit.backend RateLimit.token_rate_limit RateLimit.req_rate_limit
       CacheConfig.openai CacheConfig.general CacheConfig.routes
       ApiKey.openai_key ApiKey.forward_key ApiKey.level].
  rewrite !or_list_idem, or_str_idem, !orb_assoc, !orb_diag. reflexivity.
Qed.

(** Settings for which nothing is configured but one forward rule. *)
Definition bare_settings : Settings.t :=
  Settings.mk 10 false None false false (py "") (py "") (py "") None
    [] [] (py "") (py "") false false false [] [] [] []
    [[(py "base_url", py "https://api.openai.com"); (py "route", py "/")]].

Lemma hydration_idempotent_witness :
  exists C',
    Config.come_from_env bare_settings [] Config.default = Ok C'
    /\ Config.come_from_env bare_settings [] C' = Ok C'.
Proof.
  eexists. split; [reflexivity|].
  apply (@hydration_idempotent bare_settings [] Config.default).
  reflexivity.
Defined.

(** [come_from_env] never empties a collection and never clears a cache
    flag: the token and request rules, the cached routes and the three key
    mappings of the receiver stay non-empty when they were, and
    [cache.openai] and [cache.general] stay set when they were, whatever the
    settings hold. *)
Theorem hydration_keeps_what_is_set :
  forall (S : Settings.t) (environ : env) (self C' : Config.t),
    Config.come_from_env S environ self = Ok C' ->
    (self.(Config.rate_limit).(RateLimit.token_rate_limit) <> [] ->
     C'.(Config.rate_limit).(RateLimit.token_rate_limit) <> [])
    /\ (self.(Config.rate_limit).(RateLimit.req_rate_limit) <> [] ->
        C'.(Config.rate_limit).(RateLimit.req_rate_limit) <> [])
    /\ (self.(Config.cache).(CacheConfig.routes) <> [] ->
        C'.(Config.cache).(CacheConfig.routes) <> [])
    /\ (self.(Config.api_key).(ApiKey.openai_key) <> [] ->
        C'.(Config.api_key).(ApiKey.openai_key) <> [])
    /\ (self.(Config.api_key).(ApiKey.forward_key) <> [] ->
        C'.(Config.api_key).(ApiKey.forward_key) <> [])
    /\ (self.(Config.api_key).(ApiKey.level) <> [] ->
        C'.(Config.api_key).(ApiKey.level) <> [])
    /\ (self.(Config.cache).(CacheConfig.openai) = true ->
        C'.(Config.cache).(CacheConfig.openai) = true)
    /\ (self.(Config.cache).(CacheConfig.general) = true ->
        C'.(Config.cache).(CacheConfig.general) = true).
Proof.
  intros S environ self C'. unfold Config.come_from_env.
  destruct (mapM Config.forward_item_of_kwargs S.(Settings.FORWARD_CONFIG))
    as [forward|x]; cbn [bind]; [|discriminate].
  intros [= <-].
  cbn [Config.rate_limit Config.cache Config.api_key
       RateLimit.token_rate_limit RateLimit.req_rate_limit
       CacheConfig.openai CacheConfig.general CacheConfig.routes
       ApiKey.openai_key ApiKey.forward_key ApiKey.level].
  repeat split; try apply or_list_nonempty;
    intros ->; apply orb_true_r.
Qed.

Lemma hydration_keeps_what_is_set_witness :
  exists C',
    Config.come_from_env bare_settings [] Config.default = Ok C'
    /\ C'.(Config.rate_limit).(RateLimit.token_rate_limit)
       = RateLimit.default.(RateLimit.token_rate_limit)
    /\ C'.(Config.cache).(CacheConfig.routes) <> [].
Proof.
  eexists. split; [reflexivity|]. split; [reflexivity|].
  refine (proj1 (proj2 (proj2 (@hydration_keeps_what_is_set bare_settings []
                                 Config.default _ eq_refl))) _).
  discriminate.
Defined.

(** ** The timezone goes through [os.environ] *)



(** ** Forward rules from their dictionaries *)

(** A [ForwardItem] from each keyword dictionary of [FORWARD_CONFIG]: the
    dictionaries that [to_dict] makes of a list of rules give the rules
    back, so [come_from_env] returns and takes them as its forward rules;
    a missing [type] is [general]; and one dictionary without [base_url] or
    without [route], or with any other key, makes [come_from_env] raise
    [TypeError]. *)
Theorem forward_rules_from_dicts :
  forall (S : Settings.t) (environ : env) (self : Config.t),
    (forall rules,
       S.(Settings.FORWARD_CONFIG) = map forward_kwargs rules ->
       exists C', Config.come_from_env S environ self = Ok C'
                  /\ C'.(Config.forward) = rules)
    /\ (forall b r,
          Config.forward_item_of_kwargs [(py "base_url", b); (py "route", r)]
          = Ok (ForwardItem.mk b r (py "general")))
    /\ (forall i,
          In i S.(Settings.FORWARD_CONFIG) ->
          (dict_get (py "base_url") i = None
           \/ dict_get (py "route") i = None
           \/ exists k, In k (keys i) /\ k <> py "base_url"
                        /\ k <> py "route" /\ k <> py "type") ->
          exists msg,
            Config.come_from_env S environ self = Raise (TypeError msg)).
Proof.
  intros S environ self. split; [|split].
  - intros rules E. unfold Config.come_from_env.
    rewrite E, forward_of_kwargs. cbn [bind]. eexists; split; reflexivity.
  - intros b r. reflexivity.
  - intros i I B.
    assert (X : exists msg,
               Config.forward_item_of_kwargs i = Raise (TypeError msg)).
    { unfold Config.forward_item_of_kwargs.
      destruct (forallb _ (keys i)) eqn:F; [|eexists; reflexivity].
      destruct B as [B|[B|(k & K & N1 & N2 & N3)]].
      - rewrite B. eexists; reflexivity.
      - rewrite B. destruct (dict_get (py "base_url") i); eexists; reflexivity.
      - rewrite forallb_forall in F. specialize (F k K).
        apply eqb_neq in N1, N2, N3. rewrite N1, N2, N3 in F. discriminate F. }
    assert (Y : forall l, In i l ->
               exists msg,
                 mapM Config.forward_item_of_kwargs l = Raise (TypeError msg)).
    { induction l as [|j l IH]; [intros []|].
      intros [->|J]; cbn [mapM].
      - destruct X as [msg ->]. exists msg; reflexivity.
      - destruct (Config.forward_item_of_kwargs j) as [y|e] eqn:Ej.
        + cbn [bind]. destruct (IH J) as [msg ->]. exists msg; reflexivity.
        + cbn [bind]. unfold Config.forward_item_of_kwargs in Ej.
          destruct (forallb _ (keys j));
            [|injection Ej as <-; eexists; reflexivity].
          destruct (dict_get (py "base_url") j);
            [destruct (dict_get (py "route") j)|]; try discriminate Ej;
            injection Ej as <-; eexists; reflexivity. }
    destruct (Y _ I) as [msg E]. exists msg.
    unfold Config.come_from_env. rewrite E. reflexivity.
Qed.

(** ** Hydration in place: the objects behind a configuration

    [come_from_env] assigns to the attributes of [self] and of the objects
    [self.log], [self.rate_limit], [self.cache] and [self.api_key].  The
    class body of [Config] builds one [ApiKey()], one [CacheConfig()], one
    [RateLimit()] and one [Log()] as the default values of its attributes,
    and every [Config()] built without arguments refers to those four
    objects.  The store below keeps the objects by address; an instance of
    [Config] holds the addresses of its four sections. *)

Module Shared.

Record instance : Type := mkInstance {
  forward : list ForwardItem.t;
  api_key : nat;
  cache : nat;
  rate_limit : nat;
  log : nat;
  timezone : pystr;
  timeout : Z;
  benchmark_mode : bool;
  proxy : pystr;
  default_stream_response : bool }.

Record store : Type := mkStore {
  api_keys : list ApiKey.t;
  caches : list CacheConfig.t;
  rate_limits : list RateLimit.t;
  logs : list Log.t;
  configs : list instance }.

(** The store when the module has been imported: the four default objects,
    at address 0 of their kind, and no configuration yet. *)
Definition imported : store :=
  mkStore [ApiKey.default] [CacheConfig.default] [RateLimit.default]
    [Log.default] [].

(** [Config(api_key=.., cache=.., rate_limit=.., log=..)] with the other
    attributes at their defaults: a new instance, at the next address. *)
Definition new_config_with (api_key cache rate_limit log : nat) (st : store)
  : nat * store :=
  (List.length st.(configs),
   mkStore st.(api_keys) st.(caches) st.(rate_limits) st.(logs)
     (st.(configs)
      ++ [mkInstance Config.default.(Config.forward) api_key cache rate_limit
            log (py "Asia/Shanghai") 6 false (py "") true])).

(** [Config()]: the four sections are the default objects. *)
Definition new_config (st : store) : nat * store := new_config_with 0 0 0 0 st.

(** [Log(general, openai)]: a new object. *)
Definition new_log (l : Log.t) (st : store) : nat * store :=
  (List.length st.(logs),
   mkStore st.(api_keys) st.(caches) st.(rate_limits) (st.(logs) ++ [l])
     st.(configs)).

(** Assignment to an attribute of the object at an address. *)
Definition set_config (a : nat) (f : instance -> instance) (st : store)
  : store :=
  mkStore st.(api_keys) st.(caches) st.(rate_limits) st.(logs)
    (update a f st.(configs)).

Definition set_log (a : nat) (f : Log.t -> Log.t) (st : store) : store :=
  mkStore st.(api_keys) st.(caches) st.(rate_limits) (update a f st.(logs))
    st.(configs).

Definition set_rate_limit (a : nat) (f : RateLimit.t -> RateLimit.t)
  (st : store) : store :=
  mkStore st.(api_keys) st.(caches) (update a f st.(rate_limits)) st.(logs)
    st.(configs).

Definition set_cache (a : nat) (f : CacheConfig.t -> CacheConfig.t)
  (st : store) : store :=
  mkStore st.(api_keys) (update a f st.(caches)) st.(rate_limits) st.(logs)
    st.(configs).

Definition set_api_key (a : nat) (f : ApiKey.t -> ApiKey.t) (st : store)
  : store :=
  mkStore (update a f st.(api_keys)) st.(caches) st.(rate_limits) st.(logs)
    st.(configs).

(** The configuration an instance stands for: its own attributes and the
    sections its addresses lead to. *)
Definition view (st : store) (self : nat) : option Config.t :=
  match nth_error st.(configs) self with
  | Some c =>
      match nth_error st.(api_keys) c.(api_key),
            nth_error st.(caches) c.(cache),
            nth_error st.(rate_limits) c.(rate_limit),
            nth_error st.(logs) c.(log) with
      | Some a, Some ca, Some r, Some l =>
          Some (Config.mk c.(forward) a ca r l c.(timezone) c.(timeout)
                  c.(benchmark_mode) c.(proxy) c.(default_stream_response))
      | _, _, _, _ => None
      end
  | None => None
  end.

(** The assignments of [come_from_env] before the last one, in the order
    of the source. *)
Definition assign_sections (S : Settings.t) (environ : env) (self : nat)
  (c : instance) (st : store) : store :=
  let st :=
    set_config self
      (fun i => mkInstance i.(forward) i.(api_key) i.(cache) i.(rate_limit)
                  i.(log) i.(timezone) S.(Settings.TIMEOUT) i.(benchmark_mode)
                  i.(proxy) i.(default_stream_response)) st in
  let st :=
    set_config self
      (fun i => mkInstance i.(forward) i.(api_key) i.(cache) i.(rate_limit)
                  i.(log)
                  (match dict_get (py "TZ") environ with
                   | Some tz => tz
                   | None => py "Asia/Shanghai"
                   end)
                  i.(timeout) i.(benchmark_mode) i.(proxy)
                  i.(default_stream_response)) st in
  let st :=
    set_config self
      (fun i => mkInstance i.(forward) i.(api_key) i.(cache) i.(rate_limit)
                  i.(log) i.(timezone) i.(timeout) S.(Settings.BENCHMARK_MODE)
                  i.(proxy) i.(default_stream_response)) st in
  let st :=
    set_config self
      (fun i => mkInstance i.(forward) i.(api_key) i.(cache) i.(rate_limit)
                  i.(log) i.(timezone) i.(timeout) i.(benchmark_mode)
                  (or_str S.(Settings.PROXY) (py ""))
                  i.(default_stream_response)) st in
  let st :=
    set_log c.(log)
      (fun l => Log.mk l.(Log.general) S.(Settings.LOG_OPENAI)) st in
  let st :=
    set_log c.(log)
      (fun l => Log.mk S.(Settings.LOG_GENERAL) l.(Log.openai)) st in
  let st :=
    set_rate_limit c.(rate_limit)
      (fun r => RateLimit.mk r.(RateLimit.backend)
                  r.(RateLimit.global_rate_limit)
                  r.(RateLimit.token_rate_limit) r.(RateLimit.req_rate_limit)
                  r.(RateLimit.iter_chunk) S.(Settings.RATE_LIMIT_STRATEGY))
      st in
  let st :=
    set_rate_limit c.(rate_limit)
      (fun r => RateLimit.mk r.(RateLimit.backend)
                  S.(Settings.GLOBAL_RATE_LIMIT)
                  r.(RateLimit.token_rate_limit) r.(RateLimit.req_rate_limit)
                  r.(RateLimit.iter_chunk) r.(RateLimit.strategy)) st in
  let st :=
    set_rate_limit c.(rate_limit)
      (fun r => RateLimit.mk r.(RateLimit.backend)
                  r.(RateLimit.global_rate_limit)
                  r.(RateLimit.token_rate_limit) r.(RateLimit.req_rate_limit)
                  S.(Settings.ITER_CHUNK_TYPE) r.(RateLimit.strategy)) st in
  let st :=
    set_rate_limit c.(rate_limit)
      (fun r => RateLimit.mk
                  (or_str S.(Settings.RATE_LIMIT_BACKEND) r.(RateLimit.backend))
                  r.(RateLimit.global_rate_limit)
                  r.(RateLimit.token_rate_limit) r.(RateLimit.req_rate_limit)
                  r.(RateLimit.iter_chunk) r.(RateLimit.strategy)) st in
  let st :=
    set_rate_limit c.(rate_limit)
      (fun r => RateLimit.mk r.(RateLimit.backend)
                  r.(RateLimit.global_rate_limit)
                  r.(RateLimit.token_rate_limit)
                  (or_list
                     (Config.rules_of_dict S.(Settings.req_rate_limit_dict))
                     r.(RateLimit.req_rate_limit))
                  r.(RateLimit.iter_chunk) r.(RateLimit.strategy)) st in
  let st :=
    set_rate_limit c.(rate_limit)
      (fun r => RateLimit.mk r.(RateLimit.backend)
                  r.(RateLimit.global_rate_limit)
                  (or_list
                     (Config.rules_of_dict S.(Settings.token_rate_limit_conf))
                     r.(RateLimit.token_rate_limit))
                  r.(RateLimit.req_rate_limit)
                  r.(RateLimit.iter_chunk) r.(RateLimit.strategy)) st in
  let st :=
    set_cache c.(cache)
      (fun k => CacheConfig.mk S.(Settings.CACHE_BACKEND)
                  k.(CacheConfig.root_path_or_url)
                  k.(CacheConfig.default_request_caching_value)
                  k.(CacheConfig.openai) k.(CacheConfig.general)
                  k.(CacheConfig.routes)) st in
  let st :=
    set_cache c.(cache)
      (fun k => CacheConfig.mk k.(CacheConfig.backend)
                  S.(Settings.CACHE_ROOT_PATH_OR_URL)
                  k.(CacheConfig.default_request_caching_value)
                  k.(CacheConfig.openai) k.(CacheConfig.general)
                  k.(CacheConfig.routes)) st in
  let st :=
    set_cache c.(cache)
      (fun k => CacheConfig.mk k.(CacheConfig.backend)
                  k.(CacheConfig.root_path_or_url)
                  S.(Settings.DEFAULT_REQUEST_CACHING_VALUE)
                  k.(CacheConfig.openai) k.(CacheConfig.general)
                  k.(CacheConfig.routes)) st in
  let st :=
    set_cache c.(cache)
      (fun k => CacheConfig.mk k.(CacheConfig.backend)
                  k.(CacheConfig.root_path_or_url)
                  k.(CacheConfig.default_request_caching_value)
                  (S.(Settings.CACHE_OPENAI) || k.(CacheConfig.openai))
                  k.(CacheConfig.general) k.(CacheConfig.routes)) st in
  let st :=
    set_cache c.(cache)
      (fun k => CacheConfig.mk k.(CacheConfig.backend)
                  k.(CacheConfig.root_path_or_url)
                  k.(CacheConfig.default_request_caching_value)
                  k.(CacheConfig.openai)
                  (S.(Settings.CACHE_GENERAL) || k.(CacheConfig.general))
                  k.(CacheConfig.routes)) st in
  let st :=
    set_cache c.(cache)
      (fun k => CacheConfig.mk k.(CacheConfig.backend)
                  k.(CacheConfig.root_path_or_url)
                  k.(CacheConfig.default_request_caching_value)
                  k.(CacheConfig.openai) k.(CacheConfig.general)
                  (or_list S.(Settings.CACHE_ROUTE_SET) k.(CacheConfig.routes)))
      st in
  let st :=
    set_api_key c.(api_key)
      (fun a => ApiKey.mk a.(ApiKey.openai_key) a.(ApiKey.forward_key)
                  (or_list S.(Settings.LEVEL_MODELS) a.(ApiKey.level))) st in
  let st :=
    set_api_key c.(api_key)
      (fun a => ApiKey.mk
                  (or_list
                     (map (fun kv => (fst kv, ApiKey.LevelsList (snd kv)))
                        S.(Settings.OPENAI_API_KEY))
                     a.(ApiKey.openai_key))
                  a.(ApiKey.forward_key) a.(ApiKey.level)) st in
  set_api_key c.(api_key)
    (fun a => ApiKey.mk a.(ApiKey.openai_key)
                (or_list S.(Settings.LEVEL_TO_FWD_KEY) a.(ApiKey.forward_key))
                a.(ApiKey.level)) st.

(** [self.come_from_env()] on the instance at address [self]: the
    assignments, then the forward rules, whose construction may raise; the
    result is [self].  [None] when [self] is not an address of the store,
    which no call of the source can produce. *)
Definition come_from_env (S : Settings.t) (environ : env) (self : nat)
  (st : store) : option (res nat * store) :=
  match nth_error st.(configs) self with
  | None => None
  | Some c =>
      let st := assign_sections S environ self c st in
      match mapM Config.forward_item_of_kwargs S.(Settings.FORWARD_CONFIG) with
      | Ok rules =>
          Some (Ok self,
                set_config self
                  (fun i => mkInstance rules i.(api_key) i.(cache)
                              i.(rate_limit) i.(log) i.(timezone) i.(timeout)
                              i.(benchmark_mode) i.(proxy)
                              i.(default_stream_response)) st)
      | Raise e => Some (Raise e, st)
      end
  end.

End Shared.

(** The configuration after every assignment of [come_from_env] but the
    last: all attributes hydrated, the forward rules still the receiver's. *)
Definition assigned (S : Settings.t) (environ : env) (C : Config.t)
  : Config.t :=
  let rl := C.(Config.rate_limit) in
  let c := C.(Config.cache) in
  let a := C.(Config.api_key) in
  Config.mk C.(Config.forward)
    (ApiKey.mk
       (or_list
          (map (fun kv => (fst kv, ApiKey.LevelsList (snd kv)))
             S.(Settings.OPENAI_API_KEY))
          a.(ApiKey.openai_key))
       (or_list S.(Settings.LEVEL_TO_FWD_KEY) a.(ApiKey.forward_key))
       (or_list S.(Settings.LEVEL_MODELS) a.(ApiKey.level)))
    (CacheConfig.mk
       S.(Settings.CACHE_BACKEND)
       S.(Settings.CACHE_ROOT_PATH_OR_URL)
       S.(Settings.DEFAULT_REQUEST_CACHING_VALUE)
       (S.(Settings.CACHE_OPENAI) || c.(CacheConfig.openai))
       (S.(Settings.CACHE_GENERAL) || c.(CacheConfig.general))
       (or_list S.(Settings.CACHE_ROUTE_SET) c.(CacheConfig.routes)))
    (RateLimit.mk
       (or_str S.(Settings.RATE_LIMIT_BACKEND) rl.(RateLimit.backend))
       S.(Settings.GLOBAL_RATE_LIMIT)
       (or_list (Config.rules_of_dict S.(Settings.token_rate_limit_conf))
          rl.(RateLimit.token_rate_limit))
       (or_list (Config.rules_of_dict S.(Settings.req_rate_limit_dict))
          rl.(RateLimit.req_rate_limit))
       S.(Settings.ITER_CHUNK_TYPE)
       S.(Settings.RATE_LIMIT_STRATEGY))
    (Log.mk S.(Settings.LOG_GENERAL) S.(Settings.LOG_OPENAI))
    (match dict_get (py "TZ") environ with
     | Some tz => tz
     | None => py "Asia/Shanghai"
     end)
    S.(Settings.TIMEOUT) S.(Settings.BENCHMARK_MODE)
    (or_str S.(Settings.PROXY) (py ""))
    C.(Config.default_stream_response).

Definition with_forward (rules : list ForwardItem.t) (C : Config.t)
  : Config.t :=
  Config.mk rules C.(Config.api_key) C.(Config.cache) C.(Config.rate_limit)
    C.(Config.log) C.(Config.timezone) C.(Config.timeout)
    C.(Config.benchmark_mode) C.(Config.proxy)
    C.(Config.default_stream_response).

Lemma come_from_env_assigned (S : Settings.t) (environ : env) (C : Config.t) :
  Config.come_from_env S environ C
  = (rules <- mapM Config.forward_item_of_kwargs S.(Settings.FORWARD_CONFIG) ;;
     Ok (with_forward rules (assigned S environ C))).
Proof. reflexivity. Qed.

Lemma nth_error_update_same {A} (f : A -> A) (l : list A) (i : nat) :
  nth_error (update i f l) i = option_map f (nth_error l i).
Proof. rewrite nth_error_update, Nat.eqb_refl. reflexivity. Qed.

Lemma nth_error_update_other {A} (f : A -> A) (l : list A) (i j : nat) :
  i <> j -> nth_error (update i f l) j = nth_error l j.
Proof.
  intros H. rewrite nth_error_update.
  destruct (Nat.eqb_spec i j); [contradiction | reflexivity].
Qed.

Section InPlace.

Import Shared.

Variable S : Settings.t.
Variable environ : env.

(** The assignments touch the receiver and its four sections, each at its
    own address. *)
Lemma assigned_configs (st : store) (self : nat) (c : instance) :
  (assign_sections S environ self c st).(configs)
  = update self
      (fun i => mkInstance i.(forward) i.(api_key) i.(cache) i.(rate_limit)
                  i.(log)
                  (match dict_get (py "TZ") environ with
                   | Some tz => tz
                   | None => py "Asia/Shanghai"
                   end)
                  S.(Settings.TIMEOUT) S.(Settings.BENCHMARK_MODE)
                  (or_str S.(Settings.PROXY) (py ""))
                  i.(default_stream_response))
      st.(configs).
Proof.
  unfold assign_sections. cbn [configs set_config set_log set_rate_limit
                               set_cache set_api_key].
  rewrite !update_update. reflexivity.
Qed.

Lemma assigned_logs (st : store) (self : nat) (c : instance) :
  (assign_sections S environ self c st).(logs)
  = update c.(log)
      (fun _ => Log.mk S.(Settings.LOG_GENERAL) S.(Settings.LOG_OPENAI))
      st.(logs).
Proof.
  unfold assign_sections. cbn [logs set_config set_log set_rate_limit
                               set_cache set_api_key].
  rewrite !update_update. reflexivity.
Qed.

Lemma assigned_rate_limits (st : store) (self : nat) (c : instance) :
  (assign_sections S environ self c st).(rate_limits)
  = update c.(rate_limit)
      (fun r => RateLimit.mk
                  (or_str S.(Settings.RATE_LIMIT_BACKEND) r.(RateLimit.backend))
                  S.(Settings.GLOBAL_RATE_LIMIT)
                  (or_list
                     (Config.rules_of_dict S.(Settings.token_rate_limit_conf))
                     r.(RateLimit.token_rate_limit))
                  (or_list
                     (Config.rules_of_dict S.(Settings.req_rate_limit_dict))
                     r.(RateLimit.req_rate_limit))
                  S.(Settings.ITER_CHUNK_TYPE)
                  S.(Settings.RATE_LIMIT_STRATEGY))
      st.(rate_limits).
Proof.
  unfold assign_sections. cbn [rate_limits set_config set_log set_rate_limit
                               set_cache set_api_key].
  rewrite !update_update. reflexivity.
Qed.

Lemma assigned_caches (st : store) (self : nat) (c : instance) :
  (assign_sections S environ self c st).(caches)
  = update c.(cache)
      (fun k => CacheConfig.mk
                  S.(Settings.CACHE_BACKEND)
                  S.(Settings.CACHE_ROOT_PATH_OR_URL)
                  S.(Settings.DEFAULT_REQUEST_CACHING_VALUE)
                  (S.(Settings.CACHE_OPENAI) || k.(CacheConfig.openai))
                  (S.(Settings.CACHE_GENERAL) || k.(CacheConfig.general))
                  (or_list S.(Settings.CACHE_ROUTE_SET) k.(CacheConfig.routes)))
      st.(caches).
Proof.
  unfold assign_sections. cbn [caches set_config set_log set_rate_limit
                               set_cache set_api_key].
  rewrite !update_update. reflexivity.
Qed.

Lemma assigned_api_keys (st : store) (self : nat) (c : instance) :
  (assign_sections S environ self c st).(api_keys)
  = update c.(api_key)
      (fun a => ApiKey.mk
                  (or_list
                     (map (fun kv => (fst kv, ApiKey.LevelsList (snd kv)))
                        S.(Settings.OPENAI_API_KEY))
                     a.(ApiKey.openai_key))
                  (or_list S.(Settings.LEVEL_TO_FWD_KEY) a.(ApiKey.forward_key))
                  (or_list S.(Settings.LEVEL_MODELS) a.(ApiKey.level)))
      st.(api_keys).
Proof.
  unfold assign_sections. cbn [api_keys set_config set_log set_rate_limit
                               set_cache set_api_key].
  rewrite !update_update. reflexivity.
Qed.

End InPlace.

Section Aliasing.

Import Shared.

Variable S : Settings.t.
Variable environ : env.

(** Reading an instance after the assignments made through another one (or
    through itself): its own attributes are assigned only when it is the
    receiver; a section is the hydrated one exactly when its address is the
    address the receiver holds. *)
Lemma view_after_assignments (st : store) (self other : nat)
  (c o : instance) (C O : Config.t) :
  nth_error st.(configs) self = Some c -> view st self = Some C ->
  nth_error st.(configs) other = Some o -> view st other = Some O ->
  view (assign_sections S environ self c st) other
  = Some (Config.mk O.(Config.forward)
            (if Nat.eqb c.(api_key) o.(api_key)
             then (assigned S environ O).(Config.api_key)
             else O.(Config.api_key))
            (if Nat.eqb c.(cache) o.(cache)
             then (assigned S environ O).(Config.cache)
             else O.(Config.cache))
            (if Nat.eqb c.(rate_limit) o.(rate_limit)
             then (assigned S environ O).(Config.rate_limit)
             else O.(Config.rate_limit))
            (if Nat.eqb c.(log) o.(log)
             then (assigned S environ O).(Config.log)
             else O.(Config.log))
            (if Nat.eqb self other
             then (assigned S environ O).(Config.timezone)
             else O.(Config.timezone))
            (if Nat.eqb self other then S.(Settings.TIMEOUT)
             else O.(Config.timeout))
            (if Nat.eqb self other then S.(Settings.BENCHMARK_MODE)
             else O.(Config.benchmark_mode))
            (if Nat.eqb self other then or_str S.(Settings.PROXY) (py "")
             else O.(Config.proxy))
            O.(Config.default_stream_response)).
Proof.
  intros Hc _ Ho V. unfold view in V. rewrite Ho in V.
  destruct (nth_error st.(api_keys) o.(api_key)) as [a|] eqn:Ha;
    [|discriminate V].
  destruct (nth_error st.(caches) o.(cache)) as [k|] eqn:Hk;
    [|discriminate V].
  destruct (nth_error st.(rate_limits) o.(rate_limit)) as [r|] eqn:Hr;
    [|discriminate V].
  destruct (nth_error st.(logs) o.(log)) as [l|] eqn:Hl;
    [|discriminate V].
  injection V as <-.
  unfold view.
  rewrite assigned_configs, assigned_logs, assigned_rate_limits,
    assigned_caches, assigned_api_keys.
  assert (X : exists o',
             nth_error
               (update self
                  (fun i => mkInstance i.(forward) i.(api_key) i.(cache)
                              i.(rate_limit) i.(log)
                              (match dict_get (py "TZ") environ with
                               | Some tz => tz
                               | None => py "Asia/Shanghai"
                               end)
                              S.(Settings.TIMEOUT) S.(Settings.BENCHMARK_MODE)
                              (or_str S.(Settings.PROXY) (py ""))
                              i.(default_stream_response))
                  st.(configs)) other = Some o'
             /\ o'.(forward) = o.(forward) /\ o'.(api_key) = o.(api_key)
             /\ o'.(cache) = o.(cache) /\ o'.(rate_limit) = o.(rate_limit)
             /\ o'.(log) = o.(log)
             /\ o'.(default_stream_response) = o.(default_stream_response)
             /\ o'.(timezone)
                = (if Nat.eqb self other
                   then match dict_get (py "TZ") environ with
                        | Some tz => tz
                        | None => py "Asia/Shanghai"
                        end
                   else o.(timezone))
             /\ o'.(timeout) = (if Nat.eqb self other then S.(Settings.TIMEOUT)
                                else o.(timeout))
             /\ o'.(benchmark_mode)
                = (if Nat.eqb self other then S.(Settings.BENCHMARK_MODE)
                   else o.(benchmark_mode))
             /\ o'.(proxy)
                = (if Nat.eqb self other then or_str S.(Settings.PROXY) (py "")
                   else o.(proxy))).
  { rewrite nth_error_update, Ho.
    destruct (Nat.eqb self other); eexists; split; try reflexivity;
      cbn; repeat split; reflexivity. }
  destruct X as (o' & -> & E1 & E2 & E3 & E4 & E5 & E6 & E7 & E8 & E9 & E10).
  rewrite E1, E2, E3, E4, E5, E6, E7, E8, E9, E10.
  rewrite !nth_error_update, Ha, Hk, Hr, Hl.
  cbn [Config.forward Config.api_key Config.cache Config.rate_limit Config.log
       Config.timezone Config.timeout Config.benchmark_mode Config.proxy
       Config.default_stream_response assigned].
  destruct (Nat.eqb c.(api_key) o.(api_key)),
           (Nat.eqb c.(cache) o.(cache)),
           (Nat.eqb c.(rate_limit) o.(rate_limit)),
           (Nat.eqb c.(log) o.(log)); reflexivity.
Qed.

Lemma view_instance (st : store) (self : nat) (C : Config.t) :
  view st self = Some C -> exists c, nth_error st.(configs) self = Some c.
Proof.
  unfold view. destruct (nth_error st.(configs) self) as [c|]; [|discriminate].
  intros _. exists c; reflexivity.
Qed.

Lemma view_set_forward (st : store) (self other : nat)
  (rules : list ForwardItem.t) (O : Config.t) :
  view st other = Some O ->
  view (set_config self
          (fun i => mkInstance rules i.(api_key) i.(cache) i.(rate_limit)
                      i.(log) i.(timezone) i.(timeout) i.(benchmark_mode)
                      i.(proxy) i.(default_stream_response)) st) other
  = Some (if Nat.eqb self other then with_forward rules O else O).
Proof.
  unfold view, set_config. cbn [configs api_keys caches rate_limits logs].
  rewrite nth_error_update.
  destruct (nth_error st.(configs) other) as [o|]; [|discriminate].
  destruct (Nat.eqb self other); cbn [option_map forward api_key cache
    rate_limit log timezone timeout benchmark_mode proxy
    default_stream_response];
    destruct (nth_error st.(api_keys) o.(api_key)); try discriminate;
    destruct (nth_error st.(caches) o.(cache)); try discriminate;
    destruct (nth_error st.(rate_limits) o.(rate_limit)); try discriminate;
    destruct (nth_error st.(logs) o.(log)); try discriminate;
    intros [= <-]; reflexivity.
Qed.

End Aliasing.

(** [come_from_env] on an instance of the store does to the configuration
    the instance stands for what the method does to a configuration value:
    when the forward rules can be built, the instance afterwards stands for
    the hydrated configuration and the call returns the instance.  When one
    dictionary of [FORWARD_CONFIG] is refused, the call raises, and the
    instance is left half hydrated: every attribute but the forward rules
    has been assigned. *)
Theorem hydration_in_place :
  forall (S : Settings.t) (environ : env) (st : Shared.store) (self : nat)
         (C : Config.t),
    Shared.view st self = Some C ->
    exists r st',
      Shared.come_from_env S environ self st = Some (r, st')
      /\ match Config.come_from_env S environ C with
         | Ok C' => r = Ok self /\ Shared.view st' self = Some C'
         | Raise e =>
             r = Raise e
             /\ Shared.view st' self = Some (assigned S environ C)
         end.
Proof.
  intros S environ st self C V.
  destruct (@view_instance st self C V) as [c Hc].
  pose proof (@view_after_assignments S environ st self self c c C C Hc V Hc V)
    as A.
  rewrite !Nat.eqb_refl in A.
  unfold Shared.come_from_env. rewrite Hc, come_from_env_assigned.
  destruct (mapM Config.forward_item_of_kwargs S.(Settings.FORWARD_CONFIG))
    as [rules|e]; cbn [bind].
  - eexists _, _. split; [reflexivity|]. split; [reflexivity|].
    rewrite (@view_set_forward _ self self rules _ A), Nat.eqb_refl.
    reflexivity.
  - eexists _, _. split; [reflexivity|]. split; [reflexivity|]. exact A.
Qed.

(** Settings with a forward rule that lacks its route. *)
Definition broken_settings : Settings.t :=
  Settings.mk 30 true None false false (py "") (py "") (py "") None
    [] [] (py "") (py "") false false false [] [] [] []
    [[(py "base_url", py "https://api.openai.com")]].

Lemma hydration_in_place_witness :
  exists st',
    Shared.come_from_env broken_settings []
      (fst (Shared.new_config Shared.imported))
      (snd (Shared.new_config Shared.imported))
    = Some (Raise (TypeError (py "missing required positional argument")), st')
    /\ option_map Config.timeout (Shared.view st' 0) = Some 30%Z
    /\ option_map Config.forward (Shared.view st' 0)
       = Some Config.default.(Config.forward).
Proof.
  destruct (@hydration_in_place broken_settings []
              (snd (Shared.new_config Shared.imported)) 0 Config.default
              eq_refl)
    as (r & st' & E & R & V).
  exists st'. subst r. split; [exact E|]. rewrite V. split; reflexivity.
Defined.

(** Hydrating through one instance changes what another instance stands
    for, as far as the two share a section object: a section of the other
    instance held at the same address as the receiver's is hydrated too,
    a section at another address is not, and the other instance's own
    attributes (forward rules, timezone, timeout, benchmark flag, proxy,
    default stream response) are never touched. *)
Theorem hydration_reaches_shared_sections :
  forall (S : Settings.t) (environ : env) (st st' : Shared.store)
         (self other : nat) (c o : Shared.instance) (C O : Config.t)
         (r : res nat),
    self <> other ->
    nth_error st.(Shared.configs) self = Some c ->
    nth_error st.(Shared.configs) other = Some o ->
    Shared.view st self = Some C ->
    Shared.view st other = Some O ->
    Shared.come_from_env S environ self st = Some (r, st') ->
    exists O',
      Shared.view st' other = Some O'
      /\ O'.(Config.forward) = O.(Config.forward)
      /\ O'.(Config.timezone) = O.(Config.timezone)
      /\ O'.(Config.timeout) = O.(Config.timeout)
      /\ O'.(Config.benchmark_mode) = O.(Config.benchmark_mode)
      /\ O'.(Config.proxy) = O.(Config.proxy)
      /\ O'.(Config.default_stream_response)
         = O.(Config.default_stream_response)
      /\ O'.(Config.api_key)
         = (if Nat.eqb c.(Shared.api_key) o.(Shared.api_key)
            then (assigned S environ C).(Config.api_key)
            else O.(Config.api_key))
      /\ O'.(Config.cache)
         = (if Nat.eqb c.(Shared.cache) o.(Shared.cache)
            then (assigned S environ C).(Config.cache)
            else O.(Config.cache))
      /\ O'.(Config.rate_limit)
         = (if Nat.eqb c.(Shared.rate_limit) o.(Shared.rate_limit)
            then (assigned S environ C).(Config.rate_limit)
            else O.(Config.rate_limit))
      /\ O'.(Config.log)
         = (if Nat.eqb c.(Shared.log) o.(Shared.log)
            then (assigned S environ C).(Config.log)
            else O.(Config.log)).
Proof.
  intros S environ st st' self other c o C O r N Hc Ho VC VO H.
  pose proof (@view_after_assignments S environ st self other c o C O Hc VC Ho
                VO) as A.
  apply Nat.eqb_neq in N. rewrite N in A.
  assert (Sec :
            (Nat.eqb c.(Shared.api_key) o.(Shared.api_key) = true ->
             O.(Config.api_key) = C.(Config.api_key))
            /\ (Nat.eqb c.(Shared.cache) o.(Shared.cache) = true ->
                O.(Config.cache) = C.(Config.cache))
            /\ (Nat.eqb c.(Shared.rate_limit) o.(Shared.rate_limit) = true ->
                O.(Config.rate_limit) = C.(Config.rate_limit))
            /\ (Nat.eqb c.(Shared.log) o.(Shared.log) = true ->
                O.(Config.log) = C.(Config.log))).
  { unfold Shared.view in VC, VO. rewrite Hc in VC.
    rewrite Ho in VO.
    destruct (nth_error st.(Shared.api_keys) c.(Shared.api_key)) eqn:A1;
      try discriminate;
    destruct (nth_error st.(Shared.caches) c.(Shared.cache)) eqn:A2;
      try discriminate;
    destruct (nth_error st.(Shared.rate_limits) c.(Shared.rate_limit)) eqn:A3;
      try discriminate;
    destruct (nth_error st.(Shared.logs) c.(Shared.log)) eqn:A4;
      try discriminate.
    destruct (nth_error st.(Shared.api_keys) o.(Shared.api_key)) eqn:B1;
      try discriminate;
    destruct (nth_error st.(Shared.caches) o.(Shared.cache)) eqn:B2;
      try discriminate;
    destruct (nth_error st.(Shared.rate_limits) o.(Shared.rate_limit)) eqn:B3;
      try discriminate;
    destruct (nth_error st.(Shared.logs) o.(Shared.log)) eqn:B4;
      try discriminate.
    injection VC as <-. injection VO as <-.
    cbn [Config.api_key Config.cache Config.rate_limit Config.log].
    repeat split; intros E; apply Nat.eqb_eq in E; congruence. }
  destruct Sec as (S1 & S2 & S3 & S4).
  assert (V : Shared.view st' other
              = Shared.view (Shared.assign_sections S environ self c st) other).
  { unfold Shared.come_from_env in H. rewrite Hc in H.
    destruct (mapM Config.forward_item_of_kwargs S.(Settings.FORWARD_CONFIG))
      as [rules|e]; injection H as _ <-; [|reflexivity].
    rewrite (@view_set_forward _ self other rules _ A), N. symmetry; exact A. }
  eexists. split; [rewrite V; exact A|].
  cbn [Config.forward Config.timezone Config.timeout Config.benchmark_mode
       Config.proxy Config.default_stream_response Config.api_key Config.cache
       Config.rate_limit Config.log].
  repeat split.
  - destruct (Nat.eqb c.(Shared.api_key) o.(Shared.api_key)); [|reflexivity].
    unfold assigned. cbn [Config.api_key]. rewrite (S1 eq_refl). reflexivity.
  - destruct (Nat.eqb c.(Shared.cache) o.(Shared.cache)); [|reflexivity].
    unfold assigned. cbn [Config.cache]. rewrite (S2 eq_refl). reflexivity.
  - destruct (Nat.eqb c.(Shared.rate_limit) o.(Shared.rate_limit));
      [|reflexivity].
    unfold assigned. cbn [Config.rate_limit]. rewrite (S3 eq_refl).
    reflexivity.
Qed.

Lemma hydration_reaches_shared_sections_witness :
  exists st',
    Shared.come_from_env bare_settings [] 0
      (snd (Shared.new_config (snd (Shared.new_config Shared.imported))))
    = Some (Ok 0%nat, st')
    /\ option_map Config.log (Shared.view st' 1) = Some (Log.mk false false)
    /\ option_map Config.timeout (Shared.view st' 1) = Some 6%Z.
Proof.
  eexists. split; [reflexivity|].
  match goal with
  | |- option_map _ (Shared.view ?st' _) = _ /\ _ =>
      destruct (@hydration_reaches_shared_sections bare_settings []
                  (snd (Shared.new_config (snd (Shared.new_config
                                                  Shared.imported))))
                  st' 0 1 _ _ Config.default Config.default (Ok 0%nat)
                  (fun E => Nat.neq_0_succ 0 E) eq_refl eq_refl eq_refl
                  eq_refl eq_refl)
        as (O' & V & _ & _ & T & _ & _ & _ & _ & _ & _ & L)
  end.
  rewrite V. cbn [option_map]. rewrite T, L. split; reflexivity.
Defined.

(** The sections of [D] with the instance attributes of [C]. *)
Definition with_sections_of (D C : Config.t) : Config.t :=
  Config.mk C.(Config.forward) D.(Config.api_key) D.(Config.cache)
    D.(Config.rate_limit) D.(Config.log) C.(Config.timezone)
    C.(Config.timeout) C.(Config.benchmark_mode) C.(Config.proxy)
    C.(Config.default_stream_response).

(** After [Config().come_from_env()], whether it returned or raised, a
    [Config()] built next does not stand for the class defaults: its four
    sections are the default objects, which the hydration has assigned to,
    so it has the hydrated API keys, cache, rate limits and logging flags
    beside its own default forward rules, timezone, timeout and proxy. *)
Theorem default_config_after_hydration :
  forall (S : Settings.t) (environ : env),
    let first := Shared.new_config Shared.imported in
    exists r st',
      Shared.come_from_env S environ (fst first) (snd first) = Some (r, st')
      /\ Shared.view (snd first) (fst first) = Some Config.default
      /\ let second := Shared.new_config st' in
         Shared.view (snd second) (fst second)
         = Some (with_sections_of (assigned S environ Config.default)
                   Config.default).
Proof.
  intros S environ. cbn zeta. unfold Shared.come_from_env.
  cbn [Shared.new_config Shared.new_config_with Shared.imported fst snd
       Shared.configs app List.length nth_error].
  destruct (mapM Config.forward_item_of_kwargs S.(Settings.FORWARD_CONFIG))
    as [rules|e]; eexists _, _; (split; [reflexivity|]); split; reflexivity.
Qed.

(** ** [Cli.gen_config] and [Cli.run] *)

(** [gen_config] never writes its file: it projects [Config()], whose
    provider key holds a list, so the projection raises [AttributeError]
    before the file is opened, for every directory and in every state. *)
Theorem gen_config_never_writes :
  forall (dir : pystr) (s : state),
    gen_config dir s
    = (Raises (Builtin (AttributeError
                          (py "'list' object has no attribute 'strip'"))), s).
Proof. intros dir s. reflexivity. Qed.



(** On Windows [run] leaves [TZ] empty in the environment, and
    [come_from_env] takes the timezone from the environment as it is:
    hydrating from the environment [run] leaves gives the empty timezone,
    not the default and not the projected one. *)
Theorem windows_run_empties_timezone :
  forall port workers start_ui ui_port (s : state)
         (S : Settings.t) (self C' : Config.t),
    Config.come_from_env S
      (snd (run (py "Windows") port workers start_ui ui_port s)).(environ) self
    = Ok C' ->
    C'.(Config.timezone) = py "".
Proof.
  intros port workers start_ui ui_port s S self C'.
  unfold run, bindM, putenv, emit; cbn zeta.
  cbn [Py.eqb Py.lit fst snd environ].
  change (Py.eqb (py "Windows") (py "Windows")) with true.
  cbn [fst snd environ].
  unfold Config.come_from_env. rewrite dict_get_set_same.
  destruct (mapM Config.forward_item_of_kwargs S.(Settings.FORWARD_CONFIG));
    cbn [bind]; [|discriminate].
  intros [= <-]. reflexivity.
Qed.

Lemma windows_run_empties_timezone_witness :
  exists C',
    Config.come_from_env bare_settings
      (snd (run (py "Windows") 8000 1 true 8001
              (mkState None None [] 0 [(py "TZ", py "Asia/Shanghai")] [])))
        .(environ) Config.default
    = Ok C'
    /\ C'.(Config.timezone) = py "".
Proof.
  eexists. split; [reflexivity|].
  apply (@windows_run_empties_timezone 8000 1 true 8001
           (mkState None None [] 0 [(py "TZ", py "Asia/Shanghai")] [])
           bare_settings Config.default).
  reflexivity.
Defined.

(** ** More on [Cli._stop] *)





(** A forwarder that exits 3 time-units after an interrupt. *)
Definition polite_forwarder : process :=
  mkProcess (uvicorn_command 8000 1 None None) 0 None (Some 3%nat).



Example stop_without_dashboard :
  _stop true true (mkState (Some 0%nat) None [polite_forwarder] 0 [] [])
  = (Raises (Builtin (AttributeError (py "streamlit_proc"))),
     mkState (Some 0%nat) None
       [mkProcess (uvicorn_command 8000 1 None None) 0 (Some 3%nat)
          (Some 3%nat)]
       3 [] [SendSignal 0 (py "SIGINT"); Wait 0 15]).
Proof. reflexivity. Qed.

(** The two handles after a command are those before it. *)
Definition keeps_handles {A} (m : M A) : Prop :=
  forall s,
    (snd (m s)).(uvicorn_proc) = s.(uvicorn_proc)
    /\ (snd (m s)).(streamlit_proc) = s.(streamlit_proc).

Lemma keeps_handles_bind {A B} (m : M A) (k : A -> M B) :
  keeps_handles m -> (forall a, keeps_handles (k a)) ->
  keeps_handles (bindM m k).
Proof.
  intros Hm Hk s. unfold bindM. specialize (Hm s).
  destruct (m s) as [[a|e] s1]; cbn [snd] in *; [|exact Hm].
  destruct (Hk a s1) as [H1 H2]. destruct Hm as [H3 H4].
  split; congruence.
Qed.

Lemma keeps_handles_emit (e : event) : keeps_handles (emit e).
Proof. intros s; split; reflexivity. Qed.

Lemma keeps_handles_ret {A} (a : A) : keeps_handles (ret a).
Proof. intros s; split; reflexivity. Qed.

Lemma keeps_handles_raise {A} (e : failure) : keeps_handles (@raise A e).
Proof. intros s; split; reflexivity. Qed.

Lemma keeps_handles_try (m h : M unit) :
  keeps_handles m -> keeps_handles h -> keeps_handles (try_timeout m h).
Proof.
  intros Hm Hh s. unfold try_timeout. specialize (Hm s).
  destruct (m s) as [[a|[e| | |]] s1]; cbn [snd] in *; try exact Hm.
  destruct (Hh s1) as [H1 H2]. destruct Hm as [H3 H4]. split; congruence.
Qed.

Lemma keeps_handles_for_each {A} (xs : list A) (body : A -> M unit) :
  (forall x, keeps_handles (body x)) -> keeps_handles (for_each xs body).
Proof.
  intros H; induction xs as [|x xs IH]; cbn [for_each].
  - apply keeps_handles_ret.
  - apply keeps_handles_bind; [apply H | intros _; exact IH].
Qed.

Lemma keeps_handles_stop_handle (get : state -> option nat) (name : pystr)
  (g : nat) : keeps_handles (stop_handle get name g).
Proof.
  unfold stop_handle. apply keeps_handles_bind.
  - intros s. unfold attribute. destruct (get s); split; reflexivity.
  - intros pid s. destruct (running pid s); [|split; reflexivity].
    revert s.
    fold (keeps_handles
            (send_sigint pid ;;; try_timeout (wait pid g) (kill pid))).
    apply keeps_handles_bind.
    + unfold send_sigint. apply keeps_handles_bind;
        [apply keeps_handles_emit | intros _ s; split; reflexivity].
    + intros _. apply keeps_handles_try.
      * unfold wait. apply keeps_handles_bind; [apply keeps_handles_emit|].
        intros _ s.
        destruct (option_map exits_at (nth_error s.(procs) pid)) as [[e|]|];
          [destruct (e <=? s.(now) + g)%nat|..]; split; reflexivity.
      * unfold kill. apply keeps_handles_bind;
          [apply keeps_handles_emit | intros _ s; split; reflexivity].
Qed.

(** No method of [Cli] assigns [streamlit_proc], and only [_start_uvicorn]
    (alone or in [_restart_uvicorn]) assigns [uvicorn_proc]: after [run],
    [_stop], [convert] and [gen_config] both handles are what they were,
    and after [_start_uvicorn] and [_restart_uvicorn] the dashboard's handle
    is.  A [Cli] whose [streamlit_proc] was not assigned from outside
    therefore never has one. *)
Theorem streamlit_handle_never_assigned :
  forall platform healthz child_grace prefixes route_prefix_to_str
         convert_folder_fails (s : state),
    (forall port workers start_ui ui_port,
       keeps_handles (run platform port workers start_ui ui_port))
    /\ (forall uvicorn streamlit, keeps_handles (_stop uvicorn streamlit))
    /\ (forall log_folder target_path,
          keeps_handles (convert prefixes route_prefix_to_str
                           convert_folder_fails log_folder target_path))
    /\ (forall dir, keeps_handles (gen_config dir))
    /\ (forall port workers kf cf,
          (snd (_start_uvicorn platform healthz child_grace port workers kf cf
                  s)).(streamlit_proc) = s.(streamlit_proc))
    /\ (forall port workers kf cf,
          (snd (_restart_uvicorn platform healthz child_grace port workers kf
                  cf s)).(streamlit_proc) = s.(streamlit_proc)).
Proof.
  intros platform healthz child_grace prefixes r2s fails s.
  assert (St : forall uvicorn streamlit,
            keeps_handles (_stop uvicorn streamlit)).
  { intros uvicorn streamlit. unfold _stop. apply keeps_handles_bind.
    - destruct uvicorn;
        [apply keeps_handles_stop_handle | apply keeps_handles_ret].
    - intros _. destruct streamlit;
        [apply keeps_handles_stop_handle | apply keeps_handles_ret]. }
  assert (Start : forall port workers kf cf s0,
            (snd (_start_uvicorn platform healthz child_grace port workers kf
                    cf s0)).(streamlit_proc) = s0.(streamlit_proc)).
  { intros port workers kf cf s0.
    unfold _start_uvicorn, bindM, Popen, set_uvicorn_proc,
      wait_for_serve_start, bindM, emit.
    cbn [now log uvicorn_proc streamlit_proc procs environ set_now].
    destruct (first_healthy _ _ _ _); [reflexivity|].
    destruct (Py.eqb platform (py "Windows")); reflexivity. }
  split; [|split; [|split; [|split; [|split]]]].
  - intros port workers start_ui ui_port s0.
    unfold run, bindM, putenv, ret, emit.
    destruct (Py.eqb platform (py "Windows")); split; reflexivity.
  - exact St.
  - intros log_folder target_path.
    unfold convert. apply keeps_handles_bind; [apply keeps_handles_emit|].
    intros _. destruct log_folder as [folder|].
    + apply keeps_handles_bind; [apply keeps_handles_emit|]. intros _.
      apply keeps_handles_bind; [|intros _; apply keeps_handles_emit].
      unfold convert_folder_to_jsonl.
      apply keeps_handles_bind; [apply keeps_handles_emit|]. intros _.
      destruct (fails folder target_path);
        [apply keeps_handles_raise | apply keeps_handles_ret].
    + destruct target_path; [apply keeps_handles_raise|].
      apply keeps_handles_for_each. intros p. unfold convert_route.
      apply keeps_handles_bind; [apply keeps_handles_emit|]. intros _.
      apply keeps_handles_bind; [|intros _; apply keeps_handles_emit].
      unfold convert_folder_to_jsonl.
      apply keeps_handles_bind; [apply keeps_handles_emit|]. intros _.
      destruct (fails _ _);
        [apply keeps_handles_raise | apply keeps_handles_ret].
  - intros dir s0. split; reflexivity.
  - intros port workers kf cf. apply Start.
  - intros port workers kf cf. unfold _restart_uvicorn, bindM.
    destruct (St true false s) as [_ D]. unfold _stop_uvicorn.
    destruct (_stop true false s) as [[[]|e] s1]; cbn [snd] in *;
      [|exact D].
    rewrite Start. exact D.
Qed.



Example stop_streamlit_without_forwarder :
  _stop_streamlit (mkState None (Some 0%nat) [deaf_dashboard] 0 [] [])
  = (Returns tt,
     mkState None (Some 0%nat)
       [mkProcess [py "streamlit"; py "run"; py "webui/run.py"] 0
          (Some 5%nat) None]
       5 [] [SendSignal 0 (py "SIGINT"); Wait 0 5; Kill 0]).
Proof. reflexivity. Qed.

(** ** Starting over a running forwarder *)






(** ** More on [Cli.convert] *)

Lemma for_each_app {A} (xs ys : list A) (body : A -> M unit) (s : state) :
  for_each (xs ++ ys) body s
  = match for_each xs body s with
    | (Returns _, s1) => for_each ys body s1
    | (Raises e, s1) => (Raises e, s1)
    end.
Proof.
  revert s; induction xs as [|x xs IH]; intros s; cbn [app for_each].
  - reflexivity.
  - unfold bindM. destruct (body x s) as [[[]|e] s1]; [apply IH | reflexivity].
Qed.

(** With a folder given, [convert] converts that folder and no other: the
    configured routes are not consulted and no usage error is raised, with
    or without a target path (a missing target path is handed to the helper
    as [None] and printed as [None]).  A failure of the helper is the
    failure of the call, and the closing line is then not printed. *)
Theorem convert_given_folder :
  forall prefixes route_prefix_to_str convert_folder_fails
         (folder : pystr) (target_path : option pystr) (s : state),
    convert prefixes route_prefix_to_str convert_folder_fails
      (Some folder) target_path s
    = ((if convert_folder_fails folder target_path
        then Raises HelperError else Returns tt),
       mkState s.(uvicorn_proc) s.(streamlit_proc) s.(procs) s.(now)
         s.(environ)
         (s.(log)
          ++ [Print dashes;
              Print (py "Convert " ++ folder ++ py "/*.log to "
                     ++ format_optional target_path);
              ConvertFolder folder target_path]
          ++ (if convert_folder_fails folder target_path then []
              else [Print dashes]))).
Proof.
  intros prefixes r2s fails folder target_path s.
  unfold convert, convert_folder_to_jsonl, bindM, emit, raise, ret.
  cbn [log uvicorn_proc streamlit_proc procs now environ].
  destruct (fails folder target_path);
    cbn [log uvicorn_proc streamlit_proc procs now environ];
    rewrite <- !app_assoc; reflexivity.
Qed.

(** With no arguments, [convert] stops at the first route whose conversion
    fails: the routes before it have been converted, the failing one has
    been announced and attempted, the routes after it are not visited, and
    the helper's failure is raised. *)
Theorem convert_stops_at_first_failure :
  forall prefixes route_prefix_to_str convert_folder_fails
         (done rest : list pystr) (p : pystr) (s : state),
    map route_prefix_to_str prefixes = done ++ p :: rest ->
    (forall q, In q done ->
       convert_folder_fails (default_log_folder q)
         (Some (default_target_path q)) = false) ->
    convert_folder_fails (default_log_folder p) (Some (default_target_path p))
    = true ->
    convert prefixes route_prefix_to_str convert_folder_fails None None s
    = (Raises HelperError,
       mkState s.(uvicorn_proc) s.(streamlit_proc) s.(procs) s.(now)
         s.(environ)
         (s.(log)
          ++ Print dashes
             :: flat_map round_events done
             ++ [Print (py "Convert " ++ default_log_folder p
                        ++ py "/*.log to " ++ default_target_path p);
                 ConvertFolder (default_log_folder p)
                   (Some (default_target_path p))])).
Proof.
  intros prefixes r2s fails done rest p s E D F.
  rewrite convert_no_arguments, E, for_each_app.
  rewrite (@for_each_rounds fails done _ D).
  cbn [for_each]. unfold bindM at 1.
  unfold convert_route, convert_folder_to_jsonl. cbn zeta.
  unfold bindM, emit, raise.
  cbn [log uvicorn_proc streamlit_proc procs now environ].
  unfold default_log_folder, default_target_path in F |- *. revert F.
  destruct (fails _ _); [intros _ | discriminate].
  cbn [log uvicorn_proc streamlit_proc procs now environ].
  rewrite <- !app_assoc. reflexivity.
Qed.

Lemma convert_stops_at_first_failure_witness :
  fst (convert [py "/openai"; py "/v1"] (fun i => i)
         (fun folder _ => Py.eqb folder (py "./Log//v1/chat")) None None
         empty_state)
  = Raises HelperError.
Proof.
  rewrite (@convert_stops_at_first_failure [py "/openai"; py "/v1"]
             (fun i => i)
             (fun folder _ => Py.eqb folder (py "./Log//v1/chat"))
             [py "/openai"] [] (py "/v1") empty_state eq_refl).
  - reflexivity.
  - intros q [<-|[]]. reflexivity.
  - reflexivity.
Defined.

(** ** [_restart_uvicorn] without a running forwarder *)

(** [_restart_uvicorn] cannot be the first start: on a [Cli] whose
    [uvicorn_proc] was never assigned it raises [AttributeError] from the
    stop and spawns nothing.  When the handle names a forwarder that has
    already exited, the stop does nothing and the call is a plain
    [_start_uvicorn]. *)
Theorem restart_without_running_forwarder :
  forall platform healthz child_grace port workers kf cf (s : state),
    (s.(uvicorn_proc) = None ->
     _restart_uvicorn platform healthz child_grace port workers kf cf s
     = (Raises (Builtin (AttributeError (py "uvicorn_proc"))), s))
    /\ (forall u, s.(uvicorn_proc) = Some u -> running u s = false ->
        _restart_uvicorn platform healthz child_grace port workers kf cf s
        = _start_uvicorn platform healthz child_grace port workers kf cf s).
Proof.
  intros platform healthz child_grace port workers kf cf s. split.
  - intros U. unfold _restart_uvicorn, _stop_uvicorn, _stop, stop_handle,
      bindM, attribute. rewrite U. reflexivity.
  - intros u U R. unfold _restart_uvicorn, _stop_uvicorn, _stop, bindM.
    rewrite (@stop_handle_idle uvicorn_proc (py "uvicorn_proc") 15 s u U R).
    reflexivity.
Qed.

Example restart_on_a_new_cli :
  _restart_uvicorn (py "Linux") (fun _ _ => true) (fun _ => None) 8000 1 None
    None empty_state
  = (Raises (Builtin (AttributeError (py "uvicorn_proc"))), empty_state).
Proof. reflexivity. Qed.

(** ** The JSON text of the projection *)

Section JsonAscii.

Local Open Scope N_scope.

(** Text of ASCII characters only. *)
Definition ascii_text (s : pystr) : Prop := Forall (fun c => c < 128) s.

Lemma ascii_app (a b : pystr) :
  ascii_text a -> ascii_text b -> ascii_text (a ++ b).
Proof. intros A B. apply Forall_app; split; assumption. Qed.

Lemma hexdigit_ascii (d : N) : d < 16 -> Json.hexdigit d < 128.
Proof.
  intros H. unfold Json.hexdigit. destruct (N.ltb_spec d 10); lia.
Qed.

Lemma u_escape_ascii (n : N) : ascii_text (Json.u_escape n).
Proof.
  unfold Json.u_escape, ascii_text.
  repeat constructor; try reflexivity; apply hexdigit_ascii;
    apply N.mod_lt; discriminate.
Qed.

Lemma escape_char_ascii (c : N) : ascii_text (Json.escape_char c).
Proof.
  unfold Json.escape_char.
  do 7 (match goal with
        | |- ascii_text (if ?b then _ else _) => destruct b
        end; [repeat constructor|]).
  destruct ((32 <=? c) && (c <=? 126)) eqn:P.
  - apply andb_true_iff in P. destruct P as [_ P]. apply N.leb_le in P.
    repeat constructor. lia.
  - destruct (c <? 65536); [apply u_escape_ascii|].
    cbn zeta. apply ascii_app; apply u_escape_ascii.
Qed.

Lemma quote_ascii (s : pystr) : ascii_text (Json.quote s).
Proof.
  unfold Json.quote. constructor; [reflexivity|]. apply ascii_app.
  - induction s as [|c s IH]; cbn [flat_map]; [constructor|].
    apply ascii_app; [apply escape_char_ascii | exact IH].
  - repeat constructor.
Qed.

Lemma join_ascii (sep : pystr) (parts : list pystr) :
  ascii_text sep -> Forall ascii_text parts ->
  ascii_text (Py.join sep parts).
Proof.
  intros Hs H. induction H as [|p ps Hp Hps IH]; cbn [Py.join];
    [constructor|].
  destruct ps as [|q ps]; [exact Hp|].
  apply ascii_app; [exact Hp|]. apply ascii_app; [exact Hs | exact IH].
Qed.

Lemma str_of_int_ascii (z : Z) : ascii_text (Py.str_of_int z).
Proof.
  unfold ascii_text. eapply Forall_impl; [|apply str_of_int_chars].
  intros c [->|[A B]]; [reflexivity | lia].
Qed.

(** [json.dumps] with its default [ensure_ascii] writes ASCII only,
    whatever the strings of the value hold. *)
Lemma dumps_ascii (j : Json.t) : ascii_text (Json.dumps j).
Proof.
  induction j as [j IH] using json_size_ind.
  destruct j as [|b|z|s|l|d]; cbn [Json.dumps].
  - repeat constructor.
  - destruct b; repeat constructor.
  - apply str_of_int_ascii.
  - apply quote_ascii.
  - apply ascii_app; [repeat constructor|].
    apply ascii_app; [|repeat constructor].
    apply join_ascii; [repeat constructor|].
    apply Forall_forall. intros x Hx. apply in_map_iff in Hx.
    destruct Hx as (y & <- & Hy). apply IH. apply size_element. exact Hy.
  - apply ascii_app; [repeat constructor|].
    apply ascii_app; [|repeat constructor].
    apply join_ascii; [repeat constructor|].
    apply Forall_forall. intros x Hx. apply in_map_iff in Hx.
    destruct Hx as ([k v] & <- & Hy). cbn [fst snd].
    apply ascii_app; [apply quote_ascii|].
    apply ascii_app; [repeat constructor|].
    apply IH. apply (@size_member (k, v) d). exact Hy.
Qed.

End JsonAscii.

(** The keys of the projection whose values are JSON text. *)
Definition json_keys : list pystr :=
  [py "FORWARD_CONFIG"; py "OPENAI_API_KEY_CONFIG"; py "FORWARD_KEY_CONFIG";
   py "LEVEL_MODELS"; py "CACHE_ROUTES"; py "TOKEN_RATE_LIMIT";
   py "REQ_RATE_LIMIT"].

(** The seven structured entries of the projection are ASCII text, whatever
    characters the routes, keys, models and limits of the configuration
    hold: [json.dumps] escapes every other character. *)
Theorem projected_json_is_ascii :
  forall (C : Config.t) (set_env : bool) (environ env_dict environ' : env),
    Config.convert_to_env C set_env environ = Ok (env_dict, environ') ->
    forall k, In k json_keys ->
      exists v, dict_get k env_dict = Some v /\ ascii_text v.
Proof.
  intros C set_env environ env_dict environ' H k K.
  destruct (@projection_entries _ _ _ _ _ H) as (_ & d & _ & ->).
  unfold json_keys in K. cbn [In] in K.
  repeat (destruct K as [<-|K];
          [eexists; split; [reflexivity | apply dumps_ascii]|]).
  destruct K.
Qed.

(** A configuration with a route and a model name outside ASCII. *)
Definition unicode_config : Config.t :=
  Config.mk
    [ForwardItem.mk (py "https://api.openai.com") [47; 20013; 25991]%N
       (py "openai")]
    (ApiKey.mk [(py "sk-xx1", ApiKey.LevelsStr (py "0"))]
       [(0%Z, [py "fk-1"])] [(1%Z, [[27169; 22411]%N])])
    CacheConfig.default RateLimit.default Log.default
    (py "Asia/Shanghai") 6 false (py "") true.

Lemma projected_json_is_ascii_witness :
  dict_get (py "LEVEL_MODELS") (projection_of unicode_config)
  = Some (py "{" ++ [34%N] ++ py "1" ++ [34%N] ++ py ": [" ++ [34%N]
          ++ py "\u6a21\u578b" ++ [34%N] ++ py "]}")
  /\ ascii_text
       (py "{" ++ [34%N] ++ py "1" ++ [34%N] ++ py ": [" ++ [34%N]
        ++ py "\u6a21\u578b" ++ [34%N] ++ py "]}").
Proof.
  assert (H : Config.convert_to_env unicode_config false []
              = Ok (projection_of unicode_config, []))
    by (vm_compute; reflexivity).
  destruct (@projected_json_is_ascii _ _ _ _ _ H (py "LEVEL_MODELS"))
    as (v & G & A).
  - cbn. tauto.
  - split; [reflexivity|].
    assert (E : dict_get (py "LEVEL_MODELS") (projection_of unicode_config)
                = Some (py "{" ++ [34%N] ++ py "1" ++ [34%N] ++ py ": ["
                        ++ [34%N] ++ py "\u6a21\u578b" ++ [34%N] ++ py "]}"))
      by reflexivity.
    rewrite E in G. injection G as <-. exact A.
Defined.

(** The structure each JSON entry of the projection encodes. *)
Definition encoded (C : Config.t) (d : dict (list Z)) (k : pystr)
  : option Json.t :=
  dict_get k
    [(py "FORWARD_CONFIG", JList (map ForwardItem.to_dict C.(Config.forward)));
     (py "OPENAI_API_KEY_CONFIG", ApiKey.levels_json d);
     (py "FORWARD_KEY_CONFIG",
      ApiKey.int_keyed_json C.(Config.api_key).(ApiKey.forward_key));
     (py "LEVEL_MODELS",
      ApiKey.int_keyed_json C.(Config.api_key).(ApiKey.level));
     (py "CACHE_ROUTES",
      JList (map JStr C.(Config.cache).(CacheConfig.routes)));
     (py "TOKEN_RATE_LIMIT",
      RateLimit.limits_json
        (RateLimit.projected
           C.(Config.rate_limit).(RateLimit.token_rate_limit)));
     (py "REQ_RATE_LIMIT",
      RateLimit.limits_json
        (RateLimit.projected
           C.(Config.rate_limit).(RateLimit.req_rate_limit)))].

(** The seven structured entries of the projection are JSON documents that
    [json.loads] reads back to the structure that was encoded: the list of
    forward rules, the parsed levels of each provider key, the two
    level-keyed mappings with their keys as decimal strings, the cached
    routes and the two filtered rate-limit mappings.  This holds when the
    strings of the configuration are scalar text (no lone surrogates) and
    the level-keyed mappings have no repeated key. *)
Theorem projected_json_reads_back :
  forall (C : Config.t) (set_env : bool) (environ env_dict environ' : env),
    well_formed C ->
    Config.convert_to_env C set_env environ = Ok (env_dict, environ') ->
    exists d,
      ApiKey.parse_items C.(Config.api_key).(ApiKey.openai_key) [] = Ok d
      /\ forall k, In k json_keys ->
           exists v j,
             dict_get k env_dict = Some v
             /\ encoded C d k = Some j
             /\ v = Json.dumps j
             /\ Json.loads v = Some j.
Proof.
  intros C set_env environ env_dict environ' W H.
  destruct (@projection_entries _ _ _ _ _ H) as (_ & d & P & ->).
  exists d. split; [exact P|].
  assert (Wd : wf (ApiKey.levels_json d)).
  { destruct (@parse_items_keys _ _ _ P (NoDup_nil _)) as [ND K].
    apply wf_levels_json; [exact ND|]. apply Forall_forall. intros k Hk.
    destruct (K k Hk) as [[]|X]. pose proof (wf_openai_key W) as T.
    rewrite Forall_forall in T. unfold keys in X. apply in_map_iff in X.
    destruct X as (kv & <- & Hkv). exact (T kv Hkv). }
  intros k K. unfold json_keys in K. cbn [In] in K.
  destruct K as [<-|[<-|[<-|[<-|[<-|[<-|[<-|[]]]]]]]];
    eexists _, _; (split; [reflexivity|]); (split; [reflexivity|]);
    (split; [reflexivity|]); apply loads_dumps.
  - apply wf_forward_json, (wf_forward W).
  - exact Wd.
  - apply wf_int_keyed_json;
      [apply (wf_forward_key_keys W) | apply (wf_forward_key W)].
  - apply wf_int_keyed_json; [apply (wf_level_keys W) | apply (wf_level W)].
  - apply wf_strings_json, (wf_routes W).
  - apply wf_limits_json, (wf_token W).
  - apply wf_limits_json, (wf_req W).
Qed.

Lemma projected_json_reads_back_witness :
  option_map Json.loads
    (dict_get (py "CACHE_ROUTES") (projection_of sample_config))
  = Some (Some (JList [JStr (py "/v1/chat/completions")])).
Proof.
  assert (W : well_formed sample_config).
  { constructor; cbn -[Py.lit];
      repeat first [ apply text_ok_lit | apply Forall_nil | apply Forall_cons
                   | apply NoDup_nil | apply NoDup_cons | apply conj ];
      intros []. }
  assert (H : Config.convert_to_env sample_config false []
              = Ok (projection_of sample_config, []))
    by (vm_compute; reflexivity).
  destruct (@projected_json_reads_back _ _ _ _ _ W H) as (d & _ & R).
  destruct (R (py "CACHE_ROUTES")) as (v & j & G & E & _ & L).
  - cbn. tauto.
  - rewrite G. cbn [option_map]. rewrite L.
    cbn in E. injection E as <-. reflexivity.
Defined.

(** ** Stopping twice, and stopping both *)

(** Stopping both children is stopping the forwarder and then the
    dashboard: [_stop()] behaves as [_stop_uvicorn()] followed by
    [_stop_streamlit()], in every state, an exception of the first call
    (which then skips the second) included. *)
Theorem stop_both_is_one_after_the_other :
  forall (s : state),
    _stop true true s = (_stop_uvicorn ;;; _stop_streamlit) s
    /\ (forall e s1,
          _stop_uvicorn s = (Raises e, s1) -> _stop true true s = (Raises e, s1)).
Proof.
  intros s.
  unfold _stop_uvicorn, _stop_streamlit, _stop, bindM, ret.
  destruct (stop_handle uvicorn_proc (py "uvicorn_proc") 15 s)
    as [[[]|e] s1]; split; try reflexivity.
  - intros e s2 H. discriminate H.
  - intros e' s2 [= <- <-]. reflexivity.
Qed.


